(** * next-nice-datatable: data pipeline and export utilities

    A shallow embedding of the v2 sources of the table hook
    ([useDataTable]) and of the export utilities ([exportUtils]), together
    with the part of the JavaScript value model those functions rely on.

    Modelling conventions.
    - Strings are sequences of code units in the Latin-1 range, carried by
      [string].
    - Numbers are the integers ([Z]); a failed numeric coercion (NaN) is
      [None] in [option Z].
    - Objects carry a reference identity, their own data properties in
      insertion order and their prototype.  Rows are plain data: they hold
      no user-defined accessors or proxies.
    - A date is a valid date, carried with its time value: Invalid Date is
      not a value of the model.
    - Engine services whose result depends on the locale or on the clock
      are fields of the class [Host]. *)

From Stdlib Require Import ZArith List String Ascii Bool Arith Lia.
From Stdlib Require Import Sorting.Permutation Sorting.Sorted.
From Stdlib Require Import Numbers.DecimalString.
Import ListNotations.

Local Open Scope string_scope.
Local Open Scope list_scope.
Local Open Scope nat_scope.
Set Warnings "-register-all".

Infix "+++" := String.append (right associativity, at level 60).

(* ====================================================================== *)
(** ** JavaScript values *)
(* ====================================================================== *)

Module JS.

(** Built-in prototype objects reachable from table data. *)
Inductive intrinsic : Type :=
| ObjectPrototype
| ArrayPrototype
| DatePrototype
| StringPrototype
| NumberPrototype
| BooleanPrototype
| FunctionPrototype.

Inductive value : Type :=
| VUndefined
| VNull
| VBool (b : bool)
| VNum (n : Z)
| VStr (s : string)
| VFun (name : string)
| VDate (ref : nat) (time : Z)
| VArr (ref : nat) (items : list value)
| VObj (ref : nat) (own : list (string * value)) (proto : value)
| VIntrinsic (i : intrinsic).

(** The results of the [typeof] operator that the sources test for. *)
Inductive jstype : Type :=
| TUndefined | TObject | TBoolean | TNumber | TString | TFunction.

Definition typeof (v : value) : jstype :=
  match v with
  | VUndefined => TUndefined
  | VNull => TObject
  | VBool _ => TBoolean
  | VNum _ => TNumber
  | VStr _ => TString
  | VFun _ => TFunction
  | VDate _ _ | VArr _ _ | VObj _ _ _ | VIntrinsic _ => TObject
  end.

Definition jstype_eqb (a b : jstype) : bool :=
  match a, b with
  | TUndefined, TUndefined | TObject, TObject | TBoolean, TBoolean
  | TNumber, TNumber | TString, TString | TFunction, TFunction => true
  | _, _ => false
  end.

(** [v === null || v === undefined] *)
Definition isNullish (v : value) : bool :=
  match v with
  | VUndefined | VNull => true
  | _ => false
  end.

(** Abrupt completions. *)
Inductive error : Type :=
| TypeError (msg : string).

Inductive result (A : Type) : Type :=
| Ok (a : A)
| Throw (e : error).

Arguments Ok {A} a.
Arguments Throw {A} e.

Definition natToString (n : nat) : string :=
  NilEmpty.string_of_uint (Nat.to_uint n).

Definition intToString (z : Z) : string :=
  NilEmpty.string_of_int (Z.to_int z).

(** *** Property lookup *)

(** What a property lookup finds: a data property, or the [__proto__]
    accessor inherited from [Object.prototype]. *)
Inductive slot : Type :=
| Data (v : value)
| ProtoAccessor.

Fixpoint assoc {A : Type} (key : string) (l : list (string * A)) : option A :=
  match l with
  | [] => None
  | (k, v) :: rest => if String.eqb k key then Some v else assoc key rest
  end.

Definition objectMethods : list string :=
  ["toString"; "toLocaleString"; "valueOf"; "hasOwnProperty";
   "isPrototypeOf"; "propertyIsEnumerable"].

Definition arrayMethods : list string :=
  ["concat"; "every"; "filter"; "find"; "forEach"; "includes"; "indexOf";
   "join"; "map"; "pop"; "push"; "reduce"; "slice"; "some"; "sort";
   "toString"].

Definition dateMethods : list string :=
  ["getTime"; "toISOString"; "toLocaleDateString"; "toLocaleString";
   "toString"; "valueOf"].

Definition stringMethods : list string :=
  ["charAt"; "endsWith"; "includes"; "indexOf"; "localeCompare"; "replace";
   "slice"; "split"; "startsWith"; "toLowerCase"; "toString"; "trim";
   "valueOf"].

Definition numberMethods : list string :=
  ["toFixed"; "toLocaleString"; "toString"; "valueOf"].

Definition booleanMethods : list string := ["toString"; "valueOf"].

Definition functionMethods : list string :=
  ["apply"; "bind"; "call"; "toString"].

Definition constructorName (i : intrinsic) : string :=
  match i with
  | ObjectPrototype => "Object"
  | ArrayPrototype => "Array"
  | DatePrototype => "Date"
  | StringPrototype => "String"
  | NumberPrototype => "Number"
  | BooleanPrototype => "Boolean"
  | FunctionPrototype => "Function"
  end.

Definition methodsOf (i : intrinsic) : list string :=
  match i with
  | ObjectPrototype => objectMethods
  | ArrayPrototype => arrayMethods
  | DatePrototype => dateMethods
  | StringPrototype => stringMethods
  | NumberPrototype => numberMethods
  | BooleanPrototype => booleanMethods
  | FunctionPrototype => functionMethods
  end.

(** Own properties of a built-in prototype (a representative selection of
    its methods). *)
Definition intrinsicOwn (i : intrinsic) (key : string) : option slot :=
  if String.eqb key "constructor" then Some (Data (VFun (constructorName i)))
  else if existsb (String.eqb key) (methodsOf i) then Some (Data (VFun key))
  else match i with
       | ObjectPrototype =>
           if String.eqb key "__proto__" then Some ProtoAccessor else None
       | _ => None
       end.

(** Lookup starting at a built-in prototype: every one of them inherits
    from [Object.prototype], whose own prototype is [null]. *)
Definition intrinsicGet (i : intrinsic) (key : string) : option slot :=
  match intrinsicOwn i key with
  | Some s => Some s
  | None =>
      match i with
      | ObjectPrototype => None
      | _ => intrinsicOwn ObjectPrototype key
      end
  end.

(** The index [i < n] whose canonical decimal form is [key]. *)
Definition indexOfKey (key : string) (n : nat) : option nat :=
  find (fun i => String.eqb (natToString i) key) (seq 0 n).

Definition arrayOwn (items : list value) (key : string) : option value :=
  if String.eqb key "length" then Some (VNum (Z.of_nat (List.length items)))
  else match indexOfKey key (List.length items) with
       | Some i => nth_error items i
       | None => None
       end.

Definition stringOwn (s : string) (key : string) : option value :=
  if String.eqb key "length" then Some (VNum (Z.of_nat (String.length s)))
  else match indexOfKey key (String.length s) with
       | Some i => Some (VStr (String.substring i 1 s))
       | None => None
       end.

Definition orElse {A : Type} (o : option A) (d : option slot) (f : A -> slot)
  : option slot :=
  match o with
  | Some a => Some (f a)
  | None => d
  end.

(** Own properties first, then the prototype chain. *)
Fixpoint findSlot (o : value) (key : string) : option slot :=
  match o with
  | VUndefined | VNull => None
  | VBool _ => intrinsicGet BooleanPrototype key
  | VNum _ => intrinsicGet NumberPrototype key
  | VStr s => orElse (stringOwn s key) (intrinsicGet StringPrototype key) Data
  | VFun _ => intrinsicGet FunctionPrototype key
  | VDate _ _ => intrinsicGet DatePrototype key
  | VArr _ items =>
      orElse (arrayOwn items key) (intrinsicGet ArrayPrototype key) Data
  | VObj _ own proto =>
      match assoc key own with
      | Some v => Some (Data v)
      | None => findSlot proto key
      end
  | VIntrinsic i => intrinsicGet i key
  end.

(** The [[Prototype]] of a value (of its wrapper, for a primitive). *)
Definition protoOf (o : value) : value :=
  match o with
  | VUndefined | VNull => VNull
  | VBool _ => VIntrinsic BooleanPrototype
  | VNum _ => VIntrinsic NumberPrototype
  | VStr _ => VIntrinsic StringPrototype
  | VFun _ => VIntrinsic FunctionPrototype
  | VDate _ _ => VIntrinsic DatePrototype
  | VArr _ _ => VIntrinsic ArrayPrototype
  | VObj _ _ proto => proto
  | VIntrinsic ObjectPrototype => VNull
  | VIntrinsic _ => VIntrinsic ObjectPrototype
  end.

(** The member access [o[key]] on a receiver that is not [null] or
    [undefined]: the property found along the prototype chain, or
    [undefined]. *)
Definition member (o : value) (key : string) : value :=
  match findSlot o key with
  | Some (Data v) => v
  | Some ProtoAccessor => protoOf o
  | None => VUndefined
  end.

(** The member access [o[key]] in general: a [TypeError] on [null] and
    [undefined]. *)
Definition get (o : value) (key : string) : result value :=
  if isNullish o
  then Throw (TypeError "Cannot read properties of null or undefined")
  else Ok (member o key).

(** *** [String.prototype.split] on a one-character separator *)

Fixpoint splitOn (sep : ascii) (s : string) : list string :=
  match s with
  | EmptyString => [EmptyString]
  | String c rest =>
      if Ascii.eqb c sep then EmptyString :: splitOn sep rest
      else match splitOn sep rest with
           | [] => [String c EmptyString]
           | seg :: segs => String c seg :: segs
           end
  end.

(** *** String operations *)

Definition dq : string := String "034"%char EmptyString.
Definition nl : string := String "010"%char EmptyString.

(** Lower-casing of one Latin-1 code unit. *)
Definition lowerChar (c : ascii) : ascii :=
  let n := nat_of_ascii c in
  if ((65 <=? n)%nat && (n <=? 90)%nat)
     || ((192 <=? n)%nat && (n <=? 222)%nat && negb (n =? 215)%nat)
  then ascii_of_nat (n + 32)
  else c.

Fixpoint toLowerCase (s : string) : string :=
  match s with
  | EmptyString => EmptyString
  | String c rest => String (lowerChar c) (toLowerCase rest)
  end.

Fixpoint startsWith (s p : string) {struct p} : bool :=
  match p with
  | EmptyString => true
  | String c p' =>
      match s with
      | EmptyString => false
      | String d s' => Ascii.eqb c d && startsWith s' p'
      end
  end.

Fixpoint includes (s p : string) : bool :=
  startsWith s p ||
  match s with
  | EmptyString => false
  | String _ s' => includes s' p
  end.

Definition endsWith (s p : string) : bool :=
  let ls := String.length s in
  let lp := String.length p in
  (lp <=? ls)%nat && String.eqb (String.substring (ls - lp) lp s) p.

(** [parts.join(sep)] *)
Fixpoint join (sep : string) (parts : list string) : string :=
  match parts with
  | [] => EmptyString
  | [p] => p
  | p :: rest => p +++ sep +++ join sep rest
  end.

(** *** Host services *)

(** Built-ins whose result depends on the locale, the time zone or the
    engine.  [localeCompare] returns a number of which only the sign is
    used; [stringToNumber] is the string-to-number conversion, [None]
    standing for NaN. *)
Class Host : Type := {
  localeCompare : string -> string -> Z;
  stringToNumber : string -> option Z;
  functionToString : string -> string;
  dateToString : Z -> string;
  dateToISOString : Z -> string;
  dateToLocaleDateString : Z -> string;
  jsonStringify : value -> string
}.

Section Coercions.

Context {host : Host}.

(** [String(v)].  Objects are taken to inherit the default [toString]. *)
Fixpoint String_ (v : value) : string :=
  match v with
  | VUndefined => "undefined"
  | VNull => "null"
  | VBool true => "true"
  | VBool false => "false"
  | VNum n => intToString n
  | VStr s => s
  | VFun name => functionToString name
  | VDate _ t => dateToString t
  | VArr _ items =>
      join ","
        ((fix each (l : list value) : list string :=
            match l with
            | [] => []
            | item :: rest =>
                (if isNullish item then EmptyString else String_ item)
                  :: each rest
            end) items)
  | VObj _ _ _ => "[object Object]"
  | VIntrinsic _ => "[object Object]"
  end.

(** [Number(v)], [None] standing for NaN. *)
Definition Number_ (v : value) : option Z :=
  match v with
  | VUndefined => None
  | VNull => Some 0%Z
  | VBool true => Some 1%Z
  | VBool false => Some 0%Z
  | VNum n => Some n
  | VStr s => stringToNumber s
  | VDate _ t => Some t
  | _ => stringToNumber (String_ v)
  end.

End Coercions.

(** [a > b] and [a < b] on numbers: false as soon as one side is NaN. *)
Definition numGt (a b : option Z) : bool :=
  match a, b with
  | Some x, Some y => (y <? x)%Z
  | _, _ => false
  end.

Definition numLt (a b : option Z) : bool :=
  match a, b with
  | Some x, Some y => (x <? y)%Z
  | _, _ => false
  end.

Definition intrinsic_eqb (a b : intrinsic) : bool :=
  match a, b with
  | ObjectPrototype, ObjectPrototype | ArrayPrototype, ArrayPrototype
  | DatePrototype, DatePrototype | StringPrototype, StringPrototype
  | NumberPrototype, NumberPrototype | BooleanPrototype, BooleanPrototype
  | FunctionPrototype, FunctionPrototype => true
  | _, _ => false
  end.

(** [a === b]: primitives by value, objects by reference. *)
Definition strictEq (a b : value) : bool :=
  match a, b with
  | VUndefined, VUndefined => true
  | VNull, VNull => true
  | VBool x, VBool y => Bool.eqb x y
  | VNum x, VNum y => Z.eqb x y
  | VStr x, VStr y => String.eqb x y
  | VFun x, VFun y => String.eqb x y
  | VDate r _, VDate r' _ => Nat.eqb r r'
  | VArr r _, VArr r' _ => Nat.eqb r r'
  | VObj r _ _, VObj r' _ _ => Nat.eqb r r'
  | VIntrinsic i, VIntrinsic j => intrinsic_eqb i j
  | _, _ => false
  end.

(** [arr.slice(start, end)] for [0 <= start <= end]. *)
Definition slice {A : Type} (l : list A) (start stop : nat) : list A :=
  firstn (stop - start) (skipn start l).

(** [arr.sort(compare)].  The built-in sort is stable; it is modelled by
    insertion, from left to right, of each element into the sorted prefix,
    in front of the first element that the comparator ranks above it
    ([compare y x > 0]). *)
Fixpoint insertBy {A : Type} (compare : A -> A -> Z) (x : A) (sorted : list A)
  : list A :=
  match sorted with
  | [] => [x]
  | y :: rest =>
      if (0 <? compare y x)%Z then x :: y :: rest
      else y :: insertBy compare x rest
  end.

Definition sort {A : Type} (compare : A -> A -> Z) (l : list A) : list A :=
  fold_left (fun sorted x => insertBy compare x sorted) l [].

End JS.

Import JS.

(* ====================================================================== *)
(** ** exportUtils: safe nested access *)
(* ====================================================================== *)

Module ExportUtils.

(** Keys that must never be traversed. *)
Definition BANNED_KEYS : list string :=
  ["__proto__"; "constructor"; "prototype"].

(** [BANNED_KEYS.has(part)] *)
Definition bannedKey (part : string) : bool :=
  existsb (String.eqb part) BANNED_KEYS.

(** The loop of [getNestedValue].  The first component lists the segments
    whose property was actually read. *)
Fixpoint walkPath (parts : list string) (current : value)
  : list string * result value :=
  match parts with
  | [] => ([], Ok current)
  | part :: rest =>
      if bannedKey part then ([], Ok VUndefined)
      else if isNullish current || negb (jstype_eqb (typeof current) TObject)
      then ([], Ok VUndefined)
      else match get current part with
           | Ok next =>
               let (reads, r) := walkPath rest next in (part :: reads, r)
           | Throw e => ([part], Throw e)
           end
  end.

Definition pathSegments (path : string) : list string := splitOn "."%char path.

Definition getNestedValue (obj : value) (path : string) : result value :=
  snd (walkPath (pathSegments path) obj).

(** The property reads [getNestedValue] performs, in order. *)
Definition propertyReads (obj : value) (path : string) : list string :=
  fst (walkPath (pathSegments path) obj).

(** The value a consumer of [getNestedValue] goes on with. *)
Definition valueAt (row : value) (path : string) : value :=
  match getNestedValue row path with
  | Ok v => v
  | Throw _ => VUndefined
  end.

(** *** Escaping *)

(** The serialisation of one character of a text node, as [innerHTML]
    produces it. *)
Definition escapeChar (c : ascii) : string :=
  if Ascii.eqb c "&"%char then "&amp;"
  else if Ascii.eqb c "<"%char then "&lt;"
  else if Ascii.eqb c ">"%char then "&gt;"
  else if Ascii.eqb c "160"%char then "&nbsp;"
  else String c EmptyString.

(** [div.textContent = str; return div.innerHTML] *)
Fixpoint escapeText (str : string) : string :=
  match str with
  | EmptyString => EmptyString
  | String c rest => escapeChar c +++ escapeText rest
  end.

Section Exporters.

Context {host : Host}.

Definition escapeHtml (v : value) : string :=
  if isNullish v then EmptyString else escapeText (String_ v).

(** [!value] for [value : string | undefined] *)
Definition falsy (v : option string) : bool :=
  match v with
  | None => true
  | Some s => String.eqb s EmptyString
  end.

(** [value || fallback] *)
Definition orDefault (v : option string) (fallback : string) : string :=
  match v with
  | None => fallback
  | Some s => if String.eqb s EmptyString then fallback else s
  end.

Definition resolveHtmlContent (v : option string) (allowUnsafe : bool)
  : string :=
  match v with
  | None => EmptyString
  | Some s =>
      if String.eqb s EmptyString then EmptyString
      else if allowUnsafe then s else escapeHtml (VStr s)
  end.

(** *** Columns and configuration *)

Record DataTableColumn : Type := {
  id : string;
  label : string;
  searchable : option bool;
  hidden : option bool;
  exportable : option bool;
  exportFormat : option (value -> value -> nat -> string)
}.

Record ExportConfig : Type := {
  filename : option string;
  title : option string;
  subtitle : option string;
  includeHeaders : option bool;
  customHeader : option string;
  customFooter : option string;
  allowUnsafeHtml : option bool
}.

(** [flag !== false] *)
Definition notFalse (flag : option bool) : bool :=
  match flag with
  | Some false => false
  | _ => true
  end.

(** [flag === true] *)
Definition isTrue (flag : option bool) : bool :=
  match flag with
  | Some true => true
  | _ => false
  end.

(** [!flag] for an optional boolean *)
Definition notSet (flag : option bool) : bool := negb (isTrue flag).

Definition formatValueForExport (v row : value) (column : DataTableColumn)
    (rowIndex : nat) : string :=
  match exportFormat column with
  | Some format => format v row rowIndex
  | None =>
      match v with
      | VUndefined | VNull => EmptyString
      | VBool b => if b then "Yes" else "No"
      | VDate _ t => dateToLocaleDateString t
      | VArr _ _ | VObj _ _ _ | VIntrinsic _ => jsonStringify v
      | _ => String_ v
      end
  end.

Definition exportableColumns (columns : list DataTableColumn)
  : list DataTableColumn :=
  filter (fun col => notFalse (exportable col) && notSet (hidden col)) columns.

(** *** Word export *)

Definition customHeaderHtml (config : ExportConfig) : string :=
  if falsy (customHeader config) then EmptyString
  else "<div class=" +++ dq +++ "custom-header" +++ dq +++ ">"
       +++ resolveHtmlContent (customHeader config)
             (isTrue (allowUnsafeHtml config))
       +++ "</div>".

Definition customFooterHtml (config : ExportConfig) : string :=
  if falsy (customFooter config)
  then "<p class=" +++ dq +++ "footer" +++ dq +++ ">"
       +++ escapeHtml (VStr (orDefault (title config) "Document")) +++ "</p>"
  else "<p class=" +++ dq +++ "footer" +++ dq +++ ">"
       +++ resolveHtmlContent (customFooter config)
             (isTrue (allowUnsafeHtml config))
       +++ "</p>".

Definition wordCell (row : value) (rowIndex : nat) (col : DataTableColumn)
  : string :=
  let v := valueAt row (id col) in
  let formatted := formatValueForExport v row col rowIndex in
  "<td>" +++ escapeHtml (VStr formatted) +++ "</td>".

Definition wordRow (cols : list DataTableColumn) (rowIndex : nat)
    (row : value) : string :=
  "<tr>" +++ join EmptyString (map (wordCell row rowIndex) cols) +++ "</tr>".

(** [data.map((row, rowIndex) => ...)] *)
Fixpoint mapi {A B : Type} (f : nat -> A -> B) (i : nat) (l : list A)
  : list B :=
  match l with
  | [] => []
  | x :: rest => f i x :: mapi f (S i) rest
  end.

Definition tableRows (data : list value) (cols : list DataTableColumn)
  : string :=
  join nl (mapi (wordRow cols) 0 data).

Definition headerRow (config : ExportConfig) (cols : list DataTableColumn)
  : string :=
  if notFalse (includeHeaders config)
  then "<tr>"
       +++ join EmptyString
             (map (fun col => "<th>" +++ escapeHtml (VStr (label col))
                              +++ "</th>") cols)
       +++ "</tr>"
  else EmptyString.

Definition wordProlog : string :=
"
<html xmlns:o=" +++ dq +++ "urn:schemas-microsoft-com:office:office" +++ dq +++ "
      xmlns:w=" +++ dq +++ "urn:schemas-microsoft-com:office:word" +++ dq +++ "
      xmlns=" +++ dq +++ "http://www.w3.org/TR/REC-html40" +++ dq +++ ">
<head>
  <meta charset=" +++ dq +++ "UTF-8" +++ dq +++ ">
  <title>".

Definition wordStyles : string :=
"</title>
  <!--[if gte mso 9]>
  <xml>
    <w:WordDocument>
      <w:View>Print</w:View>
      <w:Zoom>100</w:Zoom>
      <w:DoNotOptimizeForBrowser/>
    </w:WordDocument>
  </xml>
  <![endif]-->
  <style>
    body { font-family: Calibri, sans-serif; font-size: 11pt; margin: 2cm; }
    h1 { font-size: 18pt; color: #1976d2; margin-bottom: 4pt; }
    .subtitle { font-size: 11pt; color: #666; margin-bottom: 12pt; }
    .custom-header { font-size: 10pt; margin-bottom: 8pt; }
    .meta { font-size: 9pt; color: #888; margin-bottom: 18pt; }
    table { width: 100%; border-collapse: collapse; margin-top: 8pt; }
    th {
      background-color: #1976d2; color: white; font-weight: bold;
      text-align: left; padding: 7pt 5pt; font-size: 10pt;
      border: 1pt solid #1565c0;
    }
    td { padding: 5pt; border: 1pt solid #e0e0e0; font-size: 10pt; }
    tr:nth-child(even) td { background-color: #f5f5f5; }
    .footer {
      margin-top: 18pt; padding-top: 8pt; border-top: 1pt solid #e0e0e0;
      font-size: 9pt; color: #888; text-align: center;
    }
  </style>
</head>
<body>
  ".

Definition indent : string :=
"
  ".

Definition titleHtml (config : ExportConfig) : string :=
  if falsy (title config) then EmptyString
  else "<h1>" +++ escapeHtml (VStr (orDefault (title config) EmptyString))
       +++ "</h1>".

Definition subtitleHtml (config : ExportConfig) : string :=
  if falsy (subtitle config) then EmptyString
  else "<p class=" +++ dq +++ "subtitle" +++ dq +++ ">"
       +++ escapeHtml (VStr (orDefault (subtitle config) EmptyString))
       +++ "</p>".

(** The meta line; [generated] is [new Date().toLocaleString()]. *)
Definition metaHtml (generated : string) (records : nat) : string :=
  "<p class=" +++ dq +++ "meta" +++ dq +++ ">Generated: "
  +++ escapeHtml (VStr generated) +++ " | Total Records: "
  +++ natToString records +++ "</p>".

(** The markup [exportToWord] hands to the download helper. *)
Definition exportToWord (generated : string) (data : list value)
    (columns : list DataTableColumn) (config : ExportConfig) : string :=
  let cols := exportableColumns columns in
  wordProlog
  +++ escapeHtml (VStr (orDefault (title config) "Export"))
  +++ wordStyles
  +++ titleHtml config
  +++ indent
  +++ subtitleHtml config
  +++ indent
  +++ customHeaderHtml config
  +++ indent
  +++ metaHtml generated (List.length data)
  +++ "
  <table>
    <thead>" +++ headerRow config cols
  +++ "</thead>
    <tbody>" +++ tableRows data cols
  +++ "</tbody>
  </table>
  " +++ customFooterHtml config
  +++ "
</body>
</html>".

End Exporters.

End ExportUtils.

(** The v1 copy kept under [src/exportUtils.ts]:
    [path.split('.').reduce((acc, part) => acc?.[part], obj)]. *)
Module Legacy.

Definition optionalGet (acc : value) (part : string) : result value :=
  if isNullish acc then Ok VUndefined else get acc part.

Fixpoint reduceParts (parts : list string) (acc : value) : result value :=
  match parts with
  | [] => Ok acc
  | part :: rest =>
      match optionalGet acc part with
      | Ok next => reduceParts rest next
      | Throw e => Throw e
      end
  end.

Definition getNestedValue (obj : value) (path : string) : result value :=
  reduceParts (ExportUtils.pathSegments path) obj.

End Legacy.

Import ExportUtils.

(* ====================================================================== *)
(** ** useDataTable: the table hook *)
(* ====================================================================== *)

Module UseDataTable.

Inductive SortDirection : Type := asc | desc.

Record SortState : Type := {
  column : option string;
  direction : option SortDirection
}.

Inductive FilterOperator : Type :=
| OpEquals | OpContains | OpStartsWith | OpEndsWith
| OpGreaterThan | OpLessThan | OpBetween | OpIsEmpty | OpIsNotEmpty.

Record ColumnFilter : Type := {
  fvalue : value;
  operator : FilterOperator
}.

(** [Object.entries(filters)], in property order. *)
Definition FilterState : Type := list (string * ColumnFilter).

Record ServerSearchState : Type := {
  term : string;
  fields : list string
}.

Record SearchCriteria : Type := {
  field : string;
  cvalue : string;
  coperator : string
}.

Record AdvancedSearchState : Type := {
  criteria : list SearchCriteria;
  matchAll : bool
}.

Record FetchDataParams : Type := {
  fpage : nat;
  frowsPerPage : nat;
  fsort : SortState;
  ffilters : FilterState;
  fsearch : ServerSearchState;
  fadvancedSearch : option AdvancedSearchState
}.

Record FetchResult : Type := {
  rdata : list value;
  rtotalCount : nat
}.

(** How a promise settles. *)
Inductive settled (A : Type) : Type :=
| Fulfilled (a : A)
| Rejected (reason : value).

Arguments Fulfilled {A} a.
Arguments Rejected {A} reason.

Inductive SelectionMode : Type := single | multiple.
Inductive SelectAllScope : Type := scopePage | scopeAll.
Inductive FilterMode : Type := filterClient | filterServer.

Record SelectionConfig : Type := {
  mode : option SelectionMode;
  doubleClickSelectsOnly : option bool;
  selectAllScopeOption : option SelectAllScope
}.

(** The props the hook reads.  A callback prop is recorded by whether the
    caller supplied it; calling it is an [event]. *)
Record DataTableProps : Type := {
  propData : list value;
  columns : list DataTableColumn;
  propTotalCount : option nat;
  propPage : option nat;
  propRowsPerPage : option nat;
  propSort : option SortState;
  propFilters : option FilterState;
  propClientFilterTerm : option string;
  propSearchTerm : option string;
  propServerSearch : option ServerSearchState;
  propAdvancedSearch : option AdvancedSearchState;
  propSelectedRows : option (list value);
  clientFilterEnabled : option bool;
  filterMode : option FilterMode;
  selectionConfig : option SelectionConfig;
  defaultRowsPerPage : option nat;
  defaultSortColumn : option string;
  defaultSortDirection : option SortDirection;
  defaultSearchFields : option (list string);
  onSelectionChange : bool;
  onFetchData : option (FetchDataParams -> settled FetchResult);
  rowKeyField : string;
  propLoading : bool
}.

(** The state the hook owns ([useState]). *)
Record HookState : Type := {
  internalPage : nat;
  internalRowsPerPage : nat;
  internalSort : SortState;
  internalFilters : FilterState;
  internalClientFilterTerm : string;
  internalServerSearch : ServerSearchState;
  internalAdvancedSearch : AdvancedSearchState;
  internalSelectedRows : list value;
  serverLoading : bool;
  serverData : list value;
  serverTotalCount : nat
}.

(** What a handler does besides updating the state. *)
Inductive event : Type :=
| SelectionChanged (rows : list value)
| ConsoleError (message : string) (reason : value).

Definition setInternalSelectedRows (rows : list value) (st : HookState)
  : HookState :=
  {| internalPage := internalPage st;
     internalRowsPerPage := internalRowsPerPage st;
     internalSort := internalSort st;
     internalFilters := internalFilters st;
     internalClientFilterTerm := internalClientFilterTerm st;
     internalServerSearch := internalServerSearch st;
     internalAdvancedSearch := internalAdvancedSearch st;
     internalSelectedRows := rows;
     serverLoading := serverLoading st;
     serverData := serverData st;
     serverTotalCount := serverTotalCount st |}.

Definition setServerLoading (flag : bool) (st : HookState) : HookState :=
  {| internalPage := internalPage st;
     internalRowsPerPage := internalRowsPerPage st;
     internalSort := internalSort st;
     internalFilters := internalFilters st;
     internalClientFilterTerm := internalClientFilterTerm st;
     internalServerSearch := internalServerSearch st;
     internalAdvancedSearch := internalAdvancedSearch st;
     internalSelectedRows := internalSelectedRows st;
     serverLoading := flag;
     serverData := serverData st;
     serverTotalCount := serverTotalCount st |}.

Definition setServerData (rows : list value) (st : HookState) : HookState :=
  {| internalPage := internalPage st;
     internalRowsPerPage := internalRowsPerPage st;
     internalSort := internalSort st;
     internalFilters := internalFilters st;
     internalClientFilterTerm := internalClientFilterTerm st;
     internalServerSearch := internalServerSearch st;
     internalAdvancedSearch := internalAdvancedSearch st;
     internalSelectedRows := internalSelectedRows st;
     serverLoading := serverLoading st;
     serverData := rows;
     serverTotalCount := serverTotalCount st |}.

Definition setServerTotalCount (n : nat) (st : HookState) : HookState :=
  {| internalPage := internalPage st;
     internalRowsPerPage := internalRowsPerPage st;
     internalSort := internalSort st;
     internalFilters := internalFilters st;
     internalClientFilterTerm := internalClientFilterTerm st;
     internalServerSearch := internalServerSearch st;
     internalAdvancedSearch := internalAdvancedSearch st;
     internalSelectedRows := internalSelectedRows st;
     serverLoading := serverLoading st;
     serverData := serverData st;
     serverTotalCount := n |}.

Definition DEFAULT_ROWS_PER_PAGE : nat := 12.

(** The initial values given to [useState]. *)
Definition initialState (props : DataTableProps) : HookState :=
  {| internalPage := 0;
     internalRowsPerPage :=
       match defaultRowsPerPage props with
       | Some (S n) => S n
       | _ => DEFAULT_ROWS_PER_PAGE
       end;
     internalSort :=
       {| column :=
            match defaultSortColumn props with
            | Some c => if String.eqb c EmptyString then None else Some c
            | None => None
            end;
          direction := defaultSortDirection props |};
     internalFilters := [];
     internalClientFilterTerm := EmptyString;
     internalServerSearch :=
       {| term := EmptyString;
          fields := match defaultSearchFields props with
                    | Some fs => fs
                    | None => []
                    end |};
     internalAdvancedSearch := {| criteria := []; matchAll := true |};
     internalSelectedRows := [];
     serverLoading := false;
     serverData := [];
     serverTotalCount := 0 |}.

(** [a ?? b] *)
Definition coalesce {A : Type} (a : option A) (b : A) : A :=
  match a with
  | Some x => x
  | None => b
  end.

Section Hook.

Context {host : Host}.
Variable props : DataTableProps.

(** *** Controlled / uncontrolled resolution *)

Definition page (st : HookState) : nat :=
  coalesce (propPage props) (internalPage st).

Definition rowsPerPage (st : HookState) : nat :=
  coalesce (propRowsPerPage props) (internalRowsPerPage st).

Definition sortState (st : HookState) : SortState :=
  coalesce (propSort props) (internalSort st).

Definition filters (st : HookState) : FilterState :=
  coalesce (propFilters props) (internalFilters st).

Definition clientFilterTerm (st : HookState) : string :=
  coalesce (propClientFilterTerm props)
    (coalesce (propSearchTerm props) (internalClientFilterTerm st)).

Definition serverSearch (st : HookState) : ServerSearchState :=
  coalesce (propServerSearch props) (internalServerSearch st).

Definition advancedSearch (st : HookState) : AdvancedSearchState :=
  coalesce (propAdvancedSearch props) (internalAdvancedSearch st).

Definition selectedRows (st : HookState) : list value :=
  coalesce (propSelectedRows props) (internalSelectedRows st).

Definition isServerSide : bool :=
  match onFetchData props with
  | Some _ => true
  | None => false
  end.

(** *** Client-side search *)

(** The leaf strings of a value.  [visited] plays the [WeakSet]: the
    references of the arrays and objects already entered.  A [VDate] is a
    valid date, for which [toISOString] returns; on an Invalid Date, which
    the model does not hold, it throws. *)
Fixpoint extractAllValues (obj : value) (visited : list nat)
  : list string * list nat :=
  match obj with
  | VUndefined | VNull => ([], visited)
  | VStr s => ([s], visited)
  | VNum _ | VBool _ => ([String_ obj], visited)
  | VDate _ t => ([dateToISOString t; dateToLocaleDateString t], visited)
  | VArr r items =>
      if existsb (Nat.eqb r) visited then ([], visited)
      else
        (fix each (l : list value) (seen : list nat)
           : list string * list nat :=
           match l with
           | [] => ([], seen)
           | item :: rest =>
               let (vs, seen1) := extractAllValues item seen in
               let (ws, seen2) := each rest seen1 in
               (vs ++ ws, seen2)
           end) items (r :: visited)
  | VObj r own _ =>
      if existsb (Nat.eqb r) visited then ([], visited)
      else
        (fix each (l : list (string * value)) (seen : list nat)
           : list string * list nat :=
           match l with
           | [] => ([], seen)
           | (_, v) :: rest =>
               let (vs, seen1) := extractAllValues v seen in
               let (ws, seen2) := each rest seen1 in
               (vs ++ ws, seen2)
           end) own (r :: visited)
  | VFun _ | VIntrinsic _ => ([], visited)
  end.

Definition matchesSearch (row : value) (searchLower : string) : bool :=
  existsb
    (fun col =>
       let v := valueAt row (id col) in
       negb (isNullish v) && includes (toLowerCase (String_ v)) searchLower)
    (filter (fun col => notFalse (searchable col)) (columns props))
  || existsb (fun v => includes (toLowerCase v) searchLower)
       (fst (extractAllValues row [])).

(** *** Column filters *)

(** [v ?? ''] *)
Definition orEmpty (v : value) : value :=
  if isNullish v then VStr EmptyString else v.

Definition columnFilterPasses (row : value) (columnId : string)
    (f : ColumnFilter) : bool :=
  let v := valueAt row columnId in
  let strVal := toLowerCase (String_ (orEmpty v)) in
  let strFilter := toLowerCase (String_ (orEmpty (fvalue f))) in
  match operator f with
  | OpEquals => String.eqb (String_ v) (String_ (fvalue f))
  | OpContains => includes strVal strFilter
  | OpStartsWith => startsWith strVal strFilter
  | OpEndsWith => endsWith strVal strFilter
  | OpGreaterThan => numGt (Number_ v) (Number_ (fvalue f))
  | OpLessThan => numLt (Number_ v) (Number_ (fvalue f))
  | OpIsEmpty => isNullish v || strictEq v (VStr EmptyString)
  | OpIsNotEmpty => negb (isNullish v) && negb (strictEq v (VStr EmptyString))
  | OpBetween => true
  end.

Definition passesColumnFilters (fs : FilterState) (row : value) : bool :=
  forallb (fun entry => columnFilterPasses row (fst entry) (snd entry)) fs.

(** *** Sorting *)

(** The comparator handed to [sort].  The numbers of the model are the
    integers, on which [aVal - bVal] is the exact difference; [NaN], for
    which the source takes the same branch and returns [NaN], is not among
    them. *)
Definition compareRows (sortColumn : string) (dir : SortDirection)
    (a b : value) : Z :=
  let aVal := valueAt a sortColumn in
  let bVal := valueAt b sortColumn in
  let cmp :=
    if isNullish aVal then 1%Z
    else if isNullish bVal then (-1)%Z
    else match aVal, bVal with
         | VStr x, VStr y => localeCompare x y
         | VNum x, VNum y => (x - y)%Z
         | _, _ => localeCompare (String_ aVal) (String_ bVal)
         end in
  match dir with
  | desc => (- cmp)%Z
  | asc => cmp
  end.

(** *** The processed and the paginated data *)

Definition nonEmpty (s : string) : bool := negb (String.eqb s EmptyString).

Definition filterStage (st : HookState) (rows : list value) : list value :=
  let rows1 :=
    if nonEmpty (clientFilterTerm st) && notFalse (clientFilterEnabled props)
    then
      let filterLower := toLowerCase (clientFilterTerm st) in
      filter (fun row => matchesSearch row filterLower) rows
    else rows in
  if (0 <? List.length (filters st))%nat
     && negb (match filterMode props with
              | Some filterServer => true
              | _ => false
              end)
  then filter (passesColumnFilters (filters st)) rows1
  else rows1.

Definition sortStage (st : HookState) (rows : list value) : list value :=
  match column (sortState st), direction (sortState st) with
  | Some c, Some dir =>
      if nonEmpty c then sort (compareRows c dir) rows else rows
  | _, _ => rows
  end.

Definition processedData (st : HookState) : list value :=
  if isServerSide then serverData st
  else sortStage st (filterStage st (propData props)).

Definition totalCount (st : HookState) : nat :=
  if isServerSide then coalesce (propTotalCount props) (serverTotalCount st)
  else List.length (processedData st).

(** [Math.ceil(totalCount / rowsPerPage)]; [None] when the quotient is not
    a finite number, that is when [rowsPerPage] is 0. *)
Definition totalPages (st : HookState) : option nat :=
  if (rowsPerPage st =? 0)%nat then None
  else Some ((totalCount st + rowsPerPage st - 1) / rowsPerPage st)%nat.

(** The page [p] of a collection, [rpp] rows a page. *)
Definition pageSlice (rows : list value) (p rpp : nat) : list value :=
  let start := (p * rpp)%nat in
  slice rows start (start + rpp).

Definition paginatedData (st : HookState) : list value :=
  if isServerSide then processedData st
  else pageSlice (processedData st) (page st) (rowsPerPage st).

(** *** Server-side fetching *)

Definition fetchParams (st : HookState) : FetchDataParams :=
  {| fpage := page st;
     frowsPerPage := rowsPerPage st;
     fsort := sortState st;
     ffilters := filters st;
     fsearch := serverSearch st;
     fadvancedSearch :=
       if (0 <? List.length (criteria (advancedSearch st)))%nat
       then Some (advancedSearch st) else None |}.

(** What [fetchServerData] does once the promise of [onFetchData] has
    settled, on the state current at that time: the [try] or the [catch]
    branch, then [finally]. *)
Definition fetchSettle (outcome : settled FetchResult) (st : HookState)
  : HookState * list event :=
  let (st1, events) :=
    match outcome with
    | Fulfilled r =>
        (setServerTotalCount (rtotalCount r) (setServerData (rdata r) st), [])
    | Rejected reason =>
        (st, [ConsoleError "[DataTable] Failed to fetch server data:" reason])
    end in
  (setServerLoading false st1, events).

(** [fetchServerData] run to completion with no other update in between.
    The last component is how the promise it returns settles. *)
Definition fetchServerData (st : HookState)
  : HookState * list event * settled unit :=
  match onFetchData props with
  | None => (st, [], Fulfilled tt)
  | Some fetch =>
      let pending := setServerLoading true st in
      let (st', events) := fetchSettle (fetch (fetchParams st)) pending in
      (st', events, Fulfilled tt)
  end.

(** [loading] as the hook returns it. *)
Definition loading (st : HookState) : bool :=
  propLoading props || serverLoading st.

(** *** Selection *)

Definition getRowKey (row : value) : value := member row (rowKeyField props).

Definition sameKey (key : value) (r : value) : bool :=
  strictEq (member r (rowKeyField props)) key.

Definition isRowSelected (st : HookState) (row : value) : bool :=
  existsb (sameKey (getRowKey row)) (selectedRows st).

(** [selectionConfig?.mode === 'single'] *)
Definition singleMode : bool :=
  match selectionConfig props with
  | Some cfg => match mode cfg with Some single => true | _ => false end
  | None => false
  end.

(** [if (onSelectionChange) onSelectionChange(s); else
    setInternalSelectedRows(s)] *)
Definition commitSelection (newSelection : list value) (st : HookState)
  : HookState * list event :=
  if onSelectionChange props then (st, [SelectionChanged newSelection])
  else (setInternalSelectedRows newSelection st, []).

Definition handleSelectionChange (row : value) (st : HookState)
  : HookState * list event :=
  let key := getRowKey row in
  let alreadySelected := existsb (sameKey key) (selectedRows st) in
  let newSelection :=
    if singleMode then (if alreadySelected then [] else [row])
    else if alreadySelected
         then filter (fun r => negb (sameKey key r)) (selectedRows st)
         else selectedRows st ++ [row] in
  commitSelection newSelection st.

Definition handleDoubleClickSelection (row : value) (st : HookState)
  : HookState * list event :=
  if match selectionConfig props with
     | Some cfg => notFalse (doubleClickSelectsOnly cfg)
     | None => true
     end
  then commitSelection [row] st
  else (st, []).

Definition selectAllScope (st : HookState) : list value :=
  match selectionConfig props with
  | Some {| selectAllScopeOption := Some scopeAll |} => processedData st
  | _ => paginatedData st
  end.

Definition handleSelectAll (checked : bool) (st : HookState)
  : HookState * list event :=
  commitSelection (if checked then selectAllScope st else []) st.

Definition isAllSelected (st : HookState) : bool :=
  if (List.length (selectAllScope st) =? 0)%nat then false
  else forallb (isRowSelected st) (selectAllScope st).

Definition isIndeterminate (st : HookState) : bool :=
  if (List.length (selectAllScope st) =? 0)%nat then false
  else
    let count := List.length (filter (isRowSelected st) (selectAllScope st)) in
    (0 <? count)%nat && (count <? List.length (selectAllScope st))%nat.

End Hook.

End UseDataTable.

Import UseDataTable.

(* ====================================================================== *)
(** ** exportUtils: the other serialisers *)
(* ====================================================================== *)

Module ExportFormats.

Definition cr : string := String "013"%char EmptyString.

(** [str.replace(/c/g, by)] for a pattern of one character. *)
Fixpoint replaceAll (c : ascii) (replacement : string) (str : string)
  : string :=
  match str with
  | EmptyString => EmptyString
  | String d rest =>
      if Ascii.eqb d c then replacement +++ replaceAll c replacement rest
      else String d (replaceAll c replacement rest)
  end.

(** [text.replace(/<[^>]*>/g, '')]: [pending] holds the text read since an
    opening ["<"] that has not met its [">"] yet. *)
Fixpoint stripFrom (text : string) (pending : option string) : string :=
  match text, pending with
  | EmptyString, None => EmptyString
  | EmptyString, Some held => held
  | String c rest, None =>
      if Ascii.eqb c "<"%char
      then stripFrom rest (Some (String c EmptyString))
      else String c (stripFrom rest None)
  | String c rest, Some held =>
      if Ascii.eqb c ">"%char then stripFrom rest None
      else stripFrom rest (Some (held +++ String c EmptyString))
  end.

Definition stripTags (text : string) : string := stripFrom text None.

(** A cell of the array of arrays given to [XLSX.utils.aoa_to_sheet]. *)
Inductive cell : Type :=
| CellNumber (n : Z)
| CellText (s : string).

Section Formats.

Context {host : Host}.

Definition escapeXml (v : value) : string :=
  if isNullish v then EmptyString
  else replaceAll "'"%char "&apos;"
         (replaceAll "034"%char "&quot;"
            (replaceAll ">"%char "&gt;"
               (replaceAll "<"%char "&lt;"
                  (replaceAll "&"%char "&amp;" (String_ v))))).

(** *** CSV *)

Definition escapeCsvValue (v : string) : string :=
  if includes v "," || includes v dq || includes v nl || includes v cr
  then dq +++ replaceAll "034"%char (dq +++ dq) v +++ dq
  else v.

Definition csvCell (row : value) (rowIndex : nat) (col : DataTableColumn)
  : string :=
  let v := valueAt row (id col) in
  let formatted := formatValueForExport v row col rowIndex in
  escapeCsvValue formatted.

Definition csvHeaders (cols : list DataTableColumn) : string :=
  join "," (map (fun col => escapeCsvValue (label col)) cols).

Definition csvRows (data : list value) (cols : list DataTableColumn)
  : list string :=
  mapi (fun rowIndex row => join "," (map (csvCell row rowIndex) cols)) 0 data.

(** The text [exportToCsv] hands to the download helper. *)
Definition exportToCsv (data : list value) (columns : list DataTableColumn)
    (config : ExportConfig) : string :=
  let cols := exportableColumns columns in
  if notFalse (includeHeaders config)
  then join nl (csvHeaders cols :: csvRows data cols)
  else join nl (csvRows data cols).

(** *** Excel *)

Definition excelCell (row : value) (rowIndex : nat) (col : DataTableColumn)
  : cell :=
  let v := valueAt row (id col) in
  match v, exportFormat col with
  | VNum n, None => CellNumber n
  | _, _ => CellText (formatValueForExport v row col rowIndex)
  end.

Definition excelRows (data : list value) (cols : list DataTableColumn)
  : list (list cell) :=
  mapi (fun rowIndex row => map (excelCell row rowIndex) cols) 0 data.

(** The array of arrays [exportToExcel] builds: optional title rows, the
    header row, the data rows. *)
Definition sheetData (data : list value) (columns : list DataTableColumn)
    (config : ExportConfig) : list (list cell) :=
  let cols := exportableColumns columns in
  (if falsy (title config) then []
   else [[CellText (orDefault (title config) EmptyString)]]
        ++ (if falsy (subtitle config) then []
            else [[CellText (orDefault (subtitle config) EmptyString)]])
        ++ [[]])
  ++ (if notFalse (includeHeaders config)
      then [map (fun col => CellText (label col)) cols]
      else [])
  ++ excelRows data cols.

(** [ws['!cols']]: the width of each column, in characters. *)
Definition columnWidths (columns : list DataTableColumn) : list nat :=
  map (fun col => Nat.max (String.length (label col)) 12)
    (exportableColumns columns).

(** *** PDF *)

(** The text drawn for a custom header or footer of the PDF. *)
Definition pdfCustomText (text : string) (config : ExportConfig) : string :=
  if isTrue (allowUnsafeHtml config) then stripTags text else text.

(** The body of the PDF table. *)
Definition pdfBodyRows (data : list value) (columns : list DataTableColumn)
  : list (list string) :=
  mapi (fun rowIndex row =>
          map (fun col =>
                 formatValueForExport (valueAt row (id col)) row col rowIndex)
            (exportableColumns columns)) 0 data.

End Formats.

End ExportFormats.

Import ExportFormats.

(* ====================================================================== *)
(** ** useDataTable: the other handlers *)
(* ====================================================================== *)

Module Handlers.

(** Which of the change callbacks the caller supplied. *)
Record Callbacks : Type := {
  onPageChange : bool;
  onRowsPerPageChange : bool;
  onSortChange : bool;
  onFilterChange : bool;
  onClientFilterChange : bool;
  onSearchChange : bool;
  onServerSearchChange : bool;
  onAdvancedSearch : bool
}.

(** A call of one of them. *)
Inductive call : Type :=
| PageChange (newPage : nat)
| RowsPerPageChange (newRowsPerPage : nat)
| SortChange (newSort : SortState)
| FilterChange (newFilters : FilterState)
| ClientFilterChange (term : string)
| SearchChange (term : string)
| ServerSearchChange (newSearch : ServerSearchState)
| AdvancedSearchChange (search : AdvancedSearchState).

Definition setInternalPage (p : nat) (st : HookState) : HookState :=
  {| internalPage := p;
     internalRowsPerPage := internalRowsPerPage st;
     internalSort := internalSort st;
     internalFilters := internalFilters st;
     internalClientFilterTerm := internalClientFilterTerm st;
     internalServerSearch := internalServerSearch st;
     internalAdvancedSearch := internalAdvancedSearch st;
     internalSelectedRows := internalSelectedRows st;
     serverLoading := serverLoading st;
     serverData := serverData st;
     serverTotalCount := serverTotalCount st |}.

Definition setInternalRowsPerPage (n : nat) (st : HookState) : HookState :=
  {| internalPage := internalPage st;
     internalRowsPerPage := n;
     internalSort := internalSort st;
     internalFilters := internalFilters st;
     internalClientFilterTerm := internalClientFilterTerm st;
     internalServerSearch := internalServerSearch st;
     internalAdvancedSearch := internalAdvancedSearch st;
     internalSelectedRows := internalSelectedRows st;
     serverLoading := serverLoading st;
     serverData := serverData st;
     serverTotalCount := serverTotalCount st |}.

Definition setInternalSort (s : SortState) (st : HookState) : HookState :=
  {| internalPage := internalPage st;
     internalRowsPerPage := internalRowsPerPage st;
     internalSort := s;
     internalFilters := internalFilters st;
     internalClientFilterTerm := internalClientFilterTerm st;
     internalServerSearch := internalServerSearch st;
     internalAdvancedSearch := internalAdvancedSearch st;
     internalSelectedRows := internalSelectedRows st;
     serverLoading := serverLoading st;
     serverData := serverData st;
     serverTotalCount := serverTotalCount st |}.

Definition setInternalFilters (fs : FilterState) (st : HookState)
  : HookState :=
  {| internalPage := internalPage st;
     internalRowsPerPage := internalRowsPerPage st;
     internalSort := internalSort st;
     internalFilters := fs;
     internalClientFilterTerm := internalClientFilterTerm st;
     internalServerSearch := internalServerSearch st;
     internalAdvancedSearch := internalAdvancedSearch st;
     internalSelectedRows := internalSelectedRows st;
     serverLoading := serverLoading st;
     serverData := serverData st;
     serverTotalCount := serverTotalCount st |}.

Definition setInternalClientFilterTerm (t : string) (st : HookState)
  : HookState :=
  {| internalPage := internalPage st;
     internalRowsPerPage := internalRowsPerPage st;
     internalSort := internalSort st;
     internalFilters := internalFilters st;
     internalClientFilterTerm := t;
     internalServerSearch := internalServerSearch st;
     internalAdvancedSearch := internalAdvancedSearch st;
     internalSelectedRows := internalSelectedRows st;
     serverLoading := serverLoading st;
     serverData := serverData st;
     serverTotalCount := serverTotalCount st |}.

Definition setInternalServerSearch (s : ServerSearchState) (st : HookState)
  : HookState :=
  {| internalPage := internalPage st;
     internalRowsPerPage := internalRowsPerPage st;
     internalSort := internalSort st;
     internalFilters := internalFilters st;
     internalClientFilterTerm := internalClientFilterTerm st;
     internalServerSearch := s;
     internalAdvancedSearch := internalAdvancedSearch st;
     internalSelectedRows := internalSelectedRows st;
     serverLoading := serverLoading st;
     serverData := serverData st;
     serverTotalCount := serverTotalCount st |}.

Definition setInternalAdvancedSearch (a : AdvancedSearchState)
    (st : HookState) : HookState :=
  {| internalPage := internalPage st;
     internalRowsPerPage := internalRowsPerPage st;
     internalSort := internalSort st;
     internalFilters := internalFilters st;
     internalClientFilterTerm := internalClientFilterTerm st;
     internalServerSearch := internalServerSearch st;
     internalAdvancedSearch := a;
     internalSelectedRows := internalSelectedRows st;
     serverLoading := serverLoading st;
     serverData := serverData st;
     serverTotalCount := serverTotalCount st |}.

(** [delete obj[key]] on the entries of an object. *)
Fixpoint deleteKey {A : Type} (key : string) (entries : list (string * A))
  : list (string * A) :=
  match entries with
  | [] => []
  | (k, v) :: rest =>
      if String.eqb k key then deleteKey key rest
      else (k, v) :: deleteKey key rest
  end.

(** An own data property written or created: an existing key keeps its
    place, a new one goes last. *)
Fixpoint putKey {A : Type} (key : string) (v : A)
    (entries : list (string * A)) : list (string * A) :=
  match entries with
  | [] => [(key, v)]
  | (k, w) :: rest =>
      if String.eqb k key then (k, v) :: rest
      else (k, w) :: putKey key v rest
  end.

(** The key is ["__proto__"] and the object has no own property of that
    name: an assignment finds the accessor of [Object.prototype]. *)
Definition inheritedSetter {A : Type} (key : string)
    (entries : list (string * A)) : bool :=
  String.eqb key "__proto__"
  && match assoc key entries with
     | Some _ => false
     | None => true
     end.

(** [obj[key] = v], with [v] an object, on the own entries of an object
    that inherits from [Object.prototype], as [{ ...filters }] does.  The
    inherited setter of ["__proto__"] replaces the prototype and creates no
    own property, so the entries stay as they are.  The entries are in
    insertion order, the order of [Object.entries] for keys that are not
    array indices. *)
Definition assignKey {A : Type} (key : string) (v : A)
    (entries : list (string * A)) : list (string * A) :=
  if inheritedSetter key entries then entries else putKey key v entries.

Definition SortDirection_eqb (a b : SortDirection) : bool :=
  match a, b with
  | asc, asc | desc, desc => true
  | _, _ => false
  end.

Section OtherHandlers.

Variable props : DataTableProps.
Variable callbacks : Callbacks.

Definition handlePageChange (newPage : nat) (st : HookState)
  : HookState * list call :=
  if onPageChange callbacks then (st, [PageChange newPage])
  else (setInternalPage newPage st, []).

Definition handleRowsPerPageChange (newRowsPerPage : nat) (st : HookState)
  : HookState * list call :=
  if onRowsPerPageChange callbacks
  then (st, [RowsPerPageChange newRowsPerPage])
  else (setInternalPage 0 (setInternalRowsPerPage newRowsPerPage st), []).

(** [sort.column === column] *)
Definition sortedOn (st : HookState) (c : string) : bool :=
  match column (sortState props st) with
  | Some current => String.eqb current c
  | None => false
  end.

Definition nextSort (st : HookState) (c : string) : SortState :=
  let newDir :=
    if sortedOn st c
    then match direction (sortState props st) with
         | Some asc => Some desc
         | Some desc => None
         | None => Some asc
         end
    else Some asc in
  {| column := match newDir with
               | None => None
               | Some _ => Some c
               end;
     direction := newDir |}.

Definition handleSortChange (c : string) (st : HookState)
  : HookState * list call :=
  if onSortChange callbacks then (st, [SortChange (nextSort st c)])
  else (setInternalSort (nextSort st c) st, []).

(** [value === '' || value === null || value === undefined] *)
Definition clearsFilter (v : value) : bool :=
  isNullish v || strictEq v (VStr EmptyString).

Definition nextFilters (st : HookState) (columnId : string) (v : value)
    (op : FilterOperator) : FilterState :=
  if clearsFilter v then deleteKey columnId (filters props st)
  else assignKey columnId {| fvalue := v; operator := op |}
         (filters props st).

(** [operator] is ['contains'] when the caller leaves it out. *)
Definition handleFilterChange (columnId : string) (v : value)
    (op : option FilterOperator) (st : HookState) : HookState * list call :=
  let newFilters :=
    nextFilters st columnId v
      (match op with Some o => o | None => OpContains end) in
  if onFilterChange callbacks then (st, [FilterChange newFilters])
  else (setInternalPage 0 (setInternalFilters newFilters st), []).

Definition handleClearFilters (st : HookState) : HookState * list call :=
  if onFilterChange callbacks then (st, [FilterChange []])
  else (setInternalPage 0 (setInternalFilters [] st), []).

Definition handleClientFilterChange (v : string) (st : HookState)
  : HookState * list call :=
  if onClientFilterChange callbacks then (st, [ClientFilterChange v])
  else if onSearchChange callbacks then (st, [SearchChange v])
  else (setInternalPage 0 (setInternalClientFilterTerm v st), []).

Definition handleServerSearchChange (t : string) (st : HookState)
  : HookState * list call :=
  let newSearch := {| term := t; fields := fields (serverSearch props st) |} in
  if onServerSearchChange callbacks then (st, [ServerSearchChange newSearch])
  else (setInternalPage 0 (setInternalServerSearch newSearch st), []).

Definition handleSearchFieldsChange (fs : list string) (st : HookState)
  : HookState * list call :=
  let newSearch := {| term := term (serverSearch props st); fields := fs |} in
  if onServerSearchChange callbacks then (st, [ServerSearchChange newSearch])
  else (setInternalServerSearch newSearch st, []).

Definition handleAdvancedSearch (search : AdvancedSearchState)
    (st : HookState) : HookState * list call :=
  if onAdvancedSearch callbacks then (st, [AdvancedSearchChange search])
  else (setInternalPage 0 (setInternalAdvancedSearch search st), []).

Definition handleClearAdvancedSearch (st : HookState)
  : HookState * list call :=
  handleAdvancedSearch {| criteria := []; matchAll := true |} st.

(** [hasActiveFilters] as the hook returns it. *)
Definition hasActiveFilters (st : HookState) : bool :=
  (0 <? List.length (filters props st))%nat.

End OtherHandlers.

(** *** Column visibility *)

(** The initial value of [visibleColumns]. *)
Definition initialVisibleColumns (cols : list DataTableColumn) : list string :=
  map id (filter (fun col => notSet (hidden col)) cols).

Definition handleColumnVisibilityChange (columnId : string) (visible : bool)
    (prev : list string) : list string :=
  if visible then prev ++ [columnId]
  else filter (fun i => negb (String.eqb i columnId)) prev.

Definition visibleColumnsConfig (cols : list DataTableColumn)
    (visibleColumns : list string) : list DataTableColumn :=
  filter (fun col => existsb (String.eqb (id col)) visibleColumns) cols.

End Handlers.

Import Handlers.

(* ====================================================================== *)
(** ** Vocabulary of the statements *)
(* ====================================================================== *)

(** The segments that precede the first banned one. *)
Fixpoint beforeBan (parts : list string) : list string :=
  match parts with
  | [] => []
  | part :: rest => if bannedKey part then [] else part :: beforeBan rest
  end.

(** How many times a character occurs in a string. *)
Fixpoint occurrences (c : ascii) (s : string) : nat :=
  match s with
  | EmptyString => 0
  | String d rest => (if Ascii.eqb d c then 1 else 0) + occurrences c rest
  end.

(** A host for the concrete runs: code-unit order for [localeCompare],
    decimal integer literals for [stringToNumber]. *)
Fixpoint compareCodeUnits (a b : string) : Z :=
  match a, b with
  | EmptyString, EmptyString => 0
  | EmptyString, String _ _ => (-1)
  | String _ _, EmptyString => 1
  | String c a', String d b' =>
      match Nat.compare (nat_of_ascii c) (nat_of_ascii d) with
      | Lt => (-1)
      | Gt => 1
      | Eq => compareCodeUnits a' b'
      end
  end%Z.

Definition parseInteger (s : string) : option Z :=
  if String.eqb s EmptyString then Some 0%Z
  else match NilEmpty.int_of_string s with
       | Some d => Some (Z.of_int d)
       | None => None
       end.

Definition plainHost : Host :=
  {| localeCompare := compareCodeUnits;
     stringToNumber := parseInteger;
     functionToString :=
       fun name => "function " +++ name +++ "() { [native code] }";
     dateToString := fun t => "Date(" +++ intToString t +++ ")";
     dateToISOString := fun t => "ISO(" +++ intToString t +++ ")";
     dateToLocaleDateString := fun t => "Day(" +++ intToString t +++ ")";
     jsonStringify := fun _ => "{}" |}.

(** Props of a table over local data, everything else left out. *)
Definition localProps (rows : list value) (cols : list DataTableColumn)
    (selection : option SelectionConfig) : DataTableProps :=
  {| propData := rows;
     columns := cols;
     propTotalCount := None;
     propPage := None;
     propRowsPerPage := None;
     propSort := None;
     propFilters := None;
     propClientFilterTerm := None;
     propSearchTerm := None;
     propServerSearch := None;
     propAdvancedSearch := None;
     propSelectedRows := None;
     clientFilterEnabled := None;
     filterMode := None;
     selectionConfig := selection;
     defaultRowsPerPage := None;
     defaultSortColumn := None;
     defaultSortDirection := None;
     defaultSearchFields := None;
     onSelectionChange := false;
     onFetchData := None;
     rowKeyField := "id";
     propLoading := false |}.

(** The same table fed by a remote source. *)
Definition remoteProps (fetch : FetchDataParams -> settled FetchResult)
  : DataTableProps :=
  {| propData := [];
     columns := [];
     propTotalCount := None;
     propPage := None;
     propRowsPerPage := None;
     propSort := None;
     propFilters := None;
     propClientFilterTerm := None;
     propSearchTerm := None;
     propServerSearch := None;
     propAdvancedSearch := None;
     propSelectedRows := None;
     clientFilterEnabled := None;
     filterMode := None;
     selectionConfig := None;
     defaultRowsPerPage := None;
     defaultSortColumn := None;
     defaultSortDirection := None;
     defaultSearchFields := None;
     onSelectionChange := false;
     onFetchData := Some fetch;
     rowKeyField := "id";
     propLoading := false |}.

(** A plain row [{ id: i, k: v }]. *)
Definition rowOf (i : nat) (v : value) : value :=
  VObj i [("id", VNum (Z.of_nat i)); ("k", v)] (VIntrinsic ObjectPrototype).

(** The rows [{ id: i, k: i }] for [i] from [start] on. *)
Definition numberedRows (start count : nat) : list value :=
  map (fun i => rowOf i (VNum (Z.of_nat i))) (seq start count).

Definition withPage (p rpp : nat) (st : HookState) : HookState :=
  {| internalPage := p;
     internalRowsPerPage := rpp;
     internalSort := internalSort st;
     internalFilters := internalFilters st;
     internalClientFilterTerm := internalClientFilterTerm st;
     internalServerSearch := internalServerSearch st;
     internalAdvancedSearch := internalAdvancedSearch st;
     internalSelectedRows := internalSelectedRows st;
     serverLoading := serverLoading st;
     serverData := serverData st;
     serverTotalCount := serverTotalCount st |}.

Definition withSort (c : string) (dir : SortDirection) (st : HookState)
  : HookState :=
  {| internalPage := internalPage st;
     internalRowsPerPage := internalRowsPerPage st;
     internalSort := {| column := Some c; direction := Some dir |};
     internalFilters := internalFilters st;
     internalClientFilterTerm := internalClientFilterTerm st;
     internalServerSearch := internalServerSearch st;
     internalAdvancedSearch := internalAdvancedSearch st;
     internalSelectedRows := internalSelectedRows st;
     serverLoading := serverLoading st;
     serverData := serverData st;
     serverTotalCount := serverTotalCount st |}.

(** In a list, the rows for which [missing] holds come after all the
    others ([missingLast]) or before all the others ([missingFirst]). *)
Fixpoint missingLast {A : Type} (missing : A -> bool) (l : list A) : bool :=
  match l with
  | [] => true
  | x :: rest =>
      if missing x then forallb missing rest else missingLast missing rest
  end.

Fixpoint missingFirst {A : Type} (missing : A -> bool) (l : list A) : bool :=
  match l with
  | [] => true
  | x :: rest =>
      if missing x then missingFirst missing rest
      else forallb (fun y => negb (missing y)) rest
  end.

(** [getNestedValue(row, column)] is [null] or [undefined]. *)
Definition missingAt (c : string) (row : value) : bool :=
  isNullish (valueAt row c).

(** A prototype object on which the three banned names were planted. *)
Definition pollutedProto : value :=
  VObj 900
    [("__proto__", VStr "own-proto"); ("constructor", VStr "planted");
     ("prototype", VStr "planted")]
    (VIntrinsic ObjectPrototype).

(** A row that inherits from it and nests another such object. *)
Definition pollutedRow : value :=
  VObj 1 [("id", VNum 7); ("a", VObj 2 [("b", VStr "deep")] pollutedProto)]
    pollutedProto.

(** A plain row: [{ id: 7 }]. *)
Definition plainRow : value :=
  VObj 3 [("id", VNum 7)] (VIntrinsic ObjectPrototype).

(** [config] with its trust flag replaced. *)
Definition withAllowUnsafeHtml (flag : option bool) (config : ExportConfig)
  : ExportConfig :=
  {| filename := filename config;
     title := title config;
     subtitle := subtitle config;
     includeHeaders := includeHeaders config;
     customHeader := customHeader config;
     customFooter := customFooter config;
     allowUnsafeHtml := flag |}.

(** The number of ["<"] (and of [">"]) that the template of the Word
    document contributes: it depends on the shape of the export only, that
    is on which optional blocks are present and on the numbers of rows and
    columns. *)
Definition wordTagCount (rows cols : nat) (config : ExportConfig) : nat :=
  32
  + (if falsy (title config) then 0 else 2)
  + (if falsy (subtitle config) then 0 else 2)
  + (if falsy (customHeader config) then 0 else 2)
  + (if notFalse (includeHeaders config) then 2 + 2 * cols else 0)
  + rows * (2 + 2 * cols).

(** What the trusted custom blocks add to it. *)
Definition trustedMarkup (c : ascii) (config : ExportConfig) : nat :=
  if isTrue (allowUnsafeHtml config)
  then occurrences c (orDefault (customHeader config) EmptyString)
       + occurrences c (orDefault (customFooter config) EmptyString)
  else 0.

Definition angle (c : ascii) : Prop := c = "<"%char \/ c = ">"%char.

(** Three rows, the middle one without a value at ["k"]. *)
Definition gappedRows : list value :=
  [rowOf 1 (VNum 5); rowOf 2 VNull; rowOf 3 (VNum 2)].



Definition singleSelection : option SelectionConfig :=
  Some {| mode := Some single;
          doubleClickSelectsOnly := None;
          selectAllScopeOption := None |}.

Definition scopedSelection (scope : SelectAllScope) : option SelectionConfig :=
  Some {| mode := Some multiple;
          doubleClickSelectsOnly := None;
          selectAllScopeOption := Some scope |}.

Definition fetchFailureMessage : string :=
  "[DataTable] Failed to fetch server data:".

(** A remote source that always rejects. *)
Definition failingFetch (_ : FetchDataParams) : settled FetchResult :=
  Rejected (VStr "network down").

(** The state after an earlier successful fetch of two rows out of 40. *)
Definition fetchedState : HookState :=
  setServerTotalCount 40
    (setServerData (numberedRows 11 2)
       (withPage 5 2 (initialState (remoteProps failingFetch)))).

(** A remote source that answers with the page [fetchedState] holds. *)
Definition repeatingFetch (_ : FetchDataParams) : settled FetchResult :=
  Fulfilled {| rdata := numberedRows 11 2; rtotalCount := 40 |}.

(** The members of the object [useDataTable] returns that derive from the
    state.  The others are the column lists, [density],
    [rowsPerPageOptions] and [searchableFields], which a fetch does not
    touch, and the handlers; none of them is an error. *)
Record HookReturn : Type := {
  ret_data : list value;
  ret_allProcessedData : list value;
  ret_totalCount : nat;
  ret_totalPages : option nat;
  ret_loading : bool;
  ret_page : nat;
  ret_rowsPerPage : nat;
  ret_sort : SortState;
  ret_filters : FilterState;
  ret_hasActiveFilters : bool;
  ret_clientFilterTerm : string;
  ret_serverSearch : ServerSearchState;
  ret_advancedSearch : AdvancedSearchState;
  ret_selectedRows : list value;
  ret_isAllSelected : bool;
  ret_isIndeterminate : bool
}.

Definition hookReturn {host : Host} (props : DataTableProps)
    (st : HookState) : HookReturn :=
  {| ret_data := paginatedData props st;
     ret_allProcessedData := processedData props st;
     ret_totalCount := totalCount props st;
     ret_totalPages := totalPages props st;
     ret_loading := loading props st;
     ret_page := page props st;
     ret_rowsPerPage := rowsPerPage props st;
     ret_sort := sortState props st;
     ret_filters := filters props st;
     ret_hasActiveFilters := hasActiveFilters props st;
     ret_clientFilterTerm := clientFilterTerm props st;
     ret_serverSearch := serverSearch props st;
     ret_advancedSearch := advancedSearch props st;
     ret_selectedRows := selectedRows props st;
     ret_isAllSelected := isAllSelected props st;
     ret_isIndeterminate := isIndeterminate props st |}.

(** What the caller has of a run of [fetchServerData], the [refetch] of
    the hook: how its promise settles and what the hook returns afterwards.
    What goes to the console is not part of it. *)
Definition callerView {host : Host} (props : DataTableProps)
    (run : HookState * list event * settled unit)
  : settled unit * HookReturn :=
  (snd run, hookReturn props (fst (fst run))).

Definition filterOn (op : FilterOperator) (v : value) : ColumnFilter :=
  {| fvalue := v; operator := op |}.

Definition FilterOperator_eqb (a b : FilterOperator) : bool :=
  match a, b with
  | OpEquals, OpEquals | OpContains, OpContains
  | OpStartsWith, OpStartsWith | OpEndsWith, OpEndsWith
  | OpGreaterThan, OpGreaterThan | OpLessThan, OpLessThan
  | OpBetween, OpBetween | OpIsEmpty, OpIsEmpty
  | OpIsNotEmpty, OpIsNotEmpty => true
  | _, _ => false
  end.

(** The operators that compare lower-cased string forms. *)
Definition caseInsensitiveOp (op : FilterOperator) : bool :=
  existsb (FilterOperator_eqb op) [OpContains; OpStartsWith; OpEndsWith].

(** The operators that do not look at the predicate value. *)
Definition valueFreeOp (op : FilterOperator) : bool :=
  existsb (FilterOperator_eqb op) [OpIsEmpty; OpIsNotEmpty; OpBetween].

Definition plainColumn (key heading : string) : DataTableColumn :=
  {| id := key;
     label := heading;
     searchable := None;
     hidden := None;
     exportable := None;
     exportFormat := None |}.

Definition demoColumns : list DataTableColumn :=
  [plainColumn "id" "Id"; plainColumn "k" "Value <raw>"].

Definition demoData : list value :=
  [rowOf 1 (VStr "<i>x</i>"); rowOf 2 VNull; rowOf 3 (VBool true)].

(** A configuration with a title and no custom block. *)
Definition plainConfig : ExportConfig :=
  {| filename := None;
     title := Some "Q&A <report>";
     subtitle := None;
     includeHeaders := None;
     customHeader := None;
     customFooter := None;
     allowUnsafeHtml := None |}.

(** The same with the header of the example, the trust flag left out. *)
Definition boldHeaderConfig : ExportConfig :=
  {| filename := None;
     title := Some "Q&A <report>";
     subtitle := None;
     includeHeaders := None;
     customHeader := Some "<b>Hi</b>";
     customFooter := None;
     allowUnsafeHtml := None |}.

(** *** Reading HTML text back *)

Definition htmlCharOf (name : string) : string :=
  if String.eqb name "amp" then "&"
  else if String.eqb name "lt" then "<"
  else if String.eqb name "gt" then ">"
  else if String.eqb name "nbsp" then String "160"%char EmptyString
  else "&" +++ name +++ ";".

(** The text a browser shows for the markup of a text node: the four
    character references that the serialisation writes are resolved.
    [name] holds the characters read since an ["&"]. *)
Fixpoint unescapeFrom (s : string) (name : option string) : string :=
  match s, name with
  | EmptyString, None => EmptyString
  | EmptyString, Some n => "&" +++ n
  | String c rest, None =>
      if Ascii.eqb c "&"%char then unescapeFrom rest (Some EmptyString)
      else String c (unescapeFrom rest None)
  | String c rest, Some n =>
      if Ascii.eqb c ";"%char then htmlCharOf n +++ unescapeFrom rest None
      else unescapeFrom rest (Some (n +++ String c EmptyString))
  end.

Definition unescapeHtml (s : string) : string := unescapeFrom s None.

(** *** Reading CSV back *)

(** Where a reader of CSV text stands: at the start of a field, inside an
    unquoted field, inside a quoted field, or just after a quote met inside
    a quoted field. *)
Inductive csvMode : Type := FieldStart | Unquoted | Quoted | QuoteSeen.

Record csvReader : Type := {
  doneRecords : list (list string);
  doneFields : list string;
  currentField : string;
  csvmode : csvMode
}.

Definition csvAppend (c : ascii) (m : csvMode) (r : csvReader) : csvReader :=
  {| doneRecords := doneRecords r;
     doneFields := doneFields r;
     currentField := currentField r +++ String c EmptyString;
     csvmode := m |}.

Definition csvSetMode (m : csvMode) (r : csvReader) : csvReader :=
  {| doneRecords := doneRecords r;
     doneFields := doneFields r;
     currentField := currentField r;
     csvmode := m |}.

Definition csvEndField (r : csvReader) : csvReader :=
  {| doneRecords := doneRecords r;
     doneFields := doneFields r ++ [currentField r];
     currentField := EmptyString;
     csvmode := FieldStart |}.

Definition csvEndRecord (r : csvReader) : csvReader :=
  {| doneRecords := doneRecords r ++ [doneFields r ++ [currentField r]];
     doneFields := [];
     currentField := EmptyString;
     csvmode := FieldStart |}.

(** One character of CSV text: a doubled quote inside a quoted field is a
    quote, a comma outside quotes ends the field, a line feed outside
    quotes ends the record. *)
Definition csvStep (r : csvReader) (c : ascii) : csvReader :=
  match csvmode r with
  | Quoted =>
      if Ascii.eqb c "034"%char then csvSetMode QuoteSeen r
      else csvAppend c Quoted r
  | QuoteSeen =>
      if Ascii.eqb c "034"%char then csvAppend c Quoted r
      else if Ascii.eqb c ","%char then csvEndField r
      else if Ascii.eqb c "010"%char then csvEndRecord r
      else csvAppend c Unquoted r
  | FieldStart =>
      if Ascii.eqb c "034"%char then csvSetMode Quoted r
      else if Ascii.eqb c ","%char then csvEndField r
      else if Ascii.eqb c "010"%char then csvEndRecord r
      else csvAppend c Unquoted r
  | Unquoted =>
      if Ascii.eqb c ","%char then csvEndField r
      else if Ascii.eqb c "010"%char then csvEndRecord r
      else csvAppend c Unquoted r
  end.

Fixpoint csvRun (r : csvReader) (text : string) : csvReader :=
  match text with
  | EmptyString => r
  | String c rest => csvRun (csvStep r c) rest
  end.

Definition csvStart : csvReader :=
  {| doneRecords := [];
     doneFields := [];
     currentField := EmptyString;
     csvmode := FieldStart |}.

(** The records of a CSV text, each one the list of its fields. *)
Definition parseCsv (text : string) : list (list string) :=
  let r := csvRun csvStart text in
  doneRecords r ++ [doneFields r ++ [currentField r]].

(** The cells [exportToCsv] writes, before quoting: the labels, then one
    list of formatted values for each row. *)
Definition csvGrid {host : Host} (data : list value)
    (columns : list DataTableColumn) (config : ExportConfig)
  : list (list string) :=
  let cols := exportableColumns columns in
  (if notFalse (includeHeaders config) then [map label cols] else [])
  ++ mapi (fun rowIndex row =>
             map (fun col =>
                    formatValueForExport (valueAt row (id col)) row col
                      rowIndex) cols) 0 data.

(** *** Reading XML text back *)

Definition xmlEntity (c : ascii) : string :=
  if Ascii.eqb c "&"%char then "&amp;"
  else if Ascii.eqb c "<"%char then "&lt;"
  else if Ascii.eqb c ">"%char then "&gt;"
  else if Ascii.eqb c "034"%char then "&quot;"
  else if Ascii.eqb c "'"%char then "&apos;"
  else String c EmptyString.

(** Every character replaced by its entity, once. *)
Fixpoint encodeXml (s : string) : string :=
  match s with
  | EmptyString => EmptyString
  | String c rest => xmlEntity c +++ encodeXml rest
  end.

Definition xmlCharOf (name : string) : string :=
  if String.eqb name "amp" then "&"
  else if String.eqb name "lt" then "<"
  else if String.eqb name "gt" then ">"
  else if String.eqb name "quot" then dq
  else if String.eqb name "apos" then "'"
  else "&" +++ name +++ ";".

(** The text an XML reader gets: the five predefined entities resolved.
    [name] holds the characters read since an ["&"]. *)
Fixpoint decodeFrom (s : string) (name : option string) : string :=
  match s, name with
  | EmptyString, None => EmptyString
  | EmptyString, Some n => "&" +++ n
  | String c rest, None =>
      if Ascii.eqb c "&"%char then decodeFrom rest (Some EmptyString)
      else String c (decodeFrom rest None)
  | String c rest, Some n =>
      if Ascii.eqb c ";"%char then xmlCharOf n +++ decodeFrom rest None
      else decodeFrom rest (Some (n +++ String c EmptyString))
  end.

Definition decodeXml (s : string) : string := decodeFrom s None.

(** *** Tags *)

Definition hasChar (c : ascii) (s : string) : bool :=
  negb (occurrences c s =? 0).

(** Some ["<"] of the text is followed, later on, by a [">"]. *)
Fixpoint hasTag (s : string) : bool :=
  match s with
  | EmptyString => false
  | String c rest =>
      (Ascii.eqb c "<"%char && hasChar ">"%char rest) || hasTag rest
  end.

Definition noCallbacks : Callbacks :=
  {| onPageChange := false;
     onRowsPerPageChange := false;
     onSortChange := false;
     onFilterChange := false;
     onClientFilterChange := false;
     onSearchChange := false;
     onServerSearchChange := false;
     onAdvancedSearch := false |}.

(** The test [escapeCsvValue] makes. *)
Definition needsQuotes (v : string) : bool :=
  includes v "," || includes v dq || includes v nl || includes v cr.

(** A written line: the quoted fields, separated by commas. *)
Definition csvLine (fs : list string) : string :=
  join "," (map escapeCsvValue fs).

(** The five replacements of [escapeXml], in their order. *)
Definition xmlChain (s : string) : string :=
  replaceAll "'" "&apos;"
    (replaceAll "034" "&quot;"
       (replaceAll ">" "&gt;"
          (replaceAll "<" "&lt;" (replaceAll "&" "&amp;" s)))).

Definition xmlSpecial (c : ascii) : Prop :=
  c = "<"%char \/ c = ">"%char \/ c = "034"%char \/ c = "'"%char.

(** The rows of the title block of the sheet. *)
Definition titleRowCount (config : ExportConfig) : nat :=
  if falsy (title config) then 0
  else if falsy (subtitle config) then 2 else 3.

(** The number of rows of the select-all scope that are selected. *)
Definition selectedInScope {host : Host} (props : DataTableProps)
    (st : HookState) : nat :=
  List.length (filter (isRowSelected props st) (selectAllScope props st)).

(** The sort state shown after a click that gave [s]. *)
Definition sortInvariant (s : SortState) : Prop :=
  column s = None <-> direction s = None.

(** The integer a row holds at a column (0 when it holds none). *)
Definition numAt (c : string) (row : value) : Z :=
  match valueAt row c with
  | VNum n => n
  | _ => 0%Z
  end.

(** The row holds an integer at the column.  The numbers of this model
    are the integers: [NaN], the infinities and the fractions are not among
    its values, so a statement under this condition says nothing of rows
    that hold [NaN], for which the subtraction of the comparator gives
    [NaN]. *)
Definition integerAt (c : string) (row : value) : bool :=
  match valueAt row c with
  | VNum _ => true
  | _ => false
  end.

(** The order the direction asks for, on the integers at a column. *)
Definition inDirection (dir : SortDirection) (c : string) (x y : value)
  : Prop :=
  match dir with
  | asc => (numAt c x <= numAt c y)%Z
  | desc => (numAt c y <= numAt c x)%Z
  end.


(** The row passes the filter stage: the full-text search when a term is
    set and the search enabled, the column filters when there are some and
    they are not left to the server. *)
Definition rowPasses {host : Host} (props : DataTableProps)
    (st : HookState) (row : value) : bool :=
  (if nonEmpty (clientFilterTerm props st)
      && notFalse (clientFilterEnabled props)
   then matchesSearch props row (toLowerCase (clientFilterTerm props st))
   else true)
  && (if (0 <? List.length (filters props st))
         && negb (match filterMode props with
                  | Some filterServer => true
                  | _ => false
                  end)
      then passesColumnFilters (filters props st) row
      else true).

(** *** Concrete inputs of the further properties *)

(** [Smith, John "Jr."] *)
Definition juniorName : string := "Smith, John " +++ dq +++ "Jr." +++ dq.

(** Rows whose name needs quoting in CSV: a comma and quotes, a line
    break, nothing. *)
Definition personRows : list value :=
  [VObj 1 [("id", VNum 1); ("name", VStr juniorName)]
     (VIntrinsic ObjectPrototype);
   VObj 2 [("id", VNum 2); ("name", VStr ("two" +++ nl +++ "lines"))]
     (VIntrinsic ObjectPrototype);
   VObj 3 [("id", VNum 3)] (VIntrinsic ObjectPrototype)].

Definition personColumns : list DataTableColumn :=
  [plainColumn "id" "Id"; plainColumn "name" "Name, full"].

(** A configuration with the trust flag set. *)
Definition trustedConfig : ExportConfig :=
  withAllowUnsafeHtml (Some true) boldHeaderConfig.

(** Four rows with ties at the column ["k"]. *)
Definition tiedRows : list value :=
  [rowOf 1 (VNum 2); rowOf 2 (VNum 1); rowOf 3 (VNum 2); rowOf 4 (VNum 1)].


(** A remote source that always answers with two rows out of 40. *)
Definition answeringFetch (_ : FetchDataParams) : settled FetchResult :=
  Fulfilled {| rdata := numberedRows 21 2; rtotalCount := 40 |}.

(** The text of a sheet cell: a number in its decimal form. *)
Definition cellText (c : cell) : string :=
  match c with
  | CellNumber n => intToString n
  | CellText s => s
  end.

(** A table row of the Word document, from the texts of its cells. *)
Definition wordRowOf (texts : list string) : string :=
  "<tr>"
  +++ join EmptyString
        (map (fun t => "<td>" +++ escapeText t +++ "</td>") texts)
  +++ "</tr>".

(** The two fields of the export configuration that [handleExport] of the
    component reads to choose what it hands to the exporter. *)
Record ExportChoice : Type := {
  filteredDataOnly : option bool;
  visibleColumnsOnly : option bool
}.

(** [dataToExport] of [handleExport]. *)
Definition dataToExport {host : Host} (choice : ExportChoice)
    (props : DataTableProps) (st : HookState) : list value :=
  if notFalse (filteredDataOnly choice) then processedData props st
  else propData props.

(** [columnsToExport] of [handleExport]: the columns listed as visible, or
    all the columns. *)
Definition columnsToExport (choice : ExportChoice)
    (visibleColumns : list string) (props : DataTableProps)
  : list DataTableColumn :=
  if notFalse (visibleColumnsOnly choice)
  then visibleColumnsConfig (columns props) visibleColumns
  else columns props.

(** A column that starts hidden. *)
Definition hiddenColumn (key heading : string) : DataTableColumn :=
  {| id := key;
     label := heading;
     searchable := None;
     hidden := Some true;
     exportable := None;
     exportFormat := None |}.

Definition defaultChoice : ExportChoice :=
  {| filteredDataOnly := None; visibleColumnsOnly := None |}.

Definition everythingChoice : ExportChoice :=
  {| filteredDataOnly := Some false; visibleColumnsOnly := Some false |}.

(* ====================================================================== *)
(** ** getNestedValue *)
(* ====================================================================== *)

Section PathResolver.

Lemma bannedKey_In (part : string) :
  bannedKey part = true <-> In part BANNED_KEYS.
Proof.
  unfold bannedKey. rewrite existsb_exists. split.
  - intros [k [Hk Heq]]. apply String.eqb_eq in Heq. now subst.
  - intros H. exists part. split; [assumption | apply String.eqb_refl].
Qed.

Lemma get_object (cur : value) (part : string) :
  isNullish cur = false -> get cur part = Ok (member cur part).
Proof. intros H. unfold get. now rewrite H. Qed.

(** The loop never completes abruptly. *)
Lemma walkPath_returns (parts : list string) :
  forall cur, exists v, snd (walkPath parts cur) = Ok v.
Proof.
  induction parts as [|part rest IH]; intros cur; simpl.
  - now exists cur.
  - destruct (bannedKey part); [now exists VUndefined|].
    destruct (isNullish cur) eqn:Hn; simpl; [now exists VUndefined|].
    destruct (negb (jstype_eqb (typeof cur) TObject)); [now exists VUndefined|].
    rewrite (get_object _ _ Hn).
    destruct (walkPath rest (member cur part)) as [reads r] eqn:Hw.
    destruct (IH (member cur part)) as [v Hv].
    rewrite Hw in Hv. simpl in *. now exists v.
Qed.

Lemma getNestedValue_returns (obj : value) (path : string) :
  exists v, getNestedValue obj path = Ok v.
Proof. apply walkPath_returns. Qed.

Lemma getNestedValue_valueAt (obj : value) (path : string) :
  getNestedValue obj path = Ok (valueAt obj path).
Proof.
  unfold valueAt. destruct (getNestedValue_returns obj path) as [v Hv].
  now rewrite Hv.
Qed.

(** Along a list of segments that holds a banned one the loop yields
    [undefined], and it reads no property from the banned segment on. *)
Lemma walkPath_banned (parts : list string) :
  (exists key, In key parts /\ In key BANNED_KEYS) ->
  forall cur,
    snd (walkPath parts cur) = Ok VUndefined
    /\ exists n, fst (walkPath parts cur) = firstn n (beforeBan parts).
Proof.
  induction parts as [|part rest IH]; intros [key [Hin Hban]] cur.
  - destruct Hin.
  - simpl. destruct (bannedKey part) eqn:Hb.
    + split; [reflexivity | now exists 0].
    + assert (Hrest : exists k, In k rest /\ In k BANNED_KEYS).
      { exists key. split; [|assumption].
        destruct Hin as [Heq | Hin]; [|assumption].
        subst part. apply bannedKey_In in Hban. congruence. }
      destruct (isNullish cur) eqn:Hn; simpl.
      { split; [reflexivity | now exists 0]. }
      destruct (negb (jstype_eqb (typeof cur) TObject)).
      { split; [reflexivity | now exists 0]. }
      rewrite (get_object _ _ Hn).
      destruct (IH Hrest (member cur part)) as [Hres [n Hreads]].
      destruct (walkPath rest (member cur part)) as [reads r].
      simpl in *. split; [assumption|].
      exists (S n). simpl. now rewrite Hreads.
Qed.

Lemma beforeBan_prefix (parts : list string) :
  (exists key, In key parts /\ In key BANNED_KEYS) ->
  exists blocked rest,
    parts = beforeBan parts ++ blocked :: rest /\ In blocked BANNED_KEYS.
Proof.
  induction parts as [|part tl IH]; intros [key [Hin Hban]].
  - destruct Hin.
  - simpl. destruct (bannedKey part) eqn:Hb.
    + exists part, tl. split; [reflexivity | now apply bannedKey_In].
    + destruct IH as [blocked [rest [Heq Hblocked]]].
      { exists key. split; [|assumption].
        destruct Hin as [Heq | Hin]; [|assumption].
        subst part. apply bannedKey_In in Hban. congruence. }
      exists blocked, rest. split; [|assumption].
      simpl. now rewrite <- Heq.
Qed.

(** X21.  [getNestedValue] of the current export module.  Whatever the
    row, a path with ["__proto__"], ["constructor"] or ["prototype"] among
    its dot-separated segments makes it return [undefined] normally (no
    exception), and the only properties it reads belong to segments that
    precede the first banned one: neither the banned segment nor the
    remaining ones are evaluated.  The row is arbitrary, so it may carry
    these names on its prototype chain. *)
Theorem getNestedValue_banned_segment (obj : value) (path key : string) :
  In key BANNED_KEYS ->
  In key (pathSegments path) ->
  getNestedValue obj path = Ok VUndefined
  /\ (exists blocked rest,
        pathSegments path
        = beforeBan (pathSegments path) ++ blocked :: rest
        /\ In blocked BANNED_KEYS)
  /\ exists n,
       propertyReads obj path = firstn n (beforeBan (pathSegments path)).
Proof.
  intros Hban Hin.
  assert (H : exists k, In k (pathSegments path) /\ In k BANNED_KEYS)
    by (exists key; split; assumption).
  destruct (walkPath_banned _ H obj) as [Hres Hreads].
  split; [exact Hres|]. split; [now apply beforeBan_prefix | exact Hreads].
Qed.

Lemma getNestedValue_banned_segment_witness :
  getNestedValue pollutedRow "a.constructor.name" = Ok VUndefined
  /\ (exists blocked rest,
        pathSegments "a.constructor.name"
        = beforeBan (pathSegments "a.constructor.name") ++ blocked :: rest
        /\ In blocked BANNED_KEYS)
  /\ exists n,
       propertyReads pollutedRow "a.constructor.name"
       = firstn n (beforeBan (pathSegments "a.constructor.name")).
Proof.
  apply (getNestedValue_banned_segment pollutedRow "a.constructor.name"
           "constructor").
  - simpl. auto.
  - simpl. auto.
Defined.

(** The planted properties are really there: direct member access finds
    them, [getNestedValue] does not. *)
Example polluted_row_members :
  get pollutedRow "constructor" = Ok (VStr "planted")
  /\ get pollutedRow "__proto__" = Ok (VStr "own-proto")
  /\ get (VObj 3 [] (VIntrinsic ObjectPrototype)) "__proto__"
     = Ok (VIntrinsic ObjectPrototype)
  /\ getNestedValue pollutedRow "constructor" = Ok VUndefined
  /\ getNestedValue pollutedRow "__proto__" = Ok VUndefined
  /\ getNestedValue pollutedRow "a.prototype" = Ok VUndefined
  /\ propertyReads pollutedRow "a.prototype.x" = ["a"]
  /\ getNestedValue pollutedRow "a.b" = Ok (VStr "deep").
Proof. repeat split; reflexivity. Qed.

(** C1, on the v1 copy of [getNestedValue] kept in [src/exportUtils.ts],
    which has no deny-list.  On the plain row [{ id: 7 }] the path
    ["constructor"] gives the [Object] function, ["__proto__"] gives
    [Object.prototype] and ["id.constructor"] gives the [Number] function;
    on a row with a property planted on its prototype chain the path
    ["constructor"] gives the planted value.  [getNestedValue] of the
    current module returns [undefined] for each of them. *)
Theorem legacy_getNestedValue_reads_banned_segment :
  Legacy.getNestedValue plainRow "constructor" = Ok (VFun "Object")
  /\ Legacy.getNestedValue plainRow "__proto__"
     = Ok (VIntrinsic ObjectPrototype)
  /\ Legacy.getNestedValue plainRow "id.constructor" = Ok (VFun "Number")
  /\ Legacy.getNestedValue pollutedRow "constructor" = Ok (VStr "planted")
  /\ getNestedValue plainRow "constructor" = Ok VUndefined
  /\ getNestedValue plainRow "__proto__" = Ok VUndefined
  /\ getNestedValue plainRow "id.constructor" = Ok VUndefined
  /\ getNestedValue pollutedRow "constructor" = Ok VUndefined.
Proof. repeat split; reflexivity. Qed.

End PathResolver.

(* ====================================================================== *)
(** ** Escaping and the Word export *)
(* ====================================================================== *)

Section Sanitizer.

Context {host : Host}.

Lemma occurrences_append (c : ascii) (a b : string) :
  occurrences c (a +++ b) = occurrences c a + occurrences c b.
Proof.
  induction a as [|d a IH]; simpl; [reflexivity|].
  rewrite IH. lia.
Qed.

Lemma occurrences_escapeChar (c d : ascii) :
  angle c -> occurrences c (escapeChar d) = 0.
Proof.
  intros Hc. unfold escapeChar.
  destruct (Ascii.eqb d "&") eqn:E1; [destruct Hc; subst; reflexivity|].
  destruct (Ascii.eqb d "<") eqn:E2; [destruct Hc; subst; reflexivity|].
  destruct (Ascii.eqb d ">") eqn:E3; [destruct Hc; subst; reflexivity|].
  destruct (Ascii.eqb d "160") eqn:E4; [destruct Hc; subst; reflexivity|].
  simpl. destruct Hc; subst; [rewrite E2 | rewrite E3]; reflexivity.
Qed.

Lemma occurrences_escapeText (c : ascii) (s : string) :
  angle c -> occurrences c (escapeText s) = 0.
Proof.
  intros Hc. induction s as [|d s IH]; simpl; [reflexivity|].
  rewrite occurrences_append, IH, occurrences_escapeChar by assumption.
  reflexivity.
Qed.

Lemma occurrences_escapeHtml (c : ascii) (v : value) :
  angle c -> occurrences c (escapeHtml v) = 0.
Proof.
  intros Hc. unfold escapeHtml.
  destruct (isNullish v); [reflexivity | now apply occurrences_escapeText].
Qed.

Lemma occurrences_digits (c : ascii) (u : Decimal.uint) :
  angle c -> occurrences c (NilEmpty.string_of_uint u) = 0.
Proof.
  intros Hc. induction u; simpl; try rewrite IHu;
    destruct Hc; subst; reflexivity.
Qed.

Lemma occurrences_natToString (c : ascii) (n : nat) :
  angle c -> occurrences c (natToString n) = 0.
Proof. apply occurrences_digits. Qed.

Lemma occurrences_join_cells (c : ascii) (k : nat) (cells : list string) :
  Forall (fun cell => occurrences c cell = k) cells ->
  occurrences c (join EmptyString cells) = List.length cells * k.
Proof.
  induction 1 as [|cell cells Hcell _ IH]; [reflexivity|].
  destruct cells as [|cell' cells].
  - simpl. lia.
  - change (join EmptyString (cell :: cell' :: cells))
      with (cell +++ EmptyString +++ join EmptyString (cell' :: cells)).
    rewrite !occurrences_append, IH, Hcell. simpl. lia.
Qed.

Lemma occurrences_wordRow (c : ascii) (cols : list DataTableColumn)
    (i : nat) (row : value) :
  angle c -> occurrences c (wordRow cols i row) = 2 + 2 * List.length cols.
Proof.
  intros Hc. unfold wordRow.
  rewrite !occurrences_append.
  rewrite (occurrences_join_cells c 2).
  - rewrite length_map. destruct Hc; subst; simpl; lia.
  - apply Forall_map, Forall_forall. intros col _. unfold wordCell.
    rewrite !occurrences_append, occurrences_escapeHtml by assumption.
    destruct Hc; subst; reflexivity.
Qed.

Lemma occurrences_rows (c : ascii) (cols : list DataTableColumn)
    (data : list value) :
  angle c ->
  forall i,
    occurrences c (join nl (mapi (wordRow cols) i data))
    = List.length data * (2 + 2 * List.length cols).
Proof.
  intros Hc. induction data as [|row data IH]; intros i; [reflexivity|].
  destruct data as [|row' data].
  - simpl mapi. simpl join. rewrite occurrences_wordRow by assumption.
    simpl. lia.
  - change (join nl (mapi (wordRow cols) i (row :: row' :: data)))
      with (wordRow cols i row +++ nl
            +++ join nl (mapi (wordRow cols) (S i) (row' :: data))).
    rewrite !occurrences_append, IH, occurrences_wordRow by assumption.
    replace (occurrences c nl) with 0 by (destruct Hc; subst; reflexivity).
    simpl List.length. lia.
Qed.

Lemma occurrences_headerRow (c : ascii) (config : ExportConfig)
    (cols : list DataTableColumn) :
  angle c ->
  occurrences c (headerRow config cols)
  = if notFalse (includeHeaders config) then 2 + 2 * List.length cols else 0.
Proof.
  intros Hc. unfold headerRow.
  destruct (notFalse (includeHeaders config)); [|reflexivity].
  rewrite !occurrences_append, (occurrences_join_cells c 2).
  - rewrite length_map. destruct Hc; subst; simpl; lia.
  - apply Forall_map, Forall_forall. intros col _.
    rewrite !occurrences_append, occurrences_escapeHtml by assumption.
    destruct Hc; subst; reflexivity.
Qed.

Lemma occurrences_titleHtml (c : ascii) (config : ExportConfig) :
  angle c ->
  occurrences c (titleHtml config) = if falsy (title config) then 0 else 2.
Proof.
  intros Hc. unfold titleHtml. destruct (falsy (title config)); [reflexivity|].
  rewrite !occurrences_append, occurrences_escapeHtml by assumption.
  destruct Hc; subst; reflexivity.
Qed.

Lemma occurrences_subtitleHtml (c : ascii) (config : ExportConfig) :
  angle c ->
  occurrences c (subtitleHtml config)
  = if falsy (subtitle config) then 0 else 2.
Proof.
  intros Hc. unfold subtitleHtml.
  destruct (falsy (subtitle config)); [reflexivity|].
  rewrite !occurrences_append, occurrences_escapeHtml by assumption.
  destruct Hc; subst; reflexivity.
Qed.

Lemma occurrences_metaHtml (c : ascii) (generated : string) (n : nat) :
  angle c -> occurrences c (metaHtml generated n) = 2.
Proof.
  intros Hc. unfold metaHtml.
  rewrite !occurrences_append, occurrences_escapeHtml,
    occurrences_natToString by assumption.
  destruct Hc; subst; reflexivity.
Qed.

Lemma orDefault_truthy (v : option string) (d : string) :
  falsy v = false -> v = Some (orDefault v d).
Proof.
  destruct v as [s|]; simpl; [|discriminate].
  intros H. now rewrite H.
Qed.

Lemma orDefault_falsy (v : option string) :
  falsy v = true -> orDefault v EmptyString = EmptyString.
Proof.
  destruct v as [s|]; simpl; [|reflexivity].
  intros H. now rewrite H.
Qed.

Lemma occurrences_resolveHtmlContent (c : ascii) (v : option string)
    (allowUnsafe : bool) :
  angle c ->
  occurrences c (resolveHtmlContent v allowUnsafe)
  = if allowUnsafe then occurrences c (orDefault v EmptyString) else 0.
Proof.
  intros Hc. unfold resolveHtmlContent, orDefault.
  destruct v as [s|]; [|now destruct allowUnsafe].
  destruct (String.eqb s EmptyString); [now destruct allowUnsafe|].
  destruct allowUnsafe; [reflexivity | now apply occurrences_escapeHtml].
Qed.

Lemma occurrences_customHeaderHtml (c : ascii) (config : ExportConfig) :
  angle c ->
  occurrences c (customHeaderHtml config)
  = (if falsy (customHeader config) then 0 else 2)
    + if isTrue (allowUnsafeHtml config)
      then occurrences c (orDefault (customHeader config) EmptyString)
      else 0.
Proof.
  intros Hc. unfold customHeaderHtml.
  destruct (falsy (customHeader config)) eqn:Hf.
  - rewrite (orDefault_falsy _ Hf). now destruct (isTrue _).
  - rewrite !occurrences_append, occurrences_resolveHtmlContent by assumption.
    destruct Hc; subst; simpl; lia.
Qed.

Lemma occurrences_customFooterHtml (c : ascii) (config : ExportConfig) :
  angle c ->
  occurrences c (customFooterHtml config)
  = 2 + if isTrue (allowUnsafeHtml config)
        then occurrences c (orDefault (customFooter config) EmptyString)
        else 0.
Proof.
  intros Hc. unfold customFooterHtml.
  destruct (falsy (customFooter config)) eqn:Hf.
  - rewrite (orDefault_falsy _ Hf).
    rewrite !occurrences_append, occurrences_escapeHtml by assumption.
    destruct (isTrue _); destruct Hc; subst; reflexivity.
  - rewrite !occurrences_append, occurrences_resolveHtmlContent by assumption.
    destruct Hc; subst; simpl; lia.
Qed.

Lemma occurrences_exportToWord (c : ascii) (generated : string)
    (data : list value) (columns : list DataTableColumn)
    (config : ExportConfig) :
  angle c ->
  occurrences c (exportToWord generated data columns config)
  = wordTagCount (List.length data)
      (List.length (exportableColumns columns)) config
    + trustedMarkup c config.
Proof.
  intros Hc. unfold exportToWord, tableRows, wordTagCount, trustedMarkup.
  rewrite !occurrences_append.
  rewrite occurrences_escapeHtml, occurrences_titleHtml,
    occurrences_subtitleHtml, occurrences_customHeaderHtml,
    occurrences_metaHtml, occurrences_headerRow, occurrences_rows,
    occurrences_customFooterHtml by assumption.
  replace (occurrences c wordProlog) with 4
    by (destruct Hc; subst; reflexivity).
  replace (occurrences c wordStyles) with 16
    by (destruct Hc; subst; reflexivity).
  replace (occurrences c indent) with 0
    by (destruct Hc; subst; reflexivity).
  destruct (isTrue (allowUnsafeHtml config));
    destruct Hc; subst; simpl; lia.
Qed.

Lemma startsWith_append (a b p : string) :
  startsWith a p = true -> startsWith (a +++ b) p = true.
Proof.
  revert a. induction p as [|c p IH]; intros a H; [reflexivity|].
  destruct a as [|d a]; simpl in *; [discriminate|].
  apply andb_true_iff in H. destruct H as [H1 H2].
  rewrite H1. simpl. now apply IH.
Qed.

Lemma includes_append_l (a b p : string) :
  includes a p = true -> includes (a +++ b) p = true.
Proof.
  induction a as [|d a IH]; intros H.
  - simpl in H. rewrite orb_false_r in H.
    destruct p; [now destruct b | discriminate].
  - simpl in H. apply orb_true_iff in H. simpl.
    apply orb_true_iff. destruct H as [H | H].
    + left. now apply (startsWith_append (String d a)).
    + right. now apply IH.
Qed.

Lemma includes_append_r (a b p : string) :
  includes b p = true -> includes (a +++ b) p = true.
Proof.
  intros H. induction a as [|d a IH]; [exact H|].
  simpl. apply orb_true_iff. now right.
Qed.

Lemma exportToWord_flag_irrelevant (generated : string) (data : list value)
    (columns : list DataTableColumn) (config : ExportConfig)
    (flag flag' : option bool) :
  falsy (customHeader config) = true ->
  falsy (customFooter config) = true ->
  exportToWord generated data columns (withAllowUnsafeHtml flag config)
  = exportToWord generated data columns (withAllowUnsafeHtml flag' config).
Proof.
  intros Hh Hf. unfold exportToWord, customHeaderHtml, customFooterHtml,
    titleHtml, subtitleHtml, headerRow. simpl.
  now rewrite Hh, Hf.
Qed.

Lemma exportToWord_includes_header (generated : string) (data : list value)
    (columns : list DataTableColumn) (config : ExportConfig) (inner : string) :
  includes (customHeaderHtml config) inner = true ->
  includes (exportToWord generated data columns config) inner = true.
Proof.
  intros H. unfold exportToWord.
  do 7 apply includes_append_r.
  now apply includes_append_l.
Qed.

(** C6.  [escapeHtml] gives the empty string for [null] and for
    [undefined]; for ["<script>x</script>"], and for every other value, its
    output holds no ["<"] and no [">"]. *)
Theorem escapeHtml_null_safe_no_angle :
  escapeHtml VNull = EmptyString
  /\ escapeHtml VUndefined = EmptyString
  /\ escapeHtml (VStr "<script>x</script>") = "&lt;script&gt;x&lt;/script&gt;"
  /\ occurrences "<" (escapeHtml (VStr "<script>x</script>")) = 0
  /\ occurrences ">" (escapeHtml (VStr "<script>x</script>")) = 0
  /\ forall v : value,
       occurrences "<" (escapeHtml v) = 0 /\ occurrences ">" (escapeHtml v) = 0.
Proof.
  repeat split; try reflexivity;
    apply occurrences_escapeHtml; [left | right]; reflexivity.
Qed.

Lemma append_assoc (a b c : string) : (a +++ b) +++ c = a +++ b +++ c.
Proof. induction a as [|d a IH]; simpl; [reflexivity | now rewrite IH]. Qed.

(** The document is a fixed frame around the two custom blocks: the frame
    does not depend on the trust flag. *)
Lemma exportToWord_frame (generated : string) (data : list value)
    (columns : list DataTableColumn) (config : ExportConfig) :
  exists before between after,
    forall flag,
      exportToWord generated data columns (withAllowUnsafeHtml flag config)
      = before +++ customHeaderHtml (withAllowUnsafeHtml flag config)
        +++ between +++ customFooterHtml (withAllowUnsafeHtml flag config)
        +++ after.
Proof.
  set (cols := exportableColumns columns).
  exists (wordProlog
          +++ escapeHtml (VStr (orDefault (title config) "Export"))
          +++ wordStyles +++ titleHtml config +++ indent
          +++ subtitleHtml config +++ indent).
  exists (indent +++ metaHtml generated (List.length data)
          +++ "
  <table>
    <thead>" +++ headerRow config cols
          +++ "</thead>
    <tbody>" +++ tableRows data cols
          +++ "</tbody>
  </table>
  ").
  exists "
</body>
</html>".
  intros flag. unfold exportToWord. fold cols.
  rewrite !append_assoc. reflexivity.
Qed.

Lemma append_empty_r (s : string) : s +++ EmptyString = s.
Proof. induction s as [|c s IH]; simpl; [reflexivity | now rewrite IH]. Qed.

(** *** Where a text occurs *)

Lemma startsWith_self (p rest : string) : startsWith (p +++ rest) p = true.
Proof.
  induction p as [|c p IH]; [reflexivity|].
  simpl. now rewrite Ascii.eqb_refl.
Qed.

Lemma includes_startsWith (s p : string) :
  startsWith s p = true -> includes s p = true.
Proof. intros H. destruct s; simpl; now rewrite H. Qed.

Lemma includes_middle (pre p post : string) :
  includes (pre +++ p +++ post) p = true.
Proof.
  apply includes_append_r, includes_startsWith, startsWith_self.
Qed.

Lemma includes_refl (p : string) : includes p p = true.
Proof.
  rewrite <- (append_empty_r p) at 1.
  apply includes_startsWith, startsWith_self.
Qed.

Lemma startsWith_split (s p : string) :
  startsWith s p = true -> exists post, s = p +++ post.
Proof.
  revert s. induction p as [|c p IH]; intros s H.
  - now exists s.
  - destruct s as [|d s]; [discriminate|].
    simpl in H. apply andb_true_iff in H. destruct H as [Hc Hs].
    apply Ascii.eqb_eq in Hc. subst d.
    destruct (IH s Hs) as [post ->]. now exists post.
Qed.

Lemma includes_split (s p : string) :
  includes s p = true -> exists pre post, s = pre +++ p +++ post.
Proof.
  induction s as [|c s IH]; intros H.
  - simpl in H. rewrite orb_false_r in H.
    destruct (startsWith_split _ _ H) as [post Hpost].
    now exists EmptyString, post.
  - simpl in H. apply orb_true_iff in H. destruct H as [H | H].
    + destruct (startsWith_split _ _ H) as [post Hpost].
      now exists EmptyString, post.
    + destruct (IH H) as (pre & post & ->).
      now exists (String c pre), post.
Qed.

Lemma includes_trans (a b c : string) :
  includes a b = true -> includes b c = true -> includes a c = true.
Proof.
  intros Hab Hbc.
  destruct (includes_split _ _ Hab) as (pre & post & ->).
  destruct (includes_split _ _ Hbc) as (pre' & post' & ->).
  rewrite !append_assoc, <- (append_assoc pre pre').
  apply includes_middle.
Qed.

Lemma includes_join (sep x : string) (parts : list string) :
  In x parts -> includes (join sep parts) x = true.
Proof.
  induction parts as [|p rest IH]; intros Hin; [destruct Hin|].
  destruct rest as [|q rest].
  - destruct Hin as [-> | []]. apply includes_refl.
  - change (join sep (p :: q :: rest))
      with (p +++ sep +++ join sep (q :: rest)).
    destruct Hin as [-> | Hin].
    + apply includes_startsWith, startsWith_self.
    + do 2 apply includes_append_r. now apply IH.
Qed.

Lemma mapi_nth_error {A B : Type} (f : nat -> A -> B) (l : list A) :
  forall k i x,
    nth_error l i = Some x -> In (f (k + i) x) (mapi f k l).
Proof.
  induction l as [|y l IH]; intros k i x H; [now destruct i|].
  destruct i as [|i]; simpl in *.
  - injection H as ->. left. now rewrite Nat.add_0_r.
  - right. rewrite <- Nat.add_succ_comm. now apply IH.
Qed.

(** *** The serialisation of a text node read back *)

Lemma unescapeHtml_escapeText (s : string) : unescapeHtml (escapeText s) = s.
Proof.
  unfold unescapeHtml. induction s as [|d s IH]; [reflexivity|].
  simpl. unfold escapeChar.
  destruct (Ascii.eqb d "&") eqn:E1.
  { apply Ascii.eqb_eq in E1. subst d. cbn. now rewrite IH. }
  destruct (Ascii.eqb d "<") eqn:E2.
  { apply Ascii.eqb_eq in E2. subst d. cbn. now rewrite IH. }
  destruct (Ascii.eqb d ">") eqn:E3.
  { apply Ascii.eqb_eq in E3. subst d. cbn. now rewrite IH. }
  destruct (Ascii.eqb d "160") eqn:E4.
  { apply Ascii.eqb_eq in E4. subst d. cbn. now rewrite IH. }
  cbn [append unescapeFrom]. now rewrite E1, IH.
Qed.

Lemma escapeHtml_text (s : string) : escapeHtml (VStr s) = escapeText s.
Proof. reflexivity. Qed.

(** *** The pieces of the document *)

Lemma wordProlog_title : exists pre, wordProlog = pre +++ "<title>".
Proof.
  exists (String.substring 0 (String.length wordProlog - 7) wordProlog).
  vm_compute. reflexivity.
Qed.

Lemma wordStyles_title : exists post, wordStyles = "</title>" +++ post.
Proof.
  exists (String.substring 8 (String.length wordStyles - 8) wordStyles).
  vm_compute. reflexivity.
Qed.

Lemma exportToWord_includes_title (generated : string) (data : list value)
    (columns : list DataTableColumn) (config : ExportConfig) :
  includes (exportToWord generated data columns config)
    ("<title>" +++ escapeText (orDefault (title config) "Export")
     +++ "</title>") = true.
Proof.
  destruct wordProlog_title as [pre Hpre].
  destruct wordStyles_title as [post Hpost].
  unfold exportToWord. rewrite Hpre, Hpost, escapeHtml_text.
  rewrite !append_assoc. apply includes_append_r.
  set (inner := escapeText (orDefault (title config) "Export")).
  match goal with
  | |- includes (_ +++ inner +++ _ +++ ?rest) _ = true =>
      replace ("<title>" +++ inner +++ "</title>" +++ rest)
        with (("<title>" +++ inner +++ "</title>") +++ rest)
        by now rewrite !append_assoc
  end.
  apply includes_startsWith, startsWith_self.
Qed.

Lemma exportToWord_includes_heading (generated : string) (data : list value)
    (columns : list DataTableColumn) (config : ExportConfig) (inner : string) :
  includes (titleHtml config) inner = true ->
  includes (exportToWord generated data columns config) inner = true.
Proof.
  intros H. unfold exportToWord.
  do 3 apply includes_append_r. now apply includes_append_l.
Qed.

Lemma exportToWord_includes_subtitle (generated : string) (data : list value)
    (columns : list DataTableColumn) (config : ExportConfig) (inner : string) :
  includes (subtitleHtml config) inner = true ->
  includes (exportToWord generated data columns config) inner = true.
Proof.
  intros H. unfold exportToWord.
  do 5 apply includes_append_r. now apply includes_append_l.
Qed.

Lemma exportToWord_includes_meta (generated : string) (data : list value)
    (columns : list DataTableColumn) (config : ExportConfig) (inner : string) :
  includes (metaHtml generated (List.length data)) inner = true ->
  includes (exportToWord generated data columns config) inner = true.
Proof.
  intros H. unfold exportToWord.
  do 9 apply includes_append_r. now apply includes_append_l.
Qed.

Lemma exportToWord_includes_labels (generated : string) (data : list value)
    (columns : list DataTableColumn) (config : ExportConfig) (inner : string) :
  includes (headerRow config (exportableColumns columns)) inner = true ->
  includes (exportToWord generated data columns config) inner = true.
Proof.
  intros H. unfold exportToWord.
  do 11 apply includes_append_r. now apply includes_append_l.
Qed.

Lemma exportToWord_includes_rows (generated : string) (data : list value)
    (columns : list DataTableColumn) (config : ExportConfig) (inner : string) :
  includes (tableRows data (exportableColumns columns)) inner = true ->
  includes (exportToWord generated data columns config) inner = true.
Proof.
  intros H. unfold exportToWord.
  do 13 apply includes_append_r. now apply includes_append_l.
Qed.

Lemma exportToWord_includes_footer (generated : string) (data : list value)
    (columns : list DataTableColumn) (config : ExportConfig) (inner : string) :
  includes (customFooterHtml config) inner = true ->
  includes (exportToWord generated data columns config) inner = true.
Proof.
  intros H. unfold exportToWord.
  do 15 apply includes_append_r. now apply includes_append_l.
Qed.

Lemma tableRows_includes_cell (data : list value)
    (cols : list DataTableColumn) (i : nat) (row : value)
    (col : DataTableColumn) :
  nth_error data i = Some row ->
  In col cols ->
  includes (tableRows data cols) (wordCell row i col) = true.
Proof.
  intros Hrow Hcol.
  apply (includes_trans _ (wordRow cols i row)).
  - apply includes_join.
    apply (mapi_nth_error (wordRow cols) data 0 i row Hrow).
  - unfold wordRow. apply includes_append_r, includes_append_l.
    apply includes_join. apply in_map_iff. now exists col.
Qed.

Lemma headerRow_includes_label (config : ExportConfig)
    (cols : list DataTableColumn) (col : DataTableColumn) :
  notFalse (includeHeaders config) = true ->
  In col cols ->
  includes (headerRow config cols)
    ("<th>" +++ escapeText (label col) +++ "</th>") = true.
Proof.
  intros Hflag Hcol. unfold headerRow. rewrite Hflag.
  apply includes_append_r, includes_append_l, includes_join.
  apply in_map_iff. now exists col.
Qed.

(** C2.  In the Word document the title, the subtitle, the meta line, the
    column labels and every cell go through [escapeHtml] whatever
    [allowUnsafeHtml] is: the count of ["<"] and of [">"] in the document is
    the count of the template for that shape, plus what [customHeader] and
    [customFooter] hold when the flag is [true], and everything around the
    two custom blocks is the same for every value of the flag.  Without
    custom header and footer the flag does not change the document at all;
    with the flag [true] the header and the footer go in as they are.  With
    the flag off and the header ["<b>Hi</b>"], the document holds
    ["&lt;b&gt;Hi&lt;/b&gt;"] and the header adds no markup of its own.

    Each of these texts is in the document, in its escaped form and
    between its tags: the title in [<title>] and, when set, in [<h1>] (and
    in the footer when no custom footer is given), the subtitle in its
    paragraph, the time of generation and the number of records in the
    meta paragraph, every label of an exportable column in a [<th>] unless
    the headers are left out, and for every row and every exportable
    column the formatted value in a [<td>].  A custom header or footer
    that is not trusted is written in its escaped form too.  The escaped
    form of a text is the text with ["&"], ["<"], [">"] and the no-break
    space replaced by their character references: resolving the references
    gives the text back. *)
Theorem exportToWord_escaping (generated : string) (data : list value)
    (columns : list DataTableColumn) (config : ExportConfig) :
  (forall c, angle c ->
     occurrences c (exportToWord generated data columns config)
     = wordTagCount (List.length data)
         (List.length (exportableColumns columns)) config
       + trustedMarkup c config)
  /\ (exists before between after,
        forall flag,
          exportToWord generated data columns
            (withAllowUnsafeHtml flag config)
          = before +++ customHeaderHtml (withAllowUnsafeHtml flag config)
            +++ between
            +++ customFooterHtml (withAllowUnsafeHtml flag config)
            +++ after)
  /\ (falsy (customHeader config) = true ->
      falsy (customFooter config) = true ->
      forall flag flag',
        exportToWord generated data columns (withAllowUnsafeHtml flag config)
        = exportToWord generated data columns
            (withAllowUnsafeHtml flag' config))
  /\ (forall raw,
        raw <> EmptyString ->
        allowUnsafeHtml config = Some true ->
        (customHeader config = Some raw ->
         customHeaderHtml config
         = "<div class=" +++ dq +++ "custom-header" +++ dq +++ ">"
           +++ raw +++ "</div>")
        /\ (customFooter config = Some raw ->
            customFooterHtml config
            = "<p class=" +++ dq +++ "footer" +++ dq +++ ">"
              +++ raw +++ "</p>"))
  /\ (customHeader config = Some "<b>Hi</b>" ->
      isTrue (allowUnsafeHtml config) = false ->
      customHeaderHtml config
      = "<div class=" +++ dq +++ "custom-header" +++ dq +++ ">"
        +++ "&lt;b&gt;Hi&lt;/b&gt;" +++ "</div>"
      /\ includes (exportToWord generated data columns config)
           "&lt;b&gt;Hi&lt;/b&gt;" = true
      /\ forall c, angle c -> trustedMarkup c config = 0)
  /\ (forall text,
        escapeHtml (VStr text) = escapeText text
        /\ unescapeHtml (escapeText text) = text)
  /\ includes (exportToWord generated data columns config)
       ("<title>" +++ escapeText (orDefault (title config) "Export")
        +++ "</title>") = true
  /\ (forall text,
        title config = Some text ->
        text <> EmptyString ->
        includes (exportToWord generated data columns config)
          ("<h1>" +++ escapeText text +++ "</h1>") = true)
  /\ (forall text,
        subtitle config = Some text ->
        text <> EmptyString ->
        includes (exportToWord generated data columns config)
          ("<p class=" +++ dq +++ "subtitle" +++ dq +++ ">"
           +++ escapeText text +++ "</p>") = true)
  /\ includes (exportToWord generated data columns config)
       ("<p class=" +++ dq +++ "meta" +++ dq +++ ">Generated: "
        +++ escapeText generated +++ " | Total Records: "
        +++ natToString (List.length data) +++ "</p>") = true
  /\ (notFalse (includeHeaders config) = true ->
      forall col,
        In col (exportableColumns columns) ->
        includes (exportToWord generated data columns config)
          ("<th>" +++ escapeText (label col) +++ "</th>") = true)
  /\ (forall rowIndex row col,
        nth_error data rowIndex = Some row ->
        In col (exportableColumns columns) ->
        includes (exportToWord generated data columns config)
          ("<td>"
           +++ escapeText
                 (formatValueForExport (valueAt row (id col)) row col
                    rowIndex)
           +++ "</td>") = true)
  /\ (falsy (customFooter config) = true ->
      includes (exportToWord generated data columns config)
        ("<p class=" +++ dq +++ "footer" +++ dq +++ ">"
         +++ escapeText (orDefault (title config) "Document")
         +++ "</p>") = true)
  /\ (forall raw,
        raw <> EmptyString ->
        isTrue (allowUnsafeHtml config) = false ->
        (customHeader config = Some raw ->
         includes (exportToWord generated data columns config)
           ("<div class=" +++ dq +++ "custom-header" +++ dq +++ ">"
            +++ escapeText raw +++ "</div>") = true)
        /\ (customFooter config = Some raw ->
            includes (exportToWord generated data columns config)
              ("<p class=" +++ dq +++ "footer" +++ dq +++ ">"
               +++ escapeText raw +++ "</p>") = true)).
Proof.
  split; [intros c Hc; now apply occurrences_exportToWord|].
  split; [apply exportToWord_frame|].
  split; [intros Hh Hf flag flag'; now apply exportToWord_flag_irrelevant|].
  split.
  { intros raw Hne Hflag. apply String.eqb_neq in Hne. split; intros Hraw.
    + unfold customHeaderHtml, resolveHtmlContent.
      rewrite Hraw, Hflag. simpl. now rewrite Hne.
    + unfold customFooterHtml, resolveHtmlContent.
      rewrite Hraw, Hflag. simpl. now rewrite Hne. }
  split.
  { intros Hraw Hflag.
    assert (Hhtml : customHeaderHtml config
                    = "<div class=" +++ dq +++ "custom-header" +++ dq +++ ">"
                      +++ "&lt;b&gt;Hi&lt;/b&gt;" +++ "</div>").
    { unfold customHeaderHtml. rewrite Hraw, Hflag. reflexivity. }
    split; [exact Hhtml|]. split.
    + apply exportToWord_includes_header. rewrite Hhtml. reflexivity.
    + intros c _. unfold trustedMarkup. now rewrite Hflag. }
  split.
  { intros text. split; [reflexivity | apply unescapeHtml_escapeText]. }
  split; [apply exportToWord_includes_title|].
  split.
  { intros text Htitle Hne. apply String.eqb_neq in Hne.
    apply exportToWord_includes_heading.
    unfold titleHtml. rewrite Htitle. simpl. rewrite Hne.
    rewrite escapeHtml_text. apply includes_refl. }
  split.
  { intros text Hsub Hne. apply String.eqb_neq in Hne.
    apply exportToWord_includes_subtitle.
    unfold subtitleHtml. rewrite Hsub. simpl falsy. simpl orDefault.
    rewrite Hne, escapeHtml_text. apply includes_refl. }
  split.
  { apply exportToWord_includes_meta. unfold metaHtml.
    rewrite escapeHtml_text. apply includes_refl. }
  split.
  { intros Hflag col Hcol. apply exportToWord_includes_labels.
    now apply headerRow_includes_label. }
  split.
  { intros rowIndex row col Hrow Hcol. apply exportToWord_includes_rows.
    apply (tableRows_includes_cell data _ rowIndex row col Hrow Hcol). }
  split.
  { intros Hnone. apply exportToWord_includes_footer.
    unfold customFooterHtml. rewrite Hnone, escapeHtml_text.
    apply includes_refl. }
  intros raw Hne Hflag. apply String.eqb_neq in Hne. split; intros Hraw.
  - apply exportToWord_includes_header.
    unfold customHeaderHtml, resolveHtmlContent.
    rewrite Hraw, Hflag. simpl falsy. rewrite Hne, escapeHtml_text.
    apply includes_refl.
  - apply exportToWord_includes_footer.
    unfold customFooterHtml, resolveHtmlContent.
    rewrite Hraw, Hflag. simpl falsy. rewrite Hne, escapeHtml_text.
    apply includes_refl.
Qed.

End Sanitizer.

(* ====================================================================== *)
(** ** Sorting *)
(* ====================================================================== *)

Section InsertionOrder.

Variable A : Type.
Variable missing : A -> bool.
Variable compare : A -> A -> Z.

Lemma insertBy_permutation (x : A) (l : list A) :
  Permutation (x :: l) (insertBy compare x l).
Proof.
  induction l as [|y l IH]; simpl; [apply Permutation_refl|].
  destruct (0 <? compare y x)%Z; [apply Permutation_refl|].
  eapply perm_trans; [apply perm_swap|]. now apply perm_skip.
Qed.

Lemma sort_permutation_from (l acc : list A) :
  Permutation (acc ++ l)
    (fold_left (fun sorted x => insertBy compare x sorted) l acc).
Proof.
  revert acc. induction l as [|x l IH]; intros acc; simpl.
  - rewrite app_nil_r. apply Permutation_refl.
  - eapply perm_trans; [|apply IH].
    eapply perm_trans; [apply Permutation_sym, Permutation_middle|].
    apply (Permutation_app_tail l (insertBy_permutation x acc)).
Qed.

Lemma sort_permutation (l : list A) : Permutation l (sort compare l).
Proof. apply (sort_permutation_from l []). Qed.

Lemma insertBy_forallb (keep : A -> bool) (x : A) (l : list A) :
  keep x = true -> forallb keep l = true ->
  forallb keep (insertBy compare x l) = true.
Proof.
  intros Hx. induction l as [|y l IH]; simpl; intros Hl.
  - now rewrite Hx.
  - apply andb_true_iff in Hl. destruct Hl as [Hy Hl].
    destruct (0 <? compare y x)%Z; simpl.
    + now rewrite Hx, Hy, Hl.
    + now rewrite Hy, IH.
Qed.

(** A comparator that ranks a missing value above everything. *)
Hypothesis missing_above : forall y x, missing y = true -> (0 < compare y x)%Z.
Hypothesis present_below :
  forall y x, missing y = false -> missing x = true -> (compare y x <= 0)%Z.

Lemma insertBy_missingLast (x : A) (l : list A) :
  missingLast missing l = true ->
  missingLast missing (insertBy compare x l) = true.
Proof.
  induction l as [|y l IH]; simpl; intros Hl.
  - now destruct (missing x).
  - destruct (0 <? compare y x)%Z eqn:Hc.
    + simpl. destruct (missing x) eqn:Hx; [|exact Hl].
      destruct (missing y) eqn:Hy; [exact Hl|].
      apply Z.ltb_lt in Hc. pose proof (present_below y x Hy Hx). lia.
    + simpl. destruct (missing y) eqn:Hy; [|now apply IH].
      apply Z.ltb_ge in Hc. pose proof (missing_above y x Hy). lia.
Qed.

Lemma sort_missingLast_from (l acc : list A) :
  missingLast missing acc = true ->
  missingLast missing
    (fold_left (fun sorted x => insertBy compare x sorted) l acc) = true.
Proof.
  revert acc. induction l as [|x l IH]; intros acc Hacc; simpl;
    [assumption|].
  now apply IH, insertBy_missingLast.
Qed.

Lemma sort_missingLast (l : list A) :
  missingLast missing (sort compare l) = true.
Proof. now apply sort_missingLast_from. Qed.

End InsertionOrder.

Section InsertionOrderReversed.

Variable A : Type.
Variable missing : A -> bool.
Variable compare : A -> A -> Z.

(** A comparator that ranks a missing value below everything. *)
Hypothesis missing_below : forall y x, missing y = true -> (compare y x <= 0)%Z.
Hypothesis present_above :
  forall y x, missing y = false -> missing x = true -> (0 < compare y x)%Z.

Lemma insertBy_missingFirst (x : A) (l : list A) :
  missingFirst missing l = true ->
  missingFirst missing (insertBy compare x l) = true.
Proof.
  induction l as [|y l IH]; simpl; intros Hl.
  - now destruct (missing x).
  - destruct (0 <? compare y x)%Z eqn:Hc.
    + assert (Hy : missing y = false).
      { destruct (missing y) eqn:Hy; [|reflexivity].
        apply Z.ltb_lt in Hc. pose proof (missing_below y x Hy). lia. }
      rewrite Hy in Hl. simpl. rewrite Hy.
      destruct (missing x) eqn:Hx; [exact Hl | simpl; exact Hl].
    + simpl. destruct (missing y) eqn:Hy; [now apply IH|].
      assert (Hx : missing x = false).
      { destruct (missing x) eqn:Hx; [|reflexivity].
        apply Z.ltb_ge in Hc. pose proof (present_above y x Hy Hx). lia. }
      apply insertBy_forallb; [now rewrite Hx | exact Hl].
Qed.

Lemma sort_missingFirst_from (l acc : list A) :
  missingFirst missing acc = true ->
  missingFirst missing
    (fold_left (fun sorted x => insertBy compare x sorted) l acc) = true.
Proof.
  revert acc. induction l as [|x l IH]; intros acc Hacc; simpl;
    [assumption|].
  now apply IH, insertBy_missingFirst.
Qed.

Lemma sort_missingFirst (l : list A) :
  missingFirst missing (sort compare l) = true.
Proof. now apply sort_missingFirst_from. Qed.

End InsertionOrderReversed.

Section Positions.

Variable A : Type.
Variable missing : A -> bool.

Lemma forallb_nth_error (keep : A -> bool) (l : list A) (i : nat) (x : A) :
  forallb keep l = true -> nth_error l i = Some x -> keep x = true.
Proof.
  intros Hl Hx. rewrite forallb_forall in Hl.
  apply Hl. eapply nth_error_In. exact Hx.
Qed.

Lemma missingLast_positions (l : list A) :
  missingLast missing l = true ->
  forall i j x y,
    nth_error l i = Some x -> nth_error l j = Some y ->
    missing x = true -> missing y = false -> j < i.
Proof.
  induction l as [|z l IH]; intros Hl i j x y Hi Hj Hx Hy.
  - destruct i; discriminate.
  - simpl in Hl. destruct i as [|i], j as [|j]; simpl in Hi, Hj.
    + congruence.
    + injection Hi as ->. rewrite Hx in Hl.
      pose proof (forallb_nth_error _ _ _ _ Hl Hj). congruence.
    + lia.
    + destruct (missing z).
      * pose proof (forallb_nth_error _ _ _ _ Hl Hj). congruence.
      * apply -> Nat.succ_lt_mono. now apply (IH Hl i j x y).
Qed.

Lemma missingFirst_positions (l : list A) :
  missingFirst missing l = true ->
  forall i j x y,
    nth_error l i = Some x -> nth_error l j = Some y ->
    missing x = true -> missing y = false -> i < j.
Proof.
  induction l as [|z l IH]; intros Hl i j x y Hi Hj Hx Hy.
  - destruct i; discriminate.
  - simpl in Hl. destruct i as [|i], j as [|j]; simpl in Hi, Hj.
    + congruence.
    + lia.
    + injection Hj as ->. rewrite Hy in Hl.
      pose proof (forallb_nth_error _ _ _ _ Hl Hi) as H.
      simpl in H. rewrite Hx in H. discriminate.
    + destruct (missing z).
      * apply -> Nat.succ_lt_mono. now apply (IH Hl i j x y).
      * pose proof (forallb_nth_error _ _ _ _ Hl Hi) as H.
        simpl in H. rewrite Hx in H. discriminate.
Qed.

End Positions.

Section SortEngine.

Context {host : Host}.

Lemma compareRows_asc_missing (c : string) (y x : value) :
  missingAt c y = true -> (0 < compareRows c asc y x)%Z.
Proof. unfold missingAt, compareRows. intros ->. lia. Qed.

Lemma compareRows_asc_present (c : string) (y x : value) :
  missingAt c y = false -> missingAt c x = true ->
  (compareRows c asc y x <= 0)%Z.
Proof. unfold missingAt, compareRows. intros -> ->. lia. Qed.

Lemma compareRows_desc_missing (c : string) (y x : value) :
  missingAt c y = true -> (compareRows c desc y x <= 0)%Z.
Proof. unfold missingAt, compareRows. intros ->. lia. Qed.

Lemma compareRows_desc_present (c : string) (y x : value) :
  missingAt c y = false -> missingAt c x = true ->
  (0 < compareRows c desc y x)%Z.
Proof. unfold missingAt, compareRows. intros -> ->. lia. Qed.

Lemma sortStage_sorts (props : DataTableProps) (st : HookState) (c : string)
    (dir : SortDirection) (rows : list value) :
  column (sortState props st) = Some c ->
  c <> EmptyString ->
  direction (sortState props st) = Some dir ->
  sortStage props st rows = sort (compareRows c dir) rows.
Proof.
  intros Hc Hne Hd. unfold sortStage. rewrite Hc, Hd.
  unfold nonEmpty. apply String.eqb_neq in Hne. now rewrite Hne.
Qed.

Lemma sortStage_permutation (props : DataTableProps) (st : HookState)
    (rows : list value) :
  Permutation rows (sortStage props st rows).
Proof.
  unfold sortStage.
  destruct (column (sortState props st)) as [c|]; [|apply Permutation_refl].
  destruct (direction (sortState props st)) as [dir|];
    [|apply Permutation_refl].
  destruct (nonEmpty c); [apply sort_permutation | apply Permutation_refl].
Qed.

(** C3, as the code has it.  With a sort column and a direction set, the
    sorted output is a rearrangement of the rows in which the rows whose
    value at the column is [null] or [undefined] come after every row with
    a value when the direction is ascending, and before every such row
    when it is descending: the sign flip of ['desc'] applies to the rank of
    missing values as well. *)
Theorem sortStage_missing_values (props : DataTableProps) (st : HookState)
    (c : string) (dir : SortDirection) (rows : list value) :
  column (sortState props st) = Some c ->
  c <> EmptyString ->
  direction (sortState props st) = Some dir ->
  Permutation rows (sortStage props st rows)
  /\ forall i j x y,
       nth_error (sortStage props st rows) i = Some x ->
       nth_error (sortStage props st rows) j = Some y ->
       missingAt c x = true ->
       missingAt c y = false ->
       match dir with
       | asc => j < i
       | desc => i < j
       end.
Proof.
  intros Hc Hne Hd. split; [apply sortStage_permutation|].
  rewrite (sortStage_sorts props st c dir rows Hc Hne Hd).
  intros i j x y Hi Hj Hx Hy. destruct dir.
  - eapply (missingLast_positions _ (missingAt c)); eauto.
    apply sort_missingLast.
    + apply compareRows_asc_missing.
    + apply compareRows_asc_present.
  - eapply (missingFirst_positions _ (missingAt c)); eauto.
    apply sort_missingFirst.
    + apply compareRows_desc_missing.
    + apply compareRows_desc_present.
Qed.

End SortEngine.

Lemma sortStage_missing_values_witness :
  let props := localProps gappedRows [] None in
  let st := withSort "k" asc (initialState props) in
  Permutation gappedRows (@sortStage plainHost props st gappedRows)
  /\ forall i j x y,
       nth_error (@sortStage plainHost props st gappedRows) i = Some x ->
       nth_error (@sortStage plainHost props st gappedRows) j = Some y ->
       missingAt "k" x = true ->
       missingAt "k" y = false ->
       j < i.
Proof.
  intros props st.
  apply (@sortStage_missing_values plainHost props st "k" asc gappedRows).
  - reflexivity.
  - discriminate.
  - reflexivity.
Defined.

Example sortStage_gapped_rows :
  let props := localProps gappedRows [] None in
  @sortStage plainHost props (withSort "k" asc (initialState props)) gappedRows
  = [rowOf 3 (VNum 2); rowOf 1 (VNum 5); rowOf 2 VNull]
  /\ @sortStage plainHost props (withSort "k" desc (initialState props))
       gappedRows
     = [rowOf 2 VNull; rowOf 1 (VNum 5); rowOf 3 (VNum 2)].
Proof. split; reflexivity. Qed.

(** C3 as stated fails in descending direction: of the two rows
    [{k: 1}] and [{k: null}] the one without a value comes out first.  The
    comparator says so whichever way the two rows are handed to it. *)
Lemma sort_desc_missing_first_counterexample :
  let rows := [rowOf 1 (VNum 1); rowOf 2 VNull] in
  let props := localProps rows [] None in
  let st := withSort "k" desc (initialState props) in
  @processedData plainHost props st = [rowOf 2 VNull; rowOf 1 (VNum 1)]
  /\ @compareRows plainHost "k" desc (rowOf 1 (VNum 1)) (rowOf 2 VNull) = 1%Z
  /\ @compareRows plainHost "k" desc (rowOf 2 VNull) (rowOf 1 (VNum 1))
     = (-1)%Z
  /\ ~ (forall i j x y,
          nth_error (@processedData plainHost props st) i = Some x ->
          nth_error (@processedData plainHost props st) j = Some y ->
          missingAt "k" x = true ->
          missingAt "k" y = false ->
          j < i).
Proof.
  intros rows props st.
  split; [reflexivity|]. split; [reflexivity|]. split; [reflexivity|].
  intros H.
  specialize (H 0 1 (rowOf 2 VNull) (rowOf 1 (VNum 1))
                eq_refl eq_refl eq_refl eq_refl).
  lia.
Qed.

(* ====================================================================== *)
(** ** Selection *)
(* ====================================================================== *)

Section SelectionTracker.

Context {host : Host}.

Lemma strictEq_refl (v : value) : strictEq v v = true.
Proof.
  destruct v as [| |b|n|s|name|r t|r items|r own proto|i]; simpl;
    try reflexivity.
  - now destruct b.
  - apply Z.eqb_refl.
  - apply String.eqb_refl.
  - apply String.eqb_refl.
  - apply Nat.eqb_refl.
  - apply Nat.eqb_refl.
  - apply Nat.eqb_refl.
  - now destruct i.
Qed.

Lemma commitSelection_uncontrolled (props : DataTableProps)
    (s : list value) (st : HookState) :
  onSelectionChange props = false ->
  commitSelection props s st = (setInternalSelectedRows s st, []).
Proof. intros H. unfold commitSelection. now rewrite H. Qed.

Lemma commitSelection_controlled (props : DataTableProps)
    (s : list value) (st : HookState) :
  onSelectionChange props = true ->
  commitSelection props s st = (st, [SelectionChanged s]).
Proof. intros H. unfold commitSelection. now rewrite H. Qed.

Lemma selectedRows_after_commit (props : DataTableProps) (s : list value)
    (st : HookState) :
  onSelectionChange props = false ->
  propSelectedRows props = None ->
  selectedRows props (fst (commitSelection props s st)) = s.
Proof.
  intros Hc Hp. rewrite commitSelection_uncontrolled by assumption.
  unfold selectedRows. now rewrite Hp.
Qed.

Lemma processedData_after_commit (props : DataTableProps) (s : list value)
    (st : HookState) :
  processedData props (fst (commitSelection props s st))
  = processedData props st.
Proof. unfold commitSelection. now destruct (onSelectionChange props). Qed.

(** C4, as the code has it.  In ['single'] mode a toggle commits a
    selection of at most one row whatever the selection was, and a
    double-click either commits exactly the clicked row or changes
    nothing.  [handleSelectAll] is not clamped: it commits the whole scope
    when checked, in every mode. *)
Theorem single_mode_selection (props : DataTableProps) (st : HookState)
    (row : value) :
  singleMode props = true ->
  (exists s,
      List.length s <= 1
      /\ handleSelectionChange props row st = commitSelection props s st)
  /\ (handleDoubleClickSelection props row st
      = commitSelection props [row] st
      \/ handleDoubleClickSelection props row st = (st, []))
  /\ (forall checked,
        handleSelectAll props checked st
        = commitSelection props
            (if checked then selectAllScope props st else []) st)
  /\ (onSelectionChange props = false ->
      propSelectedRows props = None ->
      List.length
        (selectedRows props (fst (handleSelectionChange props row st))) <= 1
      /\ (List.length (selectedRows props st) <= 1 ->
          List.length
            (selectedRows props
               (fst (handleDoubleClickSelection props row st))) <= 1)).
Proof.
  intros Hsingle.
  assert (Htoggle : exists s,
             List.length s <= 1
             /\ handleSelectionChange props row st
                = commitSelection props s st).
  { unfold handleSelectionChange. rewrite Hsingle.
    destruct (existsb _ (selectedRows props st)).
    - exists []. split; [simpl; lia | reflexivity].
    - exists [row]. split; [simpl; lia | reflexivity]. }
  assert (Hdouble : handleDoubleClickSelection props row st
                    = commitSelection props [row] st
                    \/ handleDoubleClickSelection props row st = (st, [])).
  { unfold handleDoubleClickSelection.
    destruct (match selectionConfig props with
              | Some cfg => notFalse (doubleClickSelectsOnly cfg)
              | None => true
              end); [now left | now right]. }
  split; [exact Htoggle|]. split; [exact Hdouble|].
  split; [reflexivity|].
  intros Hc Hp. split.
  - destruct Htoggle as [s [Hlen ->]].
    now rewrite selectedRows_after_commit.
  - intros Hbefore. destruct Hdouble as [-> | ->].
    + rewrite selectedRows_after_commit by assumption. simpl. lia.
    + exact Hbefore.
Qed.

(** C10.  Unchecking select-all commits the empty selection, whatever the
    scope and whatever was selected: the caller's handler receives [[]],
    or the internal selection becomes [[]], after which no row at all is
    selected, the rows outside the scope included. *)
Theorem handleSelectAll_unchecked_clears (props : DataTableProps)
    (st : HookState) :
  handleSelectAll props false st = commitSelection props [] st
  /\ (onSelectionChange props = true ->
      handleSelectAll props false st = (st, [SelectionChanged []]))
  /\ (onSelectionChange props = false ->
      internalSelectedRows (fst (handleSelectAll props false st)) = []
      /\ (propSelectedRows props = None ->
          selectedRows props (fst (handleSelectAll props false st)) = []
          /\ forall row,
               isRowSelected props (fst (handleSelectAll props false st)) row
               = false)).
Proof.
  split; [reflexivity|]. split.
  - intros Hc. unfold handleSelectAll. now apply commitSelection_controlled.
  - intros Hc. unfold handleSelectAll.
    rewrite commitSelection_uncontrolled by assumption. simpl.
    split; [reflexivity|]. intros Hp.
    unfold isRowSelected, selectedRows. rewrite Hp. simpl.
    split; [reflexivity | intros row; reflexivity].
Qed.

End SelectionTracker.

Lemma single_mode_selection_witness :
  let props := localProps (numberedRows 1 3) [] singleSelection in
  let st := setInternalSelectedRows (numberedRows 1 3) (initialState props) in
  let row := rowOf 2 (VNum 2) in
  List.length (selectedRows props st) = 3
  /\ List.length
       (selectedRows props (fst (handleSelectionChange props row st))) <= 1.
Proof.
  intros props st row. split; [reflexivity|].
  apply (@single_mode_selection plainHost props st row); reflexivity.
Defined.

(** C4 as stated fails for select-all: in ['single'] mode, checking it on a
    page of three rows selects the three of them. *)
Lemma single_mode_select_all_counterexample :
  let props := localProps (numberedRows 1 3) [] singleSelection in
  let st := initialState props in
  singleMode props = true
  /\ selectedRows props (fst (@handleSelectAll plainHost props true st))
     = numberedRows 1 3
  /\ ~ List.length
         (selectedRows props (fst (@handleSelectAll plainHost props true st)))
       <= 1.
Proof.
  intros props st. split; [reflexivity|]. split; [reflexivity|].
  vm_compute. lia.
Qed.

Lemma handleSelectAll_unchecked_clears_witness :
  let props := localProps (numberedRows 1 5) [] (scopedSelection scopePage) in
  let st :=
    setInternalSelectedRows [rowOf 1 (VNum 1); rowOf 5 (VNum 5)]
      (withPage 0 2 (initialState props)) in
  @paginatedData plainHost props st = numberedRows 1 2
  /\ isRowSelected props st (rowOf 5 (VNum 5)) = true
  /\ selectedRows props (fst (@handleSelectAll plainHost props false st)) = []
  /\ forall row,
       isRowSelected props (fst (@handleSelectAll plainHost props false st))
         row = false.
Proof.
  intros props st. split; [reflexivity|]. split; [reflexivity|].
  apply (@handleSelectAll_unchecked_clears plainHost props st); reflexivity.
Defined.

(* ====================================================================== *)
(** ** Pagination *)
(* ====================================================================== *)

Section PaginationWindow.

Context {host : Host}.

Lemma firstn_plus {A : Type} (a b : nat) (l : list A) :
  firstn (a + b) l = firstn a l ++ firstn b (skipn a l).
Proof.
  revert l. induction a as [|a IH]; intros l; [reflexivity|].
  destruct l as [|x l]; simpl.
  - now rewrite firstn_nil.
  - now rewrite IH.
Qed.

Lemma pageSlice_unfold (rows : list value) (p rpp : nat) :
  pageSlice rows p rpp = firstn rpp (skipn (p * rpp) rows).
Proof.
  unfold pageSlice, slice. f_equal. lia.
Qed.

(** The first [k] pages, put end to end, are the first [k * rpp] rows. *)
Lemma concat_pages (rows : list value) (rpp k : nat) :
  List.concat (map (fun p => pageSlice rows p rpp) (seq 0 k))
  = firstn (k * rpp) rows.
Proof.
  induction k as [|k IH]; [reflexivity|].
  rewrite seq_S, map_app, concat_app, IH. simpl.
  rewrite app_nil_r, pageSlice_unfold.
  replace (rpp + k * rpp) with (k * rpp + rpp) by lia.
  now rewrite firstn_plus.
Qed.

Lemma pageSlice_beyond (rows : list value) (p rpp : nat) :
  List.length rows <= p * rpp -> pageSlice rows p rpp = [].
Proof.
  intros H. rewrite pageSlice_unfold, skipn_all2 by assumption.
  apply firstn_nil.
Qed.

Lemma pageSlice_length (rows : list value) (p rpp : nat) :
  List.length (pageSlice rows p rpp)
  = Nat.min rpp (List.length rows - p * rpp).
Proof. now rewrite pageSlice_unfold, length_firstn, length_skipn. Qed.

Lemma filter_length_le {A : Type} (keep : A -> bool) (l : list A) :
  List.length (filter keep l) <= List.length l.
Proof.
  induction l as [|x l IH]; simpl; [lia|].
  destruct (keep x); simpl; lia.
Qed.

Lemma filterStage_length (props : DataTableProps) (st : HookState)
    (rows : list value) :
  List.length (filterStage props st rows) <= List.length rows.
Proof.
  unfold filterStage.
  repeat match goal with
         | |- context [if ?b then _ else _] => destruct b
         end;
    repeat (eapply Nat.le_trans; [apply filter_length_le|]); lia.
Qed.

Lemma filterStage_inactive (props : DataTableProps) (st : HookState)
    (rows : list value) :
  clientFilterTerm props st = EmptyString ->
  filters props st = [] ->
  filterStage props st rows = rows.
Proof. intros Ht Hf. unfold filterStage. now rewrite Ht, Hf. Qed.

Lemma sortStage_length (props : DataTableProps) (st : HookState)
    (rows : list value) :
  List.length (sortStage props st rows) = List.length rows.
Proof. symmetry. apply Permutation_length, sortStage_permutation. Qed.

Lemma processedData_local (props : DataTableProps) (st : HookState) :
  onFetchData props = None ->
  processedData props st
  = sortStage props st (filterStage props st (propData props)).
Proof. intros H. unfold processedData, isServerSide. now rewrite H. Qed.

Lemma paginatedData_local (props : DataTableProps) (st : HookState) :
  onFetchData props = None ->
  paginatedData props st
  = pageSlice (processedData props st) (page props st) (rowsPerPage props st).
Proof. intros H. unfold paginatedData, isServerSide. now rewrite H. Qed.

Lemma totalPages_local (props : DataTableProps) (st : HookState)
    (n rpp : nat) :
  onFetchData props = None ->
  List.length (processedData props st) = n ->
  rowsPerPage props st = S rpp ->
  totalPages props st = Some ((n + S rpp - 1) / S rpp).
Proof.
  intros Hf Hn Hr. unfold totalPages, totalCount, isServerSide.
  now rewrite Hf, Hr, Hn.
Qed.

(** C7.  In local mode, over 137 rows and 10 rows a page: the processed
    data is the filter stage followed by the sort stage, the page shown
    is the slice of it, the pages 0 to 13 put end to end are the whole
    processed collection, and any page from 14 on is empty.  When the
    filter keeps the 137 rows (e.g. no filter is active) there are
    [ceil(137/10) = 14] pages: thirteen of 10 rows and one of 7. *)
Theorem pagination_137_rows (props : DataTableProps) (st : HookState) :
  onFetchData props = None ->
  List.length (propData props) = 137 ->
  rowsPerPage props st = 10 ->
  processedData props st
  = sortStage props st (filterStage props st (propData props))
  /\ paginatedData props st
     = pageSlice (processedData props st) (page props st) 10
  /\ List.concat
       (map (fun p => pageSlice (processedData props st) p 10) (seq 0 14))
     = processedData props st
  /\ (forall p, 14 <= p -> pageSlice (processedData props st) p 10 = [])
  /\ (List.length (processedData props st) = 137 ->
      totalPages props st = Some 14
      /\ (forall p, p < 13 ->
            List.length (pageSlice (processedData props st) p 10) = 10)
      /\ List.length (pageSlice (processedData props st) 13 10) = 7)
  /\ (clientFilterTerm props st = EmptyString ->
      filters props st = [] ->
      List.length (processedData props st) = 137).
Proof.
  intros Hlocal Hlen Hrpp.
  assert (Hle : List.length (processedData props st) <= 137).
  { rewrite processedData_local, sortStage_length by assumption.
    rewrite <- Hlen. apply filterStage_length. }
  split; [now apply processedData_local|].
  split; [rewrite paginatedData_local, Hrpp by assumption; reflexivity|].
  split; [rewrite concat_pages; apply firstn_all2; lia|].
  split; [intros p Hp; apply pageSlice_beyond; lia|].
  split.
  - intros Hall. split; [|split].
    + now rewrite (totalPages_local props st 137 9).
    + intros p Hp. rewrite pageSlice_length, Hall. lia.
    + rewrite pageSlice_length, Hall. reflexivity.
  - intros Ht Hf.
    now rewrite processedData_local, sortStage_length, filterStage_inactive.
Qed.

End PaginationWindow.

Lemma pagination_137_rows_witness :
  let props := localProps (numberedRows 1 137) [] None in
  let st := withSort "k" desc (withPage 13 10 (initialState props)) in
  @totalPages plainHost props st = Some 14
  /\ List.concat
       (map (fun p => pageSlice (@processedData plainHost props st) p 10)
          (seq 0 14))
     = @processedData plainHost props st
  /\ pageSlice (@processedData plainHost props st) 14 10 = [].
Proof.
  intros props st.
  destruct (@pagination_137_rows plainHost props st eq_refl eq_refl eq_refl)
    as [_ [_ [Hcat [Hout [Hfull Hkeep]]]]].
  split; [|split].
  - apply Hfull. apply Hkeep; reflexivity.
  - exact Hcat.
  - apply Hout. apply le_n.
Defined.

(* ====================================================================== *)
(** ** Select-all scope *)
(* ====================================================================== *)

Section SelectAllScopes.

Context {host : Host}.





Lemma strictEq_sym (a b : value) : strictEq a b = strictEq b a.
Proof.
  destruct a as [| |x|x|x|x|x ?|x ?|x ? ?|x],
           b as [| |y|y|y|y|y ?|y ?|y ? ?|y]; simpl; try reflexivity.
  - now destruct x, y.
  - apply Z.eqb_sym.
  - apply String.eqb_sym.
  - apply String.eqb_sym.
  - apply Nat.eqb_sym.
  - apply Nat.eqb_sym.
  - apply Nat.eqb_sym.
  - now destruct x, y.
Qed.




End SelectAllScopes.


Example select_all_scope_all_rows :
  let props := localProps (numberedRows 1 25) [] (scopedSelection scopeAll) in
  let st := withPage 1 10 (initialState props) in
  selectedRows props (fst (@handleSelectAll plainHost props true st))
  = numberedRows 1 25.
Proof. reflexivity. Qed.

(* ====================================================================== *)
(** ** Remote fetch *)
(* ====================================================================== *)

Section RemoteFetchAdapter.

Context {host : Host}.

(** C9, as the code has it.  When [onFetchData] rejects,
    [fetchServerData] still completes normally: its promise is fulfilled.
    The failure is logged and nothing more: [console.error] is called with
    the rejection reason, and what the caller has afterwards is a fulfilled
    promise and the values the hook returned before the request, none of
    which tells of the failure.  The loading flag ends up cleared, and the
    fetched rows, the total count, the page, the rows per page, the sort,
    the filters and the search state are what they were, so that the
    processed data, the page shown and the next request are unchanged.
    The same holds when the rejection arrives on a later state [current]:
    it only clears the flag. *)
Theorem fetch_failure_preserves_state (props : DataTableProps)
    (st : HookState) (fetch : FetchDataParams -> settled FetchResult)
    (reason : value) :
  onFetchData props = Some fetch ->
  fetch (fetchParams props st) = Rejected reason ->
  (exists st',
      fetchServerData props st
      = (st', [ConsoleError fetchFailureMessage reason], Fulfilled tt)
      /\ serverLoading st' = false
      /\ loading props st' = propLoading props
      /\ serverData st' = serverData st
      /\ serverTotalCount st' = serverTotalCount st
      /\ page props st' = page props st
      /\ rowsPerPage props st' = rowsPerPage props st
      /\ sortState props st' = sortState props st
      /\ filters props st' = filters props st
      /\ clientFilterTerm props st' = clientFilterTerm props st
      /\ serverSearch props st' = serverSearch props st
      /\ advancedSearch props st' = advancedSearch props st
      /\ selectedRows props st' = selectedRows props st
      /\ processedData props st' = processedData props st
      /\ paginatedData props st' = paginatedData props st
      /\ totalCount props st' = totalCount props st
      /\ fetchParams props st' = fetchParams props st
      /\ callerView props (fetchServerData props st)
         = (Fulfilled tt, hookReturn props (setServerLoading false st)))
  /\ forall current,
       fetchSettle (Rejected reason) current
       = (setServerLoading false current,
          [ConsoleError fetchFailureMessage reason]).
Proof.
  intros Hfetch Hreject. split; [|reflexivity].
  exists (setServerLoading false (setServerLoading true st)).
  unfold callerView, fetchServerData. rewrite Hfetch, Hreject.
  unfold loading. simpl. rewrite orb_false_r.
  repeat split.
Qed.

End RemoteFetchAdapter.

Lemma fetch_failure_preserves_state_witness :
  let props := remoteProps failingFetch in
  exists st',
    fetchServerData props fetchedState
    = (st', [ConsoleError fetchFailureMessage (VStr "network down")],
       Fulfilled tt)
    /\ serverLoading st' = false
    /\ @paginatedData plainHost props st' = numberedRows 11 2
    /\ @totalCount plainHost props st' = 40
    /\ page props st' = 5.
Proof.
  intros props.
  destruct (@fetch_failure_preserves_state plainHost props fetchedState
              failingFetch (VStr "network down") eq_refl eq_refl)
    as [(st' & Hrun & Hload & _ & _ & _ & Hpage & _ & _ & _ & _ & _ & _ & _
         & _ & Hshown & Htotal & _) _].
  exists st'. split; [exact Hrun|]. split; [exact Hload|].
  split; [rewrite Hshown; reflexivity|].
  split; [rewrite Htotal; reflexivity | rewrite Hpage; reflexivity].
Defined.

(** C9, the claim as stated.  The failure is not reported to the caller:
    a request that fails leaves the caller with exactly what a request
    that succeeds with the same page leaves, the same fulfilled promise
    and the same values returned by the hook.  The two differ on the
    console only. *)
Lemma fetch_failure_unreported_counterexample :
  @callerView plainHost (remoteProps failingFetch)
    (fetchServerData (remoteProps failingFetch) fetchedState)
  = @callerView plainHost (remoteProps repeatingFetch)
      (fetchServerData (remoteProps repeatingFetch) fetchedState)
  /\ fst (@callerView plainHost (remoteProps failingFetch)
            (fetchServerData (remoteProps failingFetch) fetchedState))
     = Fulfilled tt
  /\ snd (fst (fetchServerData (remoteProps failingFetch) fetchedState))
     = [ConsoleError fetchFailureMessage (VStr "network down")]
  /\ snd (fst (fetchServerData (remoteProps repeatingFetch) fetchedState))
     = [].
Proof. repeat split. Qed.

(* ====================================================================== *)
(** ** Column filters *)
(* ====================================================================== *)

Section FilterEngine.

Context {host : Host}.

(** C5, as the code has it.  [greaterThan] and [lessThan] compare the
    numeric forms of the stored value and of the predicate value.
    [contains], [startsWith] and [endsWith] compare the lower-cased string
    forms, so their verdict is the same for values that differ in letter
    case only.  [equals] holds exactly when the two string forms are the
    same string, letter case included.  [isEmpty], [isNotEmpty] and an
    operator without a case of its own do not depend on the predicate
    value. *)
Theorem column_filter_comparisons (row row' : value) (columnId : string)
    (f f' : ColumnFilter) :
  (operator f = OpGreaterThan ->
   columnFilterPasses row columnId f
   = numGt (Number_ (valueAt row columnId)) (Number_ (fvalue f)))
  /\ (operator f = OpLessThan ->
      columnFilterPasses row columnId f
      = numLt (Number_ (valueAt row columnId)) (Number_ (fvalue f)))
  /\ (caseInsensitiveOp (operator f) = true ->
      operator f' = operator f ->
      toLowerCase (String_ (orEmpty (valueAt row' columnId)))
      = toLowerCase (String_ (orEmpty (valueAt row columnId))) ->
      toLowerCase (String_ (orEmpty (fvalue f')))
      = toLowerCase (String_ (orEmpty (fvalue f))) ->
      columnFilterPasses row' columnId f' = columnFilterPasses row columnId f)
  /\ (operator f = OpEquals ->
      (columnFilterPasses row columnId f = true
       <-> String_ (valueAt row columnId) = String_ (fvalue f)))
  /\ (valueFreeOp (operator f) = true ->
      operator f' = operator f ->
      columnFilterPasses row columnId f' = columnFilterPasses row columnId f).
Proof.
  unfold columnFilterPasses.
  split; [now intros ->|]. split; [now intros ->|]. split; [|split].
  - intros Hop -> -> ->.
    destruct (operator f); try discriminate; reflexivity.
  - intros ->. apply String.eqb_eq.
  - intros Hop ->. destruct (operator f); try discriminate; reflexivity.
Qed.

End FilterEngine.

Lemma column_filter_comparisons_witness :
  let row := rowOf 1 (VStr "Hello World") in
  @columnFilterPasses plainHost (rowOf 2 (VStr "HELLO WORLD")) "k"
    (filterOn OpContains (VStr "WORLD"))
  = @columnFilterPasses plainHost row "k" (filterOn OpContains (VStr "world"))
  /\ @columnFilterPasses plainHost row "k" (filterOn OpContains (VStr "world"))
     = true
  /\ @columnFilterPasses plainHost (rowOf 3 (VStr "10")) "k"
       (filterOn OpGreaterThan (VStr "9"))
     = numGt (Some 10%Z) (Some 9%Z).
Proof.
  intros row.
  destruct (@column_filter_comparisons plainHost row
              (rowOf 2 (VStr "HELLO WORLD")) "k"
              (filterOn OpContains (VStr "world"))
              (filterOn OpContains (VStr "WORLD")))
    as (_ & _ & Hfold & _ & _).
  destruct (@column_filter_comparisons plainHost (rowOf 3 (VStr "10"))
              (rowOf 3 (VStr "10")) "k" (filterOn OpGreaterThan (VStr "9"))
              (filterOn OpGreaterThan (VStr "9")))
    as (Hnum & _).
  split; [|split].
  - apply Hfold; reflexivity.
  - reflexivity.
  - rewrite Hnum; reflexivity.
Defined.

(** C5 as stated fails for [equals]: ["ABC"] and ["abc"] differ in letter
    case only, [contains] accepts the pair, [equals] does not. *)
Lemma equals_case_sensitive_counterexample :
  let row := rowOf 1 (VStr "ABC") in
  toLowerCase "ABC" = toLowerCase "abc"
  /\ @columnFilterPasses plainHost row "k" (filterOn OpContains (VStr "abc"))
     = true
  /\ @columnFilterPasses plainHost row "k" (filterOn OpEquals (VStr "abc"))
     = false
  /\ ~ (forall stored predicate : string,
          toLowerCase stored = toLowerCase predicate ->
          @columnFilterPasses plainHost (rowOf 1 (VStr stored)) "k"
            (filterOn OpEquals (VStr predicate)) = true).
Proof.
  intros row. repeat split.
  intros H. specialize (H "ABC" "abc" eq_refl). discriminate.
Qed.

(* ====================================================================== *)
(** ** Concrete Word exports *)
(* ====================================================================== *)

Lemma exportToWord_escaping_witness :
  includes (@exportToWord plainHost "now" demoData demoColumns boldHeaderConfig)
    "&lt;b&gt;Hi&lt;/b&gt;" = true
  /\ @exportToWord plainHost "now" demoData demoColumns
       (withAllowUnsafeHtml (Some true) plainConfig)
     = @exportToWord plainHost "now" demoData demoColumns
         (withAllowUnsafeHtml None plainConfig)
  /\ includes
       (@exportToWord plainHost "now" demoData demoColumns boldHeaderConfig)
       "<td>&lt;i&gt;x&lt;/i&gt;</td>" = true
  /\ includes
       (@exportToWord plainHost "now" demoData demoColumns boldHeaderConfig)
       "<h1>Q&amp;A &lt;report&gt;</h1>" = true
  /\ includes
       (@exportToWord plainHost "now" demoData demoColumns boldHeaderConfig)
       "<th>Value &lt;raw&gt;</th>" = true.
Proof.
  destruct (@exportToWord_escaping plainHost "now" demoData demoColumns
              boldHeaderConfig)
    as (_ & _ & _ & _ & Hbold & _ & _ & Hheading & _ & _ & Hlabel & Hcell & _).
  destruct (@exportToWord_escaping plainHost "now" demoData demoColumns
              plainConfig) as (_ & _ & Hflag & _).
  split; [apply Hbold; reflexivity|].
  split; [apply Hflag; reflexivity|].
  split.
  - apply (Hcell 0 (rowOf 1 (VStr "<i>x</i>")) (plainColumn "k" "Value <raw>"));
      [reflexivity | simpl; tauto].
  - split.
    + apply (Hheading "Q&A <report>"); [reflexivity | discriminate].
    + apply (Hlabel eq_refl (plainColumn "k" "Value <raw>")). simpl. tauto.
Defined.

Example exportToWord_bold_header_document :
  let doc := @exportToWord plainHost "now" demoData demoColumns
               boldHeaderConfig in
  includes doc "&lt;b&gt;Hi&lt;/b&gt;" = true
  /\ includes doc "<b>" = false
  /\ includes doc "<i>" = false
  /\ includes doc "<td>&lt;i&gt;x&lt;/i&gt;</td>" = true
  /\ includes doc "<h1>Q&amp;A &lt;report&gt;</h1>" = true
  /\ occurrences "<" doc = 60
  /\ occurrences "<" (@exportToWord plainHost "now" demoData demoColumns
                        (withAllowUnsafeHtml (Some true) boldHeaderConfig))
     = 62.
Proof. vm_compute. repeat split. Qed.

(* ====================================================================== *)
(** ** CSV export *)
(* ====================================================================== *)

Section CsvExport.

Context {host : Host}.

Lemma csvRun_app (a b : string) :
  forall r, csvRun r (a +++ b) = csvRun (csvRun r a) b.
Proof. induction a as [|c a IH]; intros r; simpl; [reflexivity | apply IH]. Qed.

(** [v.includes(c)] for a single character. *)
Lemma includes_char_cons (c d : ascii) (s : string) :
  includes (String d s) (String c EmptyString)
  = Ascii.eqb c d || includes s (String c EmptyString).
Proof. simpl. now rewrite andb_true_r. Qed.

Lemma needsQuotes_cons (c : ascii) (s : string) :
  needsQuotes (String c s) = false ->
  Ascii.eqb c "," = false /\ Ascii.eqb c "034" = false
  /\ Ascii.eqb c "010" = false /\ needsQuotes s = false.
Proof.
  unfold needsQuotes, dq, nl, cr. rewrite !includes_char_cons.
  rewrite (Ascii.eqb_sym _ c), (Ascii.eqb_sym "034" c),
    (Ascii.eqb_sym "010" c).
  intros H.
  apply orb_false_iff in H. destruct H as [H H4].
  apply orb_false_iff in H. destruct H as [H H3].
  apply orb_false_iff in H. destruct H as [H1 H2].
  apply orb_false_iff in H1, H2, H3, H4.
  destruct H1 as [E1 I1], H2 as [E2 I2], H3 as [E3 I3], H4 as [E4 I4].
  repeat split; try assumption.
  now rewrite I1, I2, I3, I4.
Qed.

Lemma csvRun_plain (s : string) :
  forall recs flds cur m,
    needsQuotes s = false ->
    m = FieldStart \/ m = Unquoted ->
    exists m',
      csvRun {| doneRecords := recs; doneFields := flds;
                currentField := cur; csvmode := m |} s
      = {| doneRecords := recs; doneFields := flds;
           currentField := cur +++ s; csvmode := m' |}
      /\ m' <> Quoted.
Proof.
  induction s as [|c s IH]; intros recs flds cur m Hs Hm.
  - exists m. rewrite append_empty_r. split; [reflexivity|].
    destruct Hm; subst; discriminate.
  - apply needsQuotes_cons in Hs. destruct Hs as (Hc & Hq & Hn & Hs).
    destruct (IH recs flds (cur +++ String c EmptyString) Unquoted Hs)
      as [m' [Hrun Hm']]; [now right|].
    exists m'. split; [|assumption].
    simpl. unfold csvStep. simpl.
    destruct Hm; subst m; rewrite ?Hq, Hc, Hn; unfold csvAppend; simpl;
      rewrite Hrun, append_assoc; reflexivity.
Qed.

Lemma csvRun_doubled (s : string) :
  forall recs flds cur,
    csvRun {| doneRecords := recs; doneFields := flds;
              currentField := cur; csvmode := Quoted |}
      (replaceAll "034" (dq +++ dq) s)
    = {| doneRecords := recs; doneFields := flds;
         currentField := cur +++ s; csvmode := Quoted |}.
Proof.
  induction s as [|c s IH]; intros recs flds cur; simpl.
  - now rewrite append_empty_r.
  - destruct (Ascii.eqb c "034") eqn:Hc.
    + apply Ascii.eqb_eq in Hc. subst c. simpl. unfold csvStep. simpl.
      unfold csvAppend. simpl. rewrite IH, append_assoc. reflexivity.
    + simpl. unfold csvStep. simpl. rewrite Hc. unfold csvAppend. simpl.
      rewrite IH, append_assoc. reflexivity.
Qed.

(** Reading one written field leaves it as the current field. *)
Lemma csvRun_field (f : string) (recs : list (list string))
    (flds : list string) :
  exists m,
    csvRun {| doneRecords := recs; doneFields := flds;
              currentField := EmptyString; csvmode := FieldStart |}
      (escapeCsvValue f)
    = {| doneRecords := recs; doneFields := flds;
         currentField := f; csvmode := m |}
    /\ m <> Quoted.
Proof.
  unfold escapeCsvValue. fold (needsQuotes f).
  destruct (needsQuotes f) eqn:Hq.
  - exists QuoteSeen. split; [|discriminate].
    change (dq +++ replaceAll "034" (dq +++ dq) f +++ dq)
      with (String "034" (replaceAll "034" (dq +++ dq) f +++ dq)).
    cbn [csvRun].
    change (csvStep {| doneRecords := recs; doneFields := flds;
                       currentField := EmptyString; csvmode := FieldStart |}
              "034")
      with {| doneRecords := recs; doneFields := flds;
              currentField := EmptyString; csvmode := Quoted |}.
    rewrite csvRun_app, csvRun_doubled. reflexivity.
  - destruct (csvRun_plain f recs flds EmptyString FieldStart Hq)
      as [m [Hrun Hm]]; [now left|].
    exists m. split; assumption.
Qed.

Lemma csvStep_comma (recs : list (list string)) (flds : list string)
    (cur : string) (m : csvMode) :
  m <> Quoted ->
  csvStep {| doneRecords := recs; doneFields := flds;
             currentField := cur; csvmode := m |} ","
  = {| doneRecords := recs; doneFields := flds ++ [cur];
       currentField := EmptyString; csvmode := FieldStart |}.
Proof. destruct m; intros H; try reflexivity. now elim H. Qed.

Lemma csvStep_newline (recs : list (list string)) (flds : list string)
    (cur : string) (m : csvMode) :
  m <> Quoted ->
  csvStep {| doneRecords := recs; doneFields := flds;
             currentField := cur; csvmode := m |} "010"
  = {| doneRecords := recs ++ [flds ++ [cur]]; doneFields := [];
       currentField := EmptyString; csvmode := FieldStart |}.
Proof. destruct m; intros H; try reflexivity. now elim H. Qed.

Lemma csvRun_line (fs : list string) :
  fs <> [] ->
  forall recs flds,
  exists m,
    csvRun {| doneRecords := recs; doneFields := flds;
              currentField := EmptyString; csvmode := FieldStart |}
      (csvLine fs)
    = {| doneRecords := recs; doneFields := flds ++ removelast fs;
         currentField := last fs EmptyString; csvmode := m |}
    /\ m <> Quoted.
Proof.
  unfold csvLine.
  induction fs as [|f fs IH]; intros Hne recs flds; [now elim Hne|].
  destruct fs as [|g fs].
  - destruct (csvRun_field f recs flds) as [m [Hrun Hm]].
    exists m. simpl. rewrite app_nil_r. split; assumption.
  - destruct (csvRun_field f recs flds) as [m [Hrun Hm]].
    destruct (IH ltac:(discriminate) recs (flds ++ [f])) as [m' [Hrest Hm']].
    exists m'. split; [|assumption].
    change (join "," (map escapeCsvValue (f :: g :: fs)))
      with (escapeCsvValue f +++ "," +++ join "," (map escapeCsvValue (g :: fs))).
    rewrite csvRun_app, Hrun.
    change ("," +++ join "," (map escapeCsvValue (g :: fs)))
      with (String "," (join "," (map escapeCsvValue (g :: fs)))).
    cbn [csvRun]. rewrite csvStep_comma by assumption.
    rewrite Hrest. rewrite <- app_assoc. reflexivity.
Qed.

Lemma csvRun_lines (grid : list (list string)) :
  grid <> [] ->
  Forall (fun fs => fs <> []) grid ->
  forall recs,
  exists m,
    csvRun {| doneRecords := recs; doneFields := [];
              currentField := EmptyString; csvmode := FieldStart |}
      (join nl (map csvLine grid))
    = {| doneRecords := recs ++ removelast grid;
         doneFields := removelast (last grid []);
         currentField := last (last grid []) EmptyString;
         csvmode := m |}
    /\ m <> Quoted.
Proof.
  induction grid as [|fs grid IH]; intros Hne Hall recs; [now elim Hne|].
  inversion Hall as [|? ? Hfs Hrest]; subst.
  destruct grid as [|gs grid].
  - destruct (csvRun_line fs Hfs recs []) as [m [Hrun Hm]].
    exists m. simpl. rewrite app_nil_r. split; assumption.
  - destruct (csvRun_line fs Hfs recs []) as [m [Hrun Hm]].
    destruct (IH ltac:(discriminate) Hrest (recs ++ [fs]))
      as [m' [Hnext Hm']].
    exists m'. split; [|assumption].
    change (join nl (map csvLine (fs :: gs :: grid)))
      with (csvLine fs +++ nl +++ join nl (map csvLine (gs :: grid))).
    rewrite csvRun_app, Hrun.
    change (nl +++ join nl (map csvLine (gs :: grid)))
      with (String "010" (join nl (map csvLine (gs :: grid)))).
    cbn [csvRun]. rewrite csvStep_newline by assumption.
    cbn [app]. rewrite <- app_removelast_last by assumption.
    rewrite Hnext. rewrite <- app_assoc. reflexivity.
Qed.

Lemma parseCsv_lines (grid : list (list string)) :
  grid <> [] ->
  Forall (fun fs => fs <> []) grid ->
  parseCsv (join nl (map csvLine grid)) = grid.
Proof.
  intros Hne Hall. unfold parseCsv, csvStart.
  destruct (csvRun_lines grid Hne Hall []) as [m [Hrun _]].
  rewrite Hrun. simpl.
  assert (Hlast : last grid [] <> []).
  { rewrite Forall_forall in Hall. apply Hall.
    destruct grid as [|fs grid]; [now elim Hne|].
    rewrite (app_removelast_last [] (l := fs :: grid)) at 2 by discriminate.
    apply in_or_app. right. now left. }
  rewrite <- (app_removelast_last EmptyString Hlast).
  now rewrite <- app_removelast_last.
Qed.

Lemma mapi_map {A B C : Type} (f : nat -> A -> B) (g : B -> C)
    (l : list A) :
  forall i, mapi (fun k x => g (f k x)) i l = map g (mapi f i l).
Proof.
  induction l as [|x l IH]; intros i; simpl; [reflexivity | now rewrite IH].
Qed.

Lemma mapi_length {A B : Type} (f : nat -> A -> B) (l : list A) :
  forall i, List.length (mapi f i l) = List.length l.
Proof.
  induction l as [|x l IH]; intros i; simpl; [reflexivity | now rewrite IH].
Qed.

Lemma mapi_Forall {A B : Type} (P : B -> Prop) (f : nat -> A -> B)
    (l : list A) :
  (forall i x, P (f i x)) -> forall i, Forall P (mapi f i l).
Proof.
  intros H. induction l as [|x l IH]; intros i; simpl;
    constructor; [apply H | apply IH].
Qed.

Lemma exportToCsv_lines (data : list value) (columns : list DataTableColumn)
    (config : ExportConfig) :
  exportToCsv data columns config
  = join nl (map csvLine (csvGrid data columns config)).
Proof.
  unfold exportToCsv, csvGrid, csvRows, csvHeaders.
  set (cols := exportableColumns columns).
  assert (Hrows :
    mapi (fun rowIndex row => join "," (map (csvCell row rowIndex) cols))
      0 data
    = map csvLine
        (mapi (fun rowIndex row =>
                 map (fun col =>
                        formatValueForExport (valueAt row (id col)) row col
                          rowIndex) cols) 0 data)).
  { generalize 0. induction data as [|row data IH]; intros i; simpl;
      [reflexivity|].
    rewrite IH. unfold csvLine, csvCell. now rewrite map_map. }
  rewrite Hrows.
  destruct (notFalse (includeHeaders config)); cbn [app map];
    [|reflexivity].
  do 2 f_equal. unfold csvLine. now rewrite map_map.
Qed.

(** X1.  A value without comma, quote, line feed or carriage return is
    written as it is; any other is written between quotes.  Either way the
    written field holds an even number of quotes and reads back as the
    value: a CSV reader gets one record of one field, the value. *)
Theorem escapeCsvValue_field (v : string) :
  (needsQuotes v = false -> escapeCsvValue v = v)
  /\ (needsQuotes v = true ->
      escapeCsvValue v = dq +++ replaceAll "034" (dq +++ dq) v +++ dq)
  /\ Nat.even (occurrences "034" (escapeCsvValue v)) = true
  /\ parseCsv (escapeCsvValue v) = [[v]].
Proof.
  split; [|split; [|split]].
  - intros H. unfold escapeCsvValue. fold (needsQuotes v). now rewrite H.
  - intros H. unfold escapeCsvValue. fold (needsQuotes v). now rewrite H.
  - unfold escapeCsvValue. fold (needsQuotes v).
    destruct (needsQuotes v) eqn:Hq.
    + rewrite !occurrences_append.
      assert (Hd : forall s,
                 Nat.even (occurrences "034" (replaceAll "034" (dq +++ dq) s))
                 = true).
      { induction s as [|c s IH]; [reflexivity|]. simpl.
        destruct (Ascii.eqb c "034") eqn:Hc; simpl; rewrite ?Hc; exact IH. }
      specialize (Hd v).
      change (occurrences "034" dq) with 1.
      replace (1 + (occurrences "034" (replaceAll "034" (dq +++ dq) v) + 1))
        with (2 + occurrences "034" (replaceAll "034" (dq +++ dq) v)) by lia.
      exact Hd.
    + assert (Hz : forall s, needsQuotes s = false ->
                             occurrences "034" s = 0).
      { induction s as [|c s IH]; [reflexivity|]. intros H.
        apply needsQuotes_cons in H. destruct H as (_ & Hc & _ & Hs).
        simpl. rewrite Hc. now apply IH. }
      now rewrite Hz.
  - apply (parseCsv_lines [[v]]); [discriminate|].
    constructor; [discriminate | constructor].
Qed.

(** X2.  With at least one exportable column, and the header line or at
    least one row, the text [exportToCsv] writes reads back as exactly the
    cells it was given: the labels (unless [includeHeaders] is [false]),
    then for each row the formatted values of the exportable columns,
    whatever commas, quotes and line breaks the values hold. *)
Theorem exportToCsv_round_trip (data : list value)
    (columns : list DataTableColumn) (config : ExportConfig) :
  exportableColumns columns <> [] ->
  notFalse (includeHeaders config) = true \/ data <> [] ->
  parseCsv (exportToCsv data columns config) = csvGrid data columns config.
Proof.
  intros Hcols Hsome. rewrite exportToCsv_lines.
  apply parseCsv_lines.
  - unfold csvGrid. destruct Hsome as [Hh | Hd].
    + rewrite Hh. discriminate.
    + destruct data as [|row data]; [now elim Hd|].
      destruct (notFalse (includeHeaders config)); discriminate.
  - unfold csvGrid. apply Forall_app. split.
    + destruct (notFalse (includeHeaders config)); constructor;
        [|constructor].
      intros H. apply map_eq_nil in H. contradiction.
    + apply mapi_Forall. intros i x H. apply map_eq_nil in H. contradiction.
Qed.

End CsvExport.

(* ====================================================================== *)
(** ** XML escaping, PDF text, Excel sheet *)
(* ====================================================================== *)

Section OtherFormats.

Context {host : Host}.

Lemma replaceAll_app (c : ascii) (r a b : string) :
  replaceAll c r (a +++ b) = replaceAll c r a +++ replaceAll c r b.
Proof.
  induction a as [|d a IH]; simpl; [reflexivity|].
  destruct (Ascii.eqb d c); simpl; rewrite IH; [|reflexivity].
  now rewrite append_assoc.
Qed.

Lemma xmlChain_cons (d : ascii) (rest : string) :
  xmlChain (String d rest) = xmlEntity d +++ xmlChain rest.
Proof.
  unfold xmlChain, xmlEntity. cbn [replaceAll].
  destruct (Ascii.eqb d "&") eqn:E1.
  { rewrite !replaceAll_app. reflexivity. }
  cbn [replaceAll]. destruct (Ascii.eqb d "<") eqn:E2.
  { rewrite !replaceAll_app. reflexivity. }
  cbn [replaceAll]. destruct (Ascii.eqb d ">") eqn:E3.
  { rewrite !replaceAll_app. reflexivity. }
  cbn [replaceAll]. destruct (Ascii.eqb d "034") eqn:E4.
  { rewrite !replaceAll_app. reflexivity. }
  cbn [replaceAll]. destruct (Ascii.eqb d "'") eqn:E5; reflexivity.
Qed.

Lemma xmlChain_encode (s : string) : xmlChain s = encodeXml s.
Proof.
  induction s as [|d s IH]; [reflexivity|].
  rewrite xmlChain_cons, IH. reflexivity.
Qed.

Lemma occurrences_encodeXml (c : ascii) (s : string) :
  xmlSpecial c -> occurrences c (encodeXml s) = 0.
Proof.
  intros Hc. induction s as [|d s IH]; [reflexivity|].
  simpl. rewrite occurrences_append, IH, Nat.add_0_r.
  unfold xmlEntity.
  destruct (Ascii.eqb d "&") eqn:E1;
    [destruct Hc as [->|[->|[->| ->]]]; reflexivity|].
  destruct (Ascii.eqb d "<") eqn:E2;
    [destruct Hc as [->|[->|[->| ->]]]; reflexivity|].
  destruct (Ascii.eqb d ">") eqn:E3;
    [destruct Hc as [->|[->|[->| ->]]]; reflexivity|].
  destruct (Ascii.eqb d "034") eqn:E4;
    [destruct Hc as [->|[->|[->| ->]]]; reflexivity|].
  destruct (Ascii.eqb d "'") eqn:E5;
    [destruct Hc as [->|[->|[->| ->]]]; reflexivity|].
  simpl. destruct Hc as [->|[->|[->| ->]]];
    rewrite ?E2, ?E3, ?E4, ?E5; reflexivity.
Qed.

Lemma decodeXml_encodeXml (s : string) : decodeXml (encodeXml s) = s.
Proof.
  unfold decodeXml. induction s as [|d s IH]; [reflexivity|].
  simpl. unfold xmlEntity.
  destruct (Ascii.eqb d "&") eqn:E1.
  { apply Ascii.eqb_eq in E1. subst d. cbn. now rewrite IH. }
  destruct (Ascii.eqb d "<") eqn:E2.
  { apply Ascii.eqb_eq in E2. subst d. cbn. now rewrite IH. }
  destruct (Ascii.eqb d ">") eqn:E3.
  { apply Ascii.eqb_eq in E3. subst d. cbn. now rewrite IH. }
  destruct (Ascii.eqb d "034") eqn:E4.
  { apply Ascii.eqb_eq in E4. subst d. cbn. now rewrite IH. }
  destruct (Ascii.eqb d "'") eqn:E5.
  { apply Ascii.eqb_eq in E5. subst d. cbn. now rewrite IH. }
  cbn [append decodeFrom]. now rewrite E1, IH.
Qed.

(** X3.  [escapeXml] gives the empty string for [null] and [undefined].
    For any other value the five replacements amount to replacing each
    character of the string form by its entity exactly once (the ["&"] of
    an entity is never escaped again), so the result holds no ["<"],
    [">"], double or single quote, and resolving the entities gives the
    string form back. *)
Theorem escapeXml_entities (v : value) :
  (isNullish v = true -> escapeXml v = EmptyString)
  /\ (isNullish v = false ->
      escapeXml v = encodeXml (String_ v)
      /\ decodeXml (escapeXml v) = String_ v)
  /\ forall c, xmlSpecial c -> occurrences c (escapeXml v) = 0.
Proof.
  assert (Heq : isNullish v = false -> escapeXml v = encodeXml (String_ v)).
  { intros H. unfold escapeXml. rewrite H. apply xmlChain_encode. }
  split; [intros H; unfold escapeXml; now rewrite H|].
  split.
  - intros H. split; [now apply Heq|].
    rewrite (Heq H). apply decodeXml_encodeXml.
  - intros c Hc. destruct (isNullish v) eqn:H.
    + unfold escapeXml. now rewrite H.
    + rewrite (Heq eq_refl). now apply occurrences_encodeXml.
Qed.

Lemma hasChar_cons (c d : ascii) (s : string) :
  hasChar c (String d s) = Ascii.eqb d c || hasChar c s.
Proof.
  unfold hasChar. simpl. destruct (Ascii.eqb d c); reflexivity.
Qed.

Lemma hasChar_false_hasTag (s : string) :
  hasChar ">" s = false -> hasTag s = false.
Proof.
  induction s as [|c s IH]; [reflexivity|].
  rewrite hasChar_cons. intros H.
  apply orb_false_iff in H. destruct H as [_ Hs].
  cbn [hasTag]. now rewrite Hs, andb_false_r, IH.
Qed.

Lemma hasChar_append (c : ascii) (a b : string) :
  hasChar c (a +++ b) = hasChar c a || hasChar c b.
Proof.
  unfold hasChar. rewrite occurrences_append.
  destruct (occurrences c a), (occurrences c b); reflexivity.
Qed.

Lemma stripFrom_no_tag (text : string) :
  hasTag (stripFrom text None) = false
  /\ forall held,
       hasChar ">" held = false ->
       hasTag (stripFrom text (Some held)) = false.
Proof.
  induction text as [|c text [IHnone IHsome]].
  - split; [reflexivity|]. intros held H. now apply hasChar_false_hasTag.
  - split.
    + cbn [stripFrom]. destruct (Ascii.eqb c "<") eqn:Hc.
      * apply Ascii.eqb_eq in Hc. subst c. apply IHsome. reflexivity.
      * cbn [hasTag]. now rewrite Hc, IHnone.
    + intros held H. cbn [stripFrom]. destruct (Ascii.eqb c ">") eqn:Hc.
      * exact IHnone.
      * apply IHsome. rewrite hasChar_append, H, hasChar_cons, Hc.
        reflexivity.
Qed.

Lemma stripFrom_pending (text : string) :
  forall held,
    hasChar ">" text = false ->
    stripFrom text (Some held) = held +++ text.
Proof.
  induction text as [|c text IH]; intros held H; cbn [stripFrom].
  - now rewrite append_empty_r.
  - rewrite hasChar_cons in H. apply orb_false_iff in H.
    destruct H as [Hc Ht]. rewrite Hc, IH by assumption.
    now rewrite append_assoc.
Qed.

Lemma stripTags_tag_free (text : string) :
  hasTag text = false -> stripTags text = text.
Proof.
  unfold stripTags. induction text as [|c text IH]; [reflexivity|].
  cbn [hasTag stripFrom]. intros H.
  apply orb_false_iff in H. destruct H as [H1 H2].
  destruct (Ascii.eqb c "<") eqn:Hc.
  - simpl in H1. now rewrite stripFrom_pending.
  - now rewrite IH.
Qed.

(** X4.  Removing the tags for the PDF: no ["<"] of the result is followed
    by a [">"], a text without such a pair is left as it is, and removing
    twice changes nothing more.  The custom header and footer of the PDF
    are stripped in this way exactly when [allowUnsafeHtml] is [true];
    otherwise they are drawn as they are. *)
Theorem stripTags_removes_tags (text : string) (config : ExportConfig) :
  hasTag (stripTags text) = false
  /\ (hasTag text = false -> stripTags text = text)
  /\ stripTags (stripTags text) = stripTags text
  /\ (isTrue (allowUnsafeHtml config) = true ->
      hasTag (pdfCustomText text config) = false)
  /\ (isTrue (allowUnsafeHtml config) = false ->
      pdfCustomText text config = text).
Proof.
  assert (Hno : hasTag (stripTags text) = false)
    by apply (proj1 (stripFrom_no_tag text)).
  split; [exact Hno|]. split; [apply stripTags_tag_free|].
  split; [now apply stripTags_tag_free|].
  unfold pdfCustomText. split; intros ->; [exact Hno | reflexivity].
Qed.

Lemma walkPath_not_object (parts : list string) (cur : value) :
  parts <> [] ->
  isNullish cur || negb (jstype_eqb (typeof cur) TObject) = true ->
  snd (walkPath parts cur) = Ok VUndefined.
Proof.
  destruct parts as [|part rest]; intros Hne Hcur; [now elim Hne|].
  simpl. destruct (bannedKey part); [reflexivity|]. now rewrite Hcur.
Qed.

Lemma pathSegments_not_nil (path : string) : pathSegments path <> [].
Proof.
  unfold pathSegments. induction path as [|c path IH]; simpl;
    [discriminate|].
  destruct (Ascii.eqb c "."); [discriminate|].
  destruct (splitOn "." path); [contradiction | discriminate].
Qed.

Lemma valueAt_unreachable (row : value) (path : string) :
  (exists key, In key (pathSegments path) /\ In key BANNED_KEYS)
  \/ isNullish row || negb (jstype_eqb (typeof row) TObject) = true ->
  valueAt row path = VUndefined.
Proof.
  intros H. unfold valueAt, getNestedValue. destruct H as [H | H].
  - now rewrite (proj1 (walkPath_banned _ H row)).
  - now rewrite (walkPath_not_object _ row (pathSegments_not_nil path) H).
Qed.

(** X5.  A column without [exportFormat] whose id holds a banned segment,
    or any such column when the row is not an object, exports as an empty
    cell in each format: the empty field in CSV, the empty text in the
    Excel sheet and in the PDF body, [<td></td>] in Word. *)
Theorem unreachable_cell_is_empty (row : value) (rowIndex : nat)
    (col : DataTableColumn) :
  exportFormat col = None ->
  (exists key, In key (pathSegments (id col)) /\ In key BANNED_KEYS)
  \/ isNullish row || negb (jstype_eqb (typeof row) TObject) = true ->
  csvCell row rowIndex col = EmptyString
  /\ excelCell row rowIndex col = CellText EmptyString
  /\ formatValueForExport (valueAt row (id col)) row col rowIndex
     = EmptyString
  /\ wordCell row rowIndex col = "<td></td>".
Proof.
  intros Hfmt Hpath.
  pose proof (valueAt_unreachable row (id col) Hpath) as Hv.
  unfold csvCell, excelCell, wordCell, formatValueForExport.
  rewrite Hv, Hfmt. repeat split; reflexivity.
Qed.

(** X6.  The sheet built for Excel: a title block of three rows (title,
    subtitle, blank), of two without a subtitle, of none without a title
    even if a subtitle is set; then the header row unless [includeHeaders]
    is [false]; then one row for each data row.  The header row and every
    data row have one cell for each exportable column, as has the list of
    column widths, none of which is below 12. *)
Theorem sheetData_shape (data : list value) (columns : list DataTableColumn)
    (config : ExportConfig) :
  List.length (sheetData data columns config)
  = titleRowCount config
    + (if notFalse (includeHeaders config) then 1 else 0)
    + List.length data
  /\ Forall (fun r => List.length r = List.length (exportableColumns columns))
       (skipn (titleRowCount config) (sheetData data columns config))
  /\ List.length (columnWidths columns)
     = List.length (exportableColumns columns)
  /\ Forall (fun w => 12 <= w) (columnWidths columns).
Proof.
  set (cols := exportableColumns columns).
  assert (Hrows : Forall (fun r : list cell => List.length r = List.length cols)
                    (excelRows data cols)).
  { unfold excelRows. apply mapi_Forall. intros i x. apply length_map. }
  assert (Hlen : List.length (excelRows data cols) = List.length data)
    by apply mapi_length.
  unfold sheetData, titleRowCount, columnWidths. fold cols.
  split; [|split; [|split]].
  - destruct (falsy (title config)), (falsy (subtitle config)),
      (notFalse (includeHeaders config)); cbn [app List.length];
      rewrite ?length_app, Hlen; cbn [List.length]; lia.
  - destruct (falsy (title config)), (falsy (subtitle config)),
      (notFalse (includeHeaders config)); cbn [app skipn];
      try (constructor; [apply length_map|]); exact Hrows.
  - apply length_map.
  - apply Forall_map, Forall_forall. intros col _. apply Nat.le_max_r.
Qed.

End OtherFormats.

(* ====================================================================== *)
(** ** Selection status and toggling *)
(* ====================================================================== *)

Section SelectionStatus.

Context {host : Host}.

Lemma forallb_filter_length {A : Type} (keep : A -> bool) (l : list A) :
  forallb keep l = true <-> List.length (filter keep l) = List.length l.
Proof.
  induction l as [|x l IH]; simpl; [tauto|].
  destruct (keep x); simpl.
  - rewrite IH. split; intros H; lia.
  - pose proof (filter_length_le keep l). split; [discriminate | lia].
Qed.

(** X7.  The header checkbox: it is checked exactly when the scope is not
    empty and all its rows are selected, indeterminate exactly when some
    but not all of them are, and never both. *)
Theorem select_all_checkbox_status (props : DataTableProps) (st : HookState) :
  (isAllSelected props st = true
   <-> selectAllScope props st <> []
       /\ selectedInScope props st = List.length (selectAllScope props st))
  /\ (isIndeterminate props st = true
      <-> 0 < selectedInScope props st
              < List.length (selectAllScope props st))
  /\ isAllSelected props st && isIndeterminate props st = false.
Proof.
  unfold isAllSelected, isIndeterminate, selectedInScope.
  pose proof (forallb_filter_length (isRowSelected props st)
                (selectAllScope props st)) as Hall.
  destruct (selectAllScope props st) as [|x rest].
  - simpl. repeat split; try discriminate; try lia.
    intros [H _]. now elim H.
  - remember (x :: rest) as scope eqn:Hscope.
    assert (Hlen : (List.length scope =? 0) = false)
      by (subst scope; reflexivity).
    assert (Hne : scope <> []) by (subst scope; discriminate).
    rewrite Hlen. split; [|split].
    + rewrite Hall. tauto.
    + rewrite andb_true_iff, !Nat.ltb_lt. tauto.
    + destruct (forallb (isRowSelected props st) scope) eqn:Hf;
        [|reflexivity].
      rewrite (proj1 Hall eq_refl). simpl.
      rewrite Nat.ltb_irrefl. apply andb_false_r.
Qed.

Lemma strictEq_trans (a b c : value) :
  strictEq a b = true -> strictEq b c = true -> strictEq a c = true.
Proof.
  destruct a as [| |x|x|x|x|x ?|x ?|x ? ?|x],
           b as [| |y|y|y|y|y ?|y ?|y ? ?|y]; simpl; try discriminate;
    destruct c as [| |z|z|z|z|z ?|z ?|z ? ?|z]; simpl; try discriminate;
    try reflexivity.
  - destruct x, y, z; simpl; congruence.
  - rewrite !Z.eqb_eq. congruence.
  - rewrite !String.eqb_eq. congruence.
  - rewrite !String.eqb_eq. congruence.
  - rewrite !Nat.eqb_eq. congruence.
  - rewrite !Nat.eqb_eq. congruence.
  - rewrite !Nat.eqb_eq. congruence.
  - destruct x, y; simpl; try discriminate; destruct z; simpl; congruence.
Qed.

Lemma existsb_filter_other {A : Type} (p q : A -> bool) (l : list A) :
  (forall x, p x = true -> q x = true) ->
  existsb p (filter q l) = existsb p l.
Proof.
  intros H. induction l as [|x l IH]; [reflexivity|].
  simpl. destruct (q x) eqn:Hq; simpl; rewrite IH; [reflexivity|].
  destruct (p x) eqn:Hp; [|reflexivity].
  apply H in Hp. congruence.
Qed.

Lemma existsb_filter_negb {A : Type} (p : A -> bool) (l : list A) :
  existsb p (filter (fun x => negb (p x)) l) = false.
Proof.
  induction l as [|x l IH]; [reflexivity|].
  simpl. destruct (p x) eqn:Hp; simpl; [exact IH | now rewrite Hp].
Qed.

(** X8.  Outside ['single'] mode a toggle flips the selected status of
    the rows that have the key of the toggled row, and of no other row:
    every row with another key stays as it was, selected or not. *)
Theorem toggle_flips_one_key (props : DataTableProps) (st : HookState)
    (row : value) :
  singleMode props = false ->
  onSelectionChange props = false ->
  propSelectedRows props = None ->
  isRowSelected props (fst (handleSelectionChange props row st)) row
  = negb (isRowSelected props st row)
  /\ forall other,
       sameKey props (getRowKey props row) other = false ->
       isRowSelected props (fst (handleSelectionChange props row st)) other
       = isRowSelected props st other.
Proof.
  intros Hmode Hctl Hprop.
  unfold handleSelectionChange. rewrite Hmode.
  assert (Hsel : forall s,
             selectedRows props (fst (commitSelection props s st)) = s)
    by (intros s; now apply selectedRows_after_commit).
  unfold isRowSelected. rewrite !Hsel.
  destruct (existsb (sameKey props (getRowKey props row))
              (selectedRows props st)) eqn:Hin.
  - split; [apply existsb_filter_negb|].
    intros other Hother. apply existsb_filter_other.
    intros r Hr. apply negb_true_iff.
    destruct (sameKey props (getRowKey props row) r) eqn:Hrow;
      [|reflexivity].
    unfold sameKey, getRowKey in *.
    rewrite strictEq_sym in Hr.
    pose proof (strictEq_trans _ _ _ Hr Hrow). congruence.
  - split.
    + rewrite existsb_app. simpl. unfold sameKey, getRowKey.
      rewrite strictEq_refl. now rewrite !orb_true_r.
    + intros other Hother. rewrite existsb_app. simpl.
      unfold sameKey, getRowKey in *.
      rewrite strictEq_sym, Hother. now rewrite !orb_false_r.
Qed.

End SelectionStatus.

(* ====================================================================== *)
(** ** State-changing handlers *)
(* ====================================================================== *)

Section StateHandlers.

Context {host : Host}.

Lemma sortState_after_set (props : DataTableProps) (s : SortState)
    (st : HookState) :
  propSort props = None -> sortState props (setInternalSort s st) = s.
Proof. intros H. unfold sortState. now rewrite H. Qed.

(** X9.  Sorting by header click.  The sort state a click proposes always
    has its column and its direction both set or both [null].  Uncontrolled,
    a first click on a column that is not the sort column sorts it
    ascending, a second click descending, a third click removes the sort,
    after which the sort stage leaves the rows in their order; the page
    is not changed by any of them. *)
Theorem handleSortChange_cycle (props : DataTableProps)
    (callbacks : Callbacks) (st : HookState) (c : string) :
  sortInvariant (nextSort props st c)
  /\ (onSortChange callbacks = true ->
      handleSortChange props callbacks c st
      = (st, [SortChange (nextSort props st c)]))
  /\ (onSortChange callbacks = false ->
      propSort props = None ->
      sortedOn props st c = false ->
      let s1 := fst (handleSortChange props callbacks c st) in
      let s2 := fst (handleSortChange props callbacks c s1) in
      let s3 := fst (handleSortChange props callbacks c s2) in
      sortState props s1 = {| column := Some c; direction := Some asc |}
      /\ sortState props s2 = {| column := Some c; direction := Some desc |}
      /\ sortState props s3 = {| column := None; direction := None |}
      /\ (forall rows, sortStage props s3 rows = rows)
      /\ internalPage s3 = internalPage st).
Proof.
  split; [|split].
  - unfold sortInvariant, nextSort.
    destruct (sortedOn props st c); simpl;
      [destruct (direction (sortState props st)) as [[|]|]|];
      simpl; split; intros H; try discriminate; reflexivity.
  - intros H. unfold handleSortChange. now rewrite H.
  - intros Hctl Hprop Hfresh s1 s2 s3.
    assert (H1 : sortState props s1
                 = {| column := Some c; direction := Some asc |}).
    { subst s1. unfold handleSortChange. rewrite Hctl. simpl.
      rewrite sortState_after_set by assumption.
      unfold nextSort. now rewrite Hfresh. }
    assert (H2 : sortState props s2
                 = {| column := Some c; direction := Some desc |}).
    { subst s2. unfold handleSortChange. rewrite Hctl. simpl.
      rewrite sortState_after_set by assumption.
      unfold nextSort, sortedOn. rewrite H1. simpl.
      now rewrite String.eqb_refl. }
    assert (H3 : sortState props s3
                 = {| column := None; direction := None |}).
    { subst s3. unfold handleSortChange. rewrite Hctl. simpl.
      rewrite sortState_after_set by assumption.
      unfold nextSort, sortedOn. rewrite H2. simpl.
      now rewrite String.eqb_refl. }
    split; [exact H1|]. split; [exact H2|]. split; [exact H3|]. split.
    + intros rows. unfold sortStage. now rewrite H3.
    + subst s3 s2 s1. unfold handleSortChange. rewrite Hctl. reflexivity.
Qed.

Lemma assoc_deleteKey {A : Type} (key other : string)
    (entries : list (string * A)) :
  assoc other (deleteKey key entries)
  = if String.eqb other key then None else assoc other entries.
Proof.
  induction entries as [|[k v] entries IH]; simpl.
  - now destruct (String.eqb other key).
  - destruct (String.eqb k key) eqn:Hk.
    + rewrite IH. apply String.eqb_eq in Hk. subst k.
      rewrite (String.eqb_sym key other).
      now destruct (String.eqb other key).
    + simpl. rewrite IH.
      destruct (String.eqb k other) eqn:Ho; [|reflexivity].
      apply String.eqb_eq in Ho. subst k. now rewrite Hk.
Qed.

Lemma assoc_putKey {A : Type} (key other : string) (v : A)
    (entries : list (string * A)) :
  assoc other (putKey key v entries)
  = if String.eqb other key then Some v else assoc other entries.
Proof.
  induction entries as [|[k w] entries IH]; simpl.
  - rewrite (String.eqb_sym key other).
    now destruct (String.eqb other key).
  - destruct (String.eqb k key) eqn:Hk; simpl.
    + apply String.eqb_eq in Hk. subst k.
      rewrite (String.eqb_sym key other).
      now destruct (String.eqb other key).
    + rewrite IH. destruct (String.eqb k other) eqn:Ho; [|reflexivity].
      apply String.eqb_eq in Ho. subst k. now rewrite Hk.
Qed.

Lemma assoc_assignKey {A : Type} (key other : string) (v : A)
    (entries : list (string * A)) :
  assoc other (assignKey key v entries)
  = if String.eqb other key && negb (inheritedSetter key entries)
    then Some v else assoc other entries.
Proof.
  unfold assignKey. destruct (inheritedSetter key entries).
  - now rewrite andb_false_r.
  - now rewrite assoc_putKey, andb_true_r.
Qed.

Lemma deleteKey_absent {A : Type} (key : string)
    (entries : list (string * A)) :
  assoc key entries = None -> deleteKey key entries = entries.
Proof.
  induction entries as [|[k w] entries IH]; simpl; [reflexivity|].
  destruct (String.eqb k key); [discriminate|].
  intros H. now rewrite IH.
Qed.

Lemma deleteKey_keys {A : Type} (key : string) (entries : list (string * A)) :
  forall k, In k (map fst (deleteKey key entries)) ->
            In k (map fst entries) /\ k <> key.
Proof.
  induction entries as [|[k0 v] entries IH]; intros k; simpl; [tauto|].
  destruct (String.eqb k0 key) eqn:Hk.
  - intros H. apply IH in H. tauto.
  - simpl. intros [H | H].
    + subst k0. apply String.eqb_neq in Hk. tauto.
    + apply IH in H. tauto.
Qed.

Lemma deleteKey_NoDup {A : Type} (key : string)
    (entries : list (string * A)) :
  NoDup (map fst entries) -> NoDup (map fst (deleteKey key entries)).
Proof.
  induction entries as [|[k v] entries IH]; simpl; intros H; [constructor|].
  inversion H as [|? ? Hnot Hrest]; subst.
  destruct (String.eqb k key); [now apply IH|].
  simpl. constructor; [|now apply IH].
  intros Hin. apply deleteKey_keys in Hin. tauto.
Qed.

Lemma putKey_keys {A : Type} (key : string) (v : A)
    (entries : list (string * A)) :
  forall k, In k (map fst (putKey key v entries)) ->
            In k (map fst entries) \/ k = key.
Proof.
  induction entries as [|[k0 w] entries IH]; intros k; simpl.
  - intros [H | []]. now right.
  - destruct (String.eqb k0 key); simpl.
    + tauto.
    + intros [H | H]; [tauto|]. apply IH in H. tauto.
Qed.

Lemma putKey_NoDup {A : Type} (key : string) (v : A)
    (entries : list (string * A)) :
  NoDup (map fst entries) -> NoDup (map fst (putKey key v entries)).
Proof.
  induction entries as [|[k w] entries IH]; simpl; intros H.
  - constructor; [intros [] | constructor].
  - inversion H as [|? ? Hnot Hrest]; subst.
    destruct (String.eqb k key) eqn:Hk; simpl.
    + now constructor.
    + constructor; [|now apply IH].
      intros Hin. apply putKey_keys in Hin. destruct Hin as [Hin | Hin].
      * contradiction.
      * subst k. now rewrite String.eqb_refl in Hk.
Qed.

Lemma assignKey_NoDup {A : Type} (key : string) (v : A)
    (entries : list (string * A)) :
  NoDup (map fst entries) -> NoDup (map fst (assignKey key v entries)).
Proof.
  unfold assignKey. destruct (inheritedSetter key entries);
    [trivial | apply putKey_NoDup].
Qed.

(** X10.  Uncontrolled, [handleFilterChange] keeps one predicate a column:
    the column ids stay distinct; the column changed holds the new
    predicate, or none when the value is [''], [null] or [undefined]
    (any other value, [0] and [false] included, sets it); the predicates
    of the other columns are untouched; the page goes back to 0.  The one
    column id that cannot be given a predicate is ["__proto__"]: unless
    the filters hold it as an own key already, the assignment reaches the
    setter of [Object.prototype] and the entries are left as they were. *)
Theorem handleFilterChange_entries (props : DataTableProps)
    (callbacks : Callbacks) (st : HookState) (columnId : string) (v : value)
    (op : option FilterOperator) :
  onFilterChange callbacks = false ->
  propFilters props = None ->
  propPage props = None ->
  NoDup (map fst (filters props st)) ->
  let st' := fst (handleFilterChange props callbacks columnId v op st) in
  let predicate :=
    {| fvalue := v;
       operator := match op with
                   | Some o => o
                   | None => OpContains
                   end |} in
  NoDup (map fst (filters props st'))
  /\ assoc columnId (filters props st')
     = (if clearsFilter v || inheritedSetter columnId (filters props st)
        then None else Some predicate)
  /\ (forall other,
        other <> columnId ->
        assoc other (filters props st') = assoc other (filters props st))
  /\ page props st' = 0
  /\ (columnId <> "__proto__" ->
      clearsFilter v = false ->
      assoc columnId (filters props st') = Some predicate)
  /\ (inheritedSetter columnId (filters props st) = true ->
      filters props st' = filters props st).
Proof.
  intros Hctl Hprop Hpage Hdistinct st' predicate.
  assert (Hst : filters props st'
                = nextFilters props st columnId v
                    (match op with Some o => o | None => OpContains end)).
  { subst st'. unfold handleFilterChange. rewrite Hctl. simpl.
    unfold filters at 1. now rewrite Hprop. }
  rewrite Hst. unfold nextFilters. fold predicate.
  split; [|split; [|split; [|split; [|split]]]].
  - destruct (clearsFilter v);
      [now apply deleteKey_NoDup | now apply assignKey_NoDup].
  - destruct (clearsFilter v); simpl.
    + now rewrite assoc_deleteKey, String.eqb_refl.
    + rewrite assoc_assignKey, String.eqb_refl. simpl.
      destruct (inheritedSetter columnId (filters props st)) eqn:Hset;
        [|reflexivity].
      unfold inheritedSetter in Hset. apply andb_true_iff in Hset.
      destruct Hset as [_ Hset].
      now destruct (assoc columnId (filters props st)).
  - intros other Hother. apply String.eqb_neq in Hother.
    destruct (clearsFilter v).
    + now rewrite assoc_deleteKey, Hother.
    + now rewrite assoc_assignKey, Hother.
  - subst st'. unfold handleFilterChange. rewrite Hctl. simpl.
    unfold page. now rewrite Hpage.
  - intros Hid Hv. rewrite Hv, assoc_assignKey, String.eqb_refl.
    unfold inheritedSetter. apply String.eqb_neq in Hid. now rewrite Hid.
  - intros Hset. destruct (clearsFilter v).
    + apply deleteKey_absent. unfold inheritedSetter in Hset.
      apply andb_true_iff in Hset. destruct Hset as [_ Hset].
      now destruct (assoc columnId (filters props st)).
    + unfold assignKey. now rewrite Hset.
Qed.

(** X11.  Uncontrolled and in local mode, changing the rows per page goes
    back to the first page: the page shown is the first [n] rows of the
    processed data, which itself is unchanged.  With [onRowsPerPageChange]
    supplied the handler only calls it and the state is left alone. *)
Theorem handleRowsPerPageChange_first_page (props : DataTableProps)
    (callbacks : Callbacks) (st : HookState) (n : nat) :
  (onRowsPerPageChange callbacks = true ->
   handleRowsPerPageChange callbacks n st = (st, [RowsPerPageChange n]))
  /\ (onRowsPerPageChange callbacks = false ->
      propPage props = None ->
      propRowsPerPage props = None ->
      onFetchData props = None ->
      let st' := fst (handleRowsPerPageChange callbacks n st) in
      page props st' = 0
      /\ rowsPerPage props st' = n
      /\ processedData props st' = processedData props st
      /\ paginatedData props st' = firstn n (processedData props st)).
Proof.
  split.
  - intros H. unfold handleRowsPerPageChange. now rewrite H.
  - intros Hctl Hpage Hrpp Hlocal st'.
    assert (Hst : st' = setInternalPage 0 (setInternalRowsPerPage n st)).
    { subst st'. unfold handleRowsPerPageChange. now rewrite Hctl. }
    assert (Hp : page props st' = 0)
      by (rewrite Hst; unfold page; now rewrite Hpage).
    assert (Hr : rowsPerPage props st' = n)
      by (rewrite Hst; unfold rowsPerPage; now rewrite Hrpp).
    assert (Hd : processedData props st' = processedData props st)
      by (rewrite Hst; reflexivity).
    split; [exact Hp|]. split; [exact Hr|]. split; [exact Hd|].
    rewrite paginatedData_local, Hp, Hr, Hd, pageSlice_unfold by assumption.
    reflexivity.
Qed.

(** X12.  Column visibility.  After a column is shown or hidden, a column
    of the table is listed exactly when it is the column shown, or another
    one that was listed before; hidden, the column is gone however often
    it had been shown.  The columns listed are always in the order of the
    column definitions, not in the order of the clicks. *)
Theorem column_visibility (cols : list DataTableColumn)
    (prev : list string) (columnId : string) (visible : bool)
    (col : DataTableColumn) :
  (In col (visibleColumnsConfig cols
             (handleColumnVisibilityChange columnId visible prev))
   <-> In col cols
       /\ if String.eqb (id col) columnId then visible = true
          else In col (visibleColumnsConfig cols prev))
  /\ visibleColumnsConfig cols
       (handleColumnVisibilityChange columnId visible prev)
     = filter (fun c =>
                 if String.eqb (id c) columnId then visible
                 else existsb (String.eqb (id c)) prev) cols.
Proof.
  assert (Hlisted : forall c,
             existsb (String.eqb (id c))
               (handleColumnVisibilityChange columnId visible prev)
             = if String.eqb (id c) columnId then visible
               else existsb (String.eqb (id c)) prev).
  { intros c. unfold handleColumnVisibilityChange. destruct visible.
    - rewrite existsb_app. simpl.
      destruct (String.eqb (id c) columnId);
        [apply orb_true_r | now rewrite !orb_false_r].
    - destruct (String.eqb (id c) columnId) eqn:Hc.
      + apply String.eqb_eq in Hc. rewrite Hc.
        induction prev as [|i prev IH]; [reflexivity|].
        simpl. destruct (String.eqb i columnId) eqn:Hi; simpl; [exact IH|].
        rewrite (String.eqb_sym columnId i), Hi. exact IH.
      + induction prev as [|i prev IH]; [reflexivity|].
        simpl. destruct (String.eqb i columnId) eqn:Hi; simpl.
        * apply String.eqb_eq in Hi. subst i. now rewrite Hc.
        * now rewrite IH. }
  split.
  - unfold visibleColumnsConfig. rewrite !filter_In, Hlisted.
    destruct (String.eqb (id col) columnId).
    + tauto.
    + rewrite filter_In. tauto.
  - unfold visibleColumnsConfig. apply filter_ext. exact Hlisted.
Qed.

(** X13.  Remote mode.  When [onFetchData] fulfils, the rows and the total
    of the response replace the previous ones and the loading flag is
    cleared; the page shown is then exactly the rows of the response:
    no local search, column filter, sort or slice is applied to them,
    whatever the filter, sort and page state are.  The total shown is the
    [totalCount] prop when given, else the one of the response. *)
Theorem fetch_success_pass_through (props : DataTableProps) (st : HookState)
    (fetch : FetchDataParams -> settled FetchResult) (r : FetchResult) :
  onFetchData props = Some fetch ->
  fetch (fetchParams props st) = Fulfilled r ->
  exists st',
    fetchServerData props st = (st', [], Fulfilled tt)
    /\ serverLoading st' = false
    /\ processedData props st' = rdata r
    /\ paginatedData props st' = rdata r
    /\ totalCount props st'
       = coalesce (propTotalCount props) (rtotalCount r)
    /\ selectedRows props st' = selectedRows props st
    /\ fetchParams props st' = fetchParams props st.
Proof.
  intros Hfetch Hok.
  exists (setServerLoading false
            (setServerTotalCount (rtotalCount r)
               (setServerData (rdata r) (setServerLoading true st)))).
  unfold fetchServerData. rewrite Hfetch, Hok.
  unfold paginatedData, totalCount, processedData, isServerSide.
  rewrite Hfetch. repeat split.
Qed.

End StateHandlers.

(* ====================================================================== *)
(** ** Ordered and stable numeric sort *)
(* ====================================================================== *)

Lemma filter_none {A : Type} (keep : A -> bool) (l : list A) :
  Forall (fun x => keep x = false) l -> filter keep l = [].
Proof.
  induction 1 as [|x l Hx _ IH]; [reflexivity|]. simpl. now rewrite Hx.
Qed.

Lemma filter_head {A : Type} (keep : A -> bool) (x : A) (l : list A) :
  filter keep (x :: l) = if keep x then x :: filter keep l else filter keep l.
Proof. reflexivity. Qed.

Lemma StronglySorted_weaken {A : Type} (R R' : A -> A -> Prop) (l : list A) :
  (forall x y, R x y -> R' x y) ->
  StronglySorted R l -> StronglySorted R' l.
Proof.
  intros H. induction 1 as [|x l Hs IH Hx]; constructor; [exact IH|].
  eapply Forall_impl; [|exact Hx]. apply H.
Qed.

Section KeyedInsertion.

Variable A : Type.
Variable key : A -> Z.
Variable compare : A -> A -> Z.
Variable valid : A -> Prop.

(** On valid elements the comparator is the difference of the keys. *)
Hypothesis compare_keys :
  forall x y, valid x -> valid y -> compare x y = (key x - key y)%Z.

Let ordered (x y : A) : Prop := (key x <= key y)%Z.
Let keyed (k : Z) (x : A) : bool := (key x =? k)%Z.

Lemma insertBy_Forall (P : A -> Prop) (x : A) (l : list A) :
  P x -> Forall P l -> Forall P (insertBy compare x l).
Proof.
  intros Hx Hl.
  induction Hl as [|y l Hy Hl IH]; simpl; [now repeat constructor|].
  destruct (0 <? compare y x)%Z; repeat constructor; assumption.
Qed.

Lemma insertBy_sorted (x : A) (l : list A) :
  valid x -> Forall valid l ->
  StronglySorted ordered l ->
  StronglySorted ordered (insertBy compare x l).
Proof.
  intros Hx Hl Hs. induction Hs as [|y l Hs IH Hy]; simpl.
  - constructor; constructor.
  - inversion Hl as [|? ? Hvy Hvl]; subst.
    rewrite (compare_keys y x Hvy Hx).
    destruct (0 <? key y - key x)%Z eqn:Hc.
    + apply Z.ltb_lt in Hc. constructor; [now constructor|].
      constructor; [unfold ordered; lia|].
      eapply Forall_impl; [|exact Hy]. unfold ordered. intros z Hz. lia.
    + apply Z.ltb_ge in Hc. constructor; [now apply IH|].
      apply insertBy_Forall; [unfold ordered; lia | exact Hy].
Qed.

Lemma insertBy_stable (k : Z) (x : A) (l : list A) :
  valid x -> Forall valid l ->
  StronglySorted ordered l ->
  filter (keyed k) (insertBy compare x l)
  = filter (keyed k) l ++ filter (keyed k) [x].
Proof.
  intros Hx Hl Hs. induction Hs as [|y l Hs IH Hy].
  - simpl. reflexivity.
  - inversion Hl as [|? ? Hvy Hvl]; subst.
    cbn [insertBy]. rewrite (compare_keys y x Hvy Hx).
    destruct (0 <? key y - key x)%Z eqn:Hc.
    + apply Z.ltb_lt in Hc.
      rewrite (filter_head (keyed k) x (y :: l)).
      rewrite (filter_head (keyed k) x []).
      destruct (keyed k x) eqn:Hk; [|now rewrite app_nil_r].
      unfold keyed in Hk. apply Z.eqb_eq in Hk.
      assert (Hnone : filter (keyed k) (y :: l) = []).
      { apply filter_none. constructor.
        - unfold keyed. apply Z.eqb_neq. lia.
        - eapply Forall_impl; [|exact Hy]. unfold ordered, keyed.
          intros z Hz. apply Z.eqb_neq. lia. }
      now rewrite Hnone.
    + rewrite !(filter_head (keyed k) y), IH by assumption.
      destruct (keyed k y); reflexivity.
Qed.

Lemma sort_sorted_stable_from (l acc : list A) :
  Forall valid l -> Forall valid acc ->
  StronglySorted ordered acc ->
  let out := fold_left (fun sorted x => insertBy compare x sorted) l acc in
  StronglySorted ordered out
  /\ forall k, filter (keyed k) out = filter (keyed k) acc ++ filter (keyed k) l.
Proof.
  revert acc. induction l as [|x l IH]; intros acc Hl Hacc Hs; cbn [fold_left].
  - split; [exact Hs|]. intros k. now rewrite app_nil_r.
  - inversion Hl as [|? ? Hx Hl']; subst.
    destruct (IH (insertBy compare x acc) Hl'
                (insertBy_Forall valid x acc Hx Hacc)
                (insertBy_sorted x acc Hx Hacc Hs)) as [Hsorted Hstable].
    split; [exact Hsorted|]. intros k.
    rewrite Hstable, insertBy_stable by assumption.
    rewrite <- app_assoc, (filter_head (keyed k) x l),
      (filter_head (keyed k) x []).
    destruct (keyed k x); reflexivity.
Qed.

Lemma sort_sorted_stable (l : list A) :
  Forall valid l ->
  StronglySorted (fun x y => (key x <= key y)%Z) (sort compare l)
  /\ forall k,
       filter (fun x => (key x =? k)%Z) (sort compare l)
       = filter (fun x => (key x =? k)%Z) l.
Proof.
  intros Hl.
  apply (sort_sorted_stable_from l [] Hl); constructor.
Qed.

End KeyedInsertion.

Section NumericSort.

Context {host : Host}.

Lemma integerAt_value (c : string) (x : value) :
  integerAt c x = true -> valueAt x c = VNum (numAt c x).
Proof.
  unfold integerAt, numAt. destruct (valueAt x c); try discriminate.
  reflexivity.
Qed.

Lemma compareRows_numeric (c : string) (dir : SortDirection) (x y : value) :
  integerAt c x = true -> integerAt c y = true ->
  compareRows c dir x y
  = match dir with
    | asc => (numAt c x - numAt c y)%Z
    | desc => (- numAt c x - - numAt c y)%Z
    end.
Proof.
  intros Hx Hy. unfold compareRows.
  rewrite (integerAt_value c x Hx), (integerAt_value c y Hy). simpl.
  destruct dir; lia.
Qed.

(** X14.  Sorting on a column at which every row holds an integer (so
    none holds [NaN]): the output is in non-decreasing order of that
    integer for ['asc'], in non-increasing order for ['desc'], and the sort
    is stable: the rows that hold any given integer come out in the order
    they came in. *)
Theorem integer_sort_ordered_stable (props : DataTableProps)
    (st : HookState) (c : string) (dir : SortDirection) (rows : list value) :
  column (sortState props st) = Some c ->
  c <> EmptyString ->
  direction (sortState props st) = Some dir ->
  forallb (integerAt c) rows = true ->
  StronglySorted (inDirection dir c) (sortStage props st rows)
  /\ forall n,
       filter (fun x => (numAt c x =? n)%Z) (sortStage props st rows)
       = filter (fun x => (numAt c x =? n)%Z) rows.
Proof.
  intros Hc Hne Hd Hnum.
  rewrite (sortStage_sorts props st c dir rows Hc Hne Hd).
  assert (Hvalid : Forall (fun x => integerAt c x = true) rows)
    by (apply Forall_forall; now apply forallb_forall).
  destruct dir.
  - apply (sort_sorted_stable value (numAt c) (compareRows c asc)
             (fun x => integerAt c x = true)); [|exact Hvalid].
    intros x y Hx Hy. now apply compareRows_numeric.
  - destruct (sort_sorted_stable value (fun x => (- numAt c x)%Z)
                (compareRows c desc) (fun x => integerAt c x = true))
      with (l := rows) as [Hsorted Hstable]; [|exact Hvalid|].
    + intros x y Hx Hy. now apply compareRows_numeric.
    + split.
      * eapply StronglySorted_weaken; [|exact Hsorted].
        unfold inDirection. intros x y H. lia.
      * intros n. specialize (Hstable (- n)%Z).
        assert (Hext : forall x,
                   (numAt c x =? n)%Z = (- numAt c x =? - n)%Z).
        { intros x.
          destruct (Z.eqb_spec (numAt c x) n),
            (Z.eqb_spec (- numAt c x) (- n)); try reflexivity; lia. }
        rewrite !(filter_ext _ _ Hext). exact Hstable.
Qed.

End NumericSort.

(* ====================================================================== *)
(** ** The pipeline as a whole *)
(* ====================================================================== *)

Section Pipeline.

Context {host : Host}.

Lemma filter_filter {A : Type} (p q : A -> bool) (l : list A) :
  filter q (filter p l) = filter (fun x => p x && q x) l.
Proof.
  induction l as [|x l IH]; [reflexivity|].
  simpl. destruct (p x); simpl; [destruct (q x)|]; now rewrite IH.
Qed.

Lemma filter_all {A : Type} (l : list A) : filter (fun _ => true) l = l.
Proof. induction l as [|x l IH]; simpl; [reflexivity | now rewrite IH]. Qed.

Lemma filterStage_filter (props : DataTableProps) (st : HookState)
    (rows : list value) :
  filterStage props st rows = filter (rowPasses props st) rows.
Proof.
  unfold filterStage, rowPasses.
  destruct (nonEmpty (clientFilterTerm props st)
            && notFalse (clientFilterEnabled props));
    destruct ((0 <? List.length (filters props st))
              && negb match filterMode props with
                      | Some filterServer => true
                      | _ => false
                      end); cbn zeta.
  - apply filter_filter.
  - apply filter_ext. intros x. now rewrite andb_true_r.
  - reflexivity.
  - symmetry. apply filter_all.
Qed.

(** X15.  In local mode the processed data holds exactly the rows of the
    input that pass the filter stage, each as often as in the input: a
    row is in it iff it is in the input and passes, it is a rearrangement
    of the passing rows, and without a sort column or direction it is the
    passing rows in their input order.  A row passes the column filters
    iff it passes the predicate of every column. *)
Theorem processedData_rows (props : DataTableProps) (st : HookState) :
  onFetchData props = None ->
  (forall row,
      In row (processedData props st)
      <-> In row (propData props) /\ rowPasses props st row = true)
  /\ Permutation (filter (rowPasses props st) (propData props))
       (processedData props st)
  /\ (column (sortState props st) = None
      \/ direction (sortState props st) = None ->
      processedData props st
      = filter (rowPasses props st) (propData props))
  /\ (forall fs row,
        passesColumnFilters fs row = true
        <-> forall columnId f,
              In (columnId, f) fs ->
              columnFilterPasses row columnId f = true).
Proof.
  intros Hlocal.
  rewrite processedData_local by assumption.
  rewrite filterStage_filter.
  pose proof (sortStage_permutation props st
                (filter (rowPasses props st) (propData props))) as Hperm.
  split; [|split; [exact Hperm|split]].
  - intros row. rewrite <- filter_In. split; intros H.
    + eapply Permutation_in; [apply Permutation_sym; exact Hperm | exact H].
    + eapply Permutation_in; [exact Hperm | exact H].
  - unfold sortStage. intros [H | H]; rewrite H; [reflexivity|].
    now destruct (column (sortState props st)).
  - intros fs row. unfold passesColumnFilters. rewrite forallb_forall.
    split.
    + intros H columnId f Hin. apply (H (columnId, f) Hin).
    + intros H [columnId f] Hin. now apply H.
Qed.

(** X16.  In local mode with a positive number of rows per page,
    [totalPages] is the number of pages that hold a row: page [p] is not
    empty iff [p < totalPages], every page before the last is full, and
    the pages put end to end are the processed data.  With 0 rows per
    page [totalPages] is not a number. *)
Theorem totalPages_counts_pages (props : DataTableProps) (st : HookState)
    (rpp : nat) :
  onFetchData props = None ->
  (rowsPerPage props st = 0 -> totalPages props st = None)
  /\ (rowsPerPage props st = S rpp ->
      exists n,
        totalPages props st = Some n
        /\ (forall p,
              pageSlice (processedData props st) p (S rpp) <> [] <-> p < n)
        /\ (forall p,
              S p < n ->
              List.length (pageSlice (processedData props st) p (S rpp))
              = S rpp)
        /\ List.concat
             (map (fun p => pageSlice (processedData props st) p (S rpp))
                (seq 0 n))
           = processedData props st).
Proof.
  intros Hlocal. split.
  - intros H. unfold totalPages. now rewrite H.
  - intros Hrpp.
    set (len := List.length (processedData props st)).
    exists ((len + S rpp - 1) / S rpp).
    assert (Hdiv : forall p, p < (len + S rpp - 1) / S rpp <-> p * S rpp < len).
    { intros p.
      assert (Hexp : S rpp * S p = p * S rpp + S rpp) by ring.
      replace (len + S rpp - 1) with (len + rpp) by lia.
      split; intros H.
      - assert (Hle : S rpp * S p <= len + rpp).
        { eapply Nat.le_trans; [|apply (Nat.Div0.mul_div_le _ (S rpp))].
          apply Nat.mul_le_mono_l. exact H. }
        lia.
      - apply (Nat.div_le_lower_bound (len + rpp) (S rpp) (S p)); lia. }
    split; [now apply totalPages_local|]. split; [|split].
    + intros p. rewrite Hdiv.
      pose proof (pageSlice_length (processedData props st) p (S rpp)) as Hl.
      fold len in Hl. split; intros H.
      * destruct (Nat.lt_ge_cases (p * S rpp) len) as [Hlt | Hge];
          [exact Hlt|].
        elim H. now apply pageSlice_beyond.
      * intros Hnil. rewrite Hnil in Hl. cbn [List.length] in Hl. lia.
    + intros p Hp. apply Hdiv in Hp.
      rewrite pageSlice_length. fold len.
      assert (Hexp : S p * S rpp = p * S rpp + S rpp) by ring.
      lia.
    + rewrite concat_pages. apply firstn_all2. fold len.
      destruct (Nat.le_gt_cases len ((len + S rpp - 1) / S rpp * S rpp))
        as [Hle | Hgt]; [exact Hle|].
      apply Hdiv in Hgt. lia.
Qed.



Lemma splitOn_not_nil (sep : ascii) (s : string) : splitOn sep s <> [].
Proof.
  induction s as [|c s IH]; simpl; [discriminate|].
  destruct (Ascii.eqb c sep); [discriminate|].
  destruct (splitOn sep s); [contradiction | discriminate].
Qed.

Lemma splitOn_join (sep : ascii) (p q : string) :
  splitOn sep (p +++ String sep q) = splitOn sep p ++ splitOn sep q.
Proof.
  induction p as [|c p IH]; simpl.
  - now rewrite Ascii.eqb_refl.
  - destruct (Ascii.eqb c sep); [now rewrite IH|].
    rewrite IH. pose proof (splitOn_not_nil sep p) as Hne.
    destruct (splitOn sep p); [contradiction | reflexivity].
Qed.

Lemma walkPath_app (ps qs : list string) :
  qs <> [] ->
  forall cur,
    snd (walkPath (ps ++ qs) cur)
    = match snd (walkPath ps cur) with
      | Ok v => snd (walkPath qs v)
      | Throw e => Throw e
      end.
Proof.
  intros Hqs. induction ps as [|part rest IH]; intros cur; [reflexivity|].
  cbn [app walkPath].
  destruct (bannedKey part).
  { cbn [snd]. symmetry. now apply walkPath_not_object. }
  destruct (isNullish cur || negb (jstype_eqb (typeof cur) TObject)) eqn:Hc.
  { cbn [snd]. symmetry. now apply walkPath_not_object. }
  apply orb_false_iff in Hc. destruct Hc as [Hn _].
  rewrite (get_object _ _ Hn). specialize (IH (member cur part)).
  destruct (walkPath (rest ++ qs) (member cur part)) as [reads1 r1].
  destruct (walkPath rest (member cur part)) as [reads2 r2].
  exact IH.
Qed.

(** X18.  [getNestedValue] never throws, whatever the value and the path.
    It resolves a dotted path step by step: the value at [p.q] is the value
    at [q] of the value at [p].  On a value that is not an object it gives
    [undefined], and for a single segment that is not banned it is the
    plain member access on the object. *)
Theorem getNestedValue_resolution (obj : value) (p q : string) :
  (exists v, getNestedValue obj p = Ok v)
  /\ getNestedValue obj (p +++ "." +++ q)
     = getNestedValue (valueAt obj p) q
  /\ (isNullish obj || negb (jstype_eqb (typeof obj) TObject) = true ->
      getNestedValue obj p = Ok VUndefined)
  /\ (isNullish obj || negb (jstype_eqb (typeof obj) TObject) = false ->
      pathSegments p = [p] ->
      bannedKey p = false ->
      getNestedValue obj p = get obj p
      /\ getNestedValue obj p = Ok (member obj p)).
Proof.
  split; [apply getNestedValue_returns|]. split; [|split].
  - unfold getNestedValue at 1, pathSegments.
    change (p +++ "." +++ q) with (p +++ String "." q).
    rewrite splitOn_join, walkPath_app by apply splitOn_not_nil.
    fold (pathSegments p). fold (getNestedValue obj p).
    now rewrite getNestedValue_valueAt.
  - intros H. apply walkPath_not_object; [apply pathSegments_not_nil|exact H].
  - intros Hobj Hseg Hban. unfold getNestedValue. rewrite Hseg.
    cbn [walkPath]. rewrite Hban, Hobj.
    apply orb_false_iff in Hobj. destruct Hobj as [Hn _].
    rewrite (get_object _ _ Hn). split; reflexivity.
Qed.

End Pipeline.

(* ====================================================================== *)
(** ** Concrete runs of the further properties *)
(* ====================================================================== *)

Lemma escapeCsvValue_field_witness :
  escapeCsvValue juniorName
  = dq +++ "Smith, John " +++ dq +++ dq +++ "Jr." +++ dq +++ dq +++ dq
  /\ escapeCsvValue "plain text" = "plain text"
  /\ parseCsv (escapeCsvValue juniorName) = [[juniorName]].
Proof.
  destruct (escapeCsvValue_field juniorName) as (_ & Hquoted & _ & Hread).
  destruct (escapeCsvValue_field "plain text") as (Hplain & _).
  split; [rewrite Hquoted by reflexivity; reflexivity|].
  split; [apply Hplain; reflexivity | exact Hread].
Defined.

Lemma exportToCsv_round_trip_witness :
  parseCsv (@exportToCsv plainHost personRows personColumns plainConfig)
  = [["Id"; "Name, full"];
     ["1"; juniorName];
     ["2"; "two" +++ nl +++ "lines"];
     ["3"; ""]].
Proof.
  rewrite (@exportToCsv_round_trip plainHost personRows personColumns
             plainConfig).
  - reflexivity.
  - discriminate.
  - left. reflexivity.
Defined.

Lemma escapeXml_entities_witness :
  @escapeXml plainHost (VStr ("R&D <" +++ dq +++ "x" +++ dq +++ ">"))
  = "R&amp;D &lt;&quot;x&quot;&gt;"
  /\ decodeXml
       (@escapeXml plainHost (VStr ("R&D <" +++ dq +++ "x" +++ dq +++ ">")))
     = "R&D <" +++ dq +++ "x" +++ dq +++ ">".
Proof.
  destruct (@escapeXml_entities plainHost
              (VStr ("R&D <" +++ dq +++ "x" +++ dq +++ ">")))
    as (_ & Hsome & _).
  destruct (Hsome eq_refl) as [Henc Hdec].
  split; [rewrite Henc; reflexivity | exact Hdec].
Defined.

Lemma stripTags_removes_tags_witness :
  pdfCustomText "<b>Hi</b> there" trustedConfig = "Hi there"
  /\ hasTag (pdfCustomText "<b>Hi</b> there" trustedConfig) = false
  /\ pdfCustomText "<b>Hi</b> there" boldHeaderConfig = "<b>Hi</b> there"
  /\ stripTags "a < b" = "a < b".
Proof.
  destruct (stripTags_removes_tags "<b>Hi</b> there" trustedConfig)
    as (_ & _ & _ & Hon & _).
  destruct (stripTags_removes_tags "<b>Hi</b> there" boldHeaderConfig)
    as (_ & _ & _ & _ & Hoff).
  destruct (stripTags_removes_tags "a < b" plainConfig) as (_ & Hfree & _).
  split; [reflexivity|]. split; [apply Hon; reflexivity|].
  split; [apply Hoff; reflexivity | apply Hfree; reflexivity].
Defined.

Lemma unreachable_cell_is_empty_witness :
  @csvCell plainHost pollutedRow 0 (plainColumn "a.constructor.name" "Ctor")
  = EmptyString
  /\ @wordCell plainHost pollutedRow 0
       (plainColumn "a.constructor.name" "Ctor") = "<td></td>"
  /\ @excelCell plainHost (VStr "not a row") 0 (plainColumn "length" "Length")
     = CellText EmptyString.
Proof.
  destruct (@unreachable_cell_is_empty plainHost pollutedRow 0
              (plainColumn "a.constructor.name" "Ctor") eq_refl)
    as (Hcsv & _ & _ & Hword).
  { left. exists "constructor". split; simpl; auto. }
  destruct (@unreachable_cell_is_empty plainHost (VStr "not a row") 0
              (plainColumn "length" "Length") eq_refl)
    as (_ & Hexcel & _).
  { right. reflexivity. }
  split; [exact Hcsv|]. split; [exact Hword | exact Hexcel].
Defined.

Lemma select_all_checkbox_status_witness :
  let props := localProps (numberedRows 1 5) [] (scopedSelection scopePage) in
  let st :=
    setInternalSelectedRows [rowOf 1 (VNum 1); rowOf 5 (VNum 5)]
      (withPage 0 2 (initialState props)) in
  @isIndeterminate plainHost props st = true
  /\ @isAllSelected plainHost props st = false
  /\ 0 < @selectedInScope plainHost props st
         < List.length (@selectAllScope plainHost props st).
Proof.
  intros props st.
  destruct (@select_all_checkbox_status plainHost props st)
    as (_ & Hpartial & _).
  split; [reflexivity|]. split; [reflexivity|].
  apply Hpartial. reflexivity.
Defined.

Lemma toggle_flips_one_key_witness :
  let props := localProps (numberedRows 1 5) [] (scopedSelection scopePage) in
  let st :=
    setInternalSelectedRows [rowOf 1 (VNum 1); rowOf 5 (VNum 5)]
      (initialState props) in
  let fresh := VObj 77 [("id", VNum 1)] (VIntrinsic ObjectPrototype) in
  isRowSelected props st fresh = true
  /\ isRowSelected props (fst (handleSelectionChange props fresh st)) fresh
     = false
  /\ isRowSelected props (fst (handleSelectionChange props fresh st))
       (rowOf 5 (VNum 5))
     = true.
Proof.
  intros props st fresh.
  destruct (toggle_flips_one_key props st fresh eq_refl eq_refl eq_refl)
    as [Hflip Hothers].
  split; [reflexivity|]. split.
  - rewrite Hflip. reflexivity.
  - rewrite Hothers; reflexivity.
Defined.

Lemma handleSortChange_cycle_witness :
  let props := localProps gappedRows [] None in
  let st := initialState props in
  let s1 := fst (handleSortChange props noCallbacks "k" st) in
  let s2 := fst (handleSortChange props noCallbacks "k" s1) in
  let s3 := fst (handleSortChange props noCallbacks "k" s2) in
  sortState props s1 = {| column := Some "k"; direction := Some asc |}
  /\ sortState props s2 = {| column := Some "k"; direction := Some desc |}
  /\ sortState props s3 = {| column := None; direction := None |}
  /\ @processedData plainHost props s3 = gappedRows.
Proof.
  intros props st s1 s2 s3.
  destruct (@handleSortChange_cycle plainHost props noCallbacks st "k")
    as (_ & _ & Hcycle).
  destruct (Hcycle eq_refl eq_refl eq_refl) as (H1 & H2 & H3 & Hrows & _).
  split; [exact H1|]. split; [exact H2|]. split; [exact H3|].
  apply (Hrows gappedRows).
Defined.

Lemma handleFilterChange_entries_witness :
  let props := localProps (numberedRows 1 5) [] None in
  let st :=
    setInternalFilters [("k", filterOn OpGreaterThan (VNum 3))]
      (withPage 2 2 (initialState props)) in
  let set := fst (handleFilterChange props noCallbacks "id" (VNum 0)
                    (Some OpEquals) st) in
  let cleared := fst (handleFilterChange props noCallbacks "k"
                        (VStr EmptyString) None set) in
  let inherited := fst (handleFilterChange props noCallbacks "__proto__"
                          (VStr "x") None st) in
  assoc "id" (filters props set) = Some (filterOn OpEquals (VNum 0))
  /\ assoc "k" (filters props set)
     = Some (filterOn OpGreaterThan (VNum 3))
  /\ page props set = 0
  /\ assoc "k" (filters props cleared) = None
  /\ assoc "id" (filters props cleared) = Some (filterOn OpEquals (VNum 0))
  /\ filters props inherited = filters props st.
Proof.
  intros props st set cleared inherited.
  destruct (handleFilterChange_entries props noCallbacks st "id" (VNum 0)
              (Some OpEquals) eq_refl eq_refl eq_refl)
    as (Hdistinct & _ & Hother & Hpage & Hid & _).
  { repeat constructor. intros []. }
  destruct (handleFilterChange_entries props noCallbacks set "k"
              (VStr EmptyString) None eq_refl eq_refl eq_refl Hdistinct)
    as (_ & Hk & Hkept & _).
  destruct (handleFilterChange_entries props noCallbacks st "__proto__"
              (VStr "x") None eq_refl eq_refl eq_refl)
    as (_ & _ & _ & _ & _ & Hsame).
  { repeat constructor. intros []. }
  assert (Hid' : assoc "id" (filters props set)
                 = Some (filterOn OpEquals (VNum 0)))
    by (apply Hid; [discriminate | reflexivity]).
  split; [exact Hid'|].
  split; [rewrite Hother by discriminate; reflexivity|].
  split; [exact Hpage|]. split; [exact Hk|].
  split; [rewrite Hkept by discriminate; exact Hid'|].
  apply Hsame. reflexivity.
Defined.

Lemma handleRowsPerPageChange_first_page_witness :
  let props := localProps (numberedRows 1 25) [] None in
  let st := withPage 2 10 (initialState props) in
  @paginatedData plainHost props st = numberedRows 21 5
  /\ @paginatedData plainHost props
       (fst (handleRowsPerPageChange noCallbacks 5 st))
     = numberedRows 1 5.
Proof.
  intros props st. split; [reflexivity|].
  destruct (@handleRowsPerPageChange_first_page plainHost props noCallbacks
              st 5) as [_ Hfirst].
  destruct (Hfirst eq_refl eq_refl eq_refl eq_refl) as (_ & _ & _ & Hshown).
  rewrite Hshown. reflexivity.
Defined.

Lemma column_visibility_witness :
  let shown :=
    handleColumnVisibilityChange "id" true
      (handleColumnVisibilityChange "id" false
         (initialVisibleColumns personColumns)) in
  shown = ["name"; "id"]
  /\ visibleColumnsConfig personColumns shown = personColumns
  /\ ~ In (plainColumn "id" "Id")
         (visibleColumnsConfig personColumns
            (handleColumnVisibilityChange "id" false (shown ++ ["id"]))).
Proof.
  intros shown. split; [reflexivity|]. split; [reflexivity|].
  intros Hin.
  apply (proj1 (column_visibility personColumns (shown ++ ["id"]) "id" false
                  (plainColumn "id" "Id"))) in Hin.
  destruct Hin as [_ Hin]. discriminate Hin.
Defined.

Lemma fetch_success_pass_through_witness :
  let props := remoteProps answeringFetch in
  let st :=
    setInternalFilters [("k", filterOn OpGreaterThan (VNum 100))]
      (withSort "k" desc (withPage 10 2 (initialState props))) in
  exists st',
    fetchServerData props st = (st', [], Fulfilled tt)
    /\ @paginatedData plainHost props st' = numberedRows 21 2
    /\ @totalCount plainHost props st' = 40.
Proof.
  intros props st.
  destruct (@fetch_success_pass_through plainHost props st answeringFetch
              {| rdata := numberedRows 21 2; rtotalCount := 40 |}
              eq_refl eq_refl)
    as (st' & Hrun & _ & _ & Hshown & Htotal & _).
  exists st'. split; [exact Hrun|]. split; [exact Hshown | exact Htotal].
Defined.

Lemma integer_sort_ordered_stable_witness :
  let props := localProps tiedRows [] None in
  let st := withSort "k" asc (initialState props) in
  @sortStage plainHost props st tiedRows
  = [rowOf 2 (VNum 1); rowOf 4 (VNum 1); rowOf 1 (VNum 2); rowOf 3 (VNum 2)]
  /\ StronglySorted (inDirection asc "k")
       (@sortStage plainHost props st tiedRows)
  /\ filter (fun x => (numAt "k" x =? 2)%Z)
       (@sortStage plainHost props st tiedRows)
     = [rowOf 1 (VNum 2); rowOf 3 (VNum 2)].
Proof.
  intros props st.
  destruct (@integer_sort_ordered_stable plainHost props st "k" asc tiedRows)
    as [Hsorted Hstable]; try reflexivity; try discriminate.
  split; [reflexivity|]. split; [exact Hsorted|].
  rewrite Hstable. reflexivity.
Defined.

Lemma processedData_rows_witness :
  let props := localProps (numberedRows 1 5) [] None in
  let st :=
    setInternalFilters [("k", filterOn OpGreaterThan (VNum 3))]
      (initialState props) in
  In (rowOf 4 (VNum 4)) (@processedData plainHost props st)
  /\ ~ In (rowOf 3 (VNum 3)) (@processedData plainHost props st)
  /\ @processedData plainHost props st = numberedRows 4 2.
Proof.
  intros props st.
  destruct (@processedData_rows plainHost props st eq_refl)
    as (Hin & _ & Horder & _).
  split; [|split].
  - apply Hin. split; [simpl; tauto | reflexivity].
  - intros H. apply Hin in H. destruct H as [_ H]. discriminate H.
  - rewrite Horder by (left; reflexivity). reflexivity.
Defined.

Lemma totalPages_counts_pages_witness :
  let props := localProps (numberedRows 1 25) [] None in
  let st := withPage 0 10 (initialState props) in
  exists n,
    @totalPages plainHost props st = Some n
    /\ (forall p,
          pageSlice (@processedData plainHost props st) p 10 <> [] <-> p < n)
    /\ (forall p,
          S p < n ->
          List.length (pageSlice (@processedData plainHost props st) p 10)
          = 10)
    /\ List.concat
         (map (fun p => pageSlice (@processedData plainHost props st) p 10)
            (seq 0 n))
       = @processedData plainHost props st.
Proof.
  intros props st.
  apply (proj2 (@totalPages_counts_pages plainHost props st 9 eq_refl)).
  reflexivity.
Defined.


Lemma getNestedValue_resolution_witness :
  getNestedValue pollutedRow "a.b" = Ok (VStr "deep")
  /\ getNestedValue pollutedRow "id" = get pollutedRow "id"
  /\ getNestedValue (VNum 3) "toFixed" = Ok VUndefined.
Proof.
  destruct (getNestedValue_resolution pollutedRow "a" "b")
    as (_ & Hstep & _).
  destruct (getNestedValue_resolution pollutedRow "id" "")
    as (_ & _ & _ & Hplain).
  destruct (getNestedValue_resolution (VNum 3) "toFixed" "")
    as (_ & _ & Hprim & _).
  split.
  - change (getNestedValue pollutedRow ("a" +++ "." +++ "b")
            = Ok (VStr "deep")).
    rewrite Hstep. reflexivity.
  - split; [apply Hplain; reflexivity | apply Hprim; reflexivity].
Defined.

(* ====================================================================== *)
(** ** What is exported *)
(* ====================================================================== *)

Section ExportedContent.

Context {host : Host}.

Lemma mapi_ext {A B : Type} (f g : nat -> A -> B) (l : list A) :
  (forall k x, f k x = g k x) -> forall i, mapi f i l = mapi g i l.
Proof.
  intros H. induction l as [|x l IH]; intros i; simpl;
    [reflexivity | now rewrite H, IH].
Qed.

Lemma cellText_excelCell (row : value) (rowIndex : nat)
    (col : DataTableColumn) :
  cellText (excelCell row rowIndex col)
  = formatValueForExport (valueAt row (id col)) row col rowIndex.
Proof.
  unfold excelCell, formatValueForExport.
  destruct (valueAt row (id col)), (exportFormat col); reflexivity.
Qed.

(** X19.  The exporters agree on the content of the cells.  The body of
    the PDF table holds the formatted values; the Excel sheet holds the
    same texts, a number kept as a number being the one whose decimal form
    is that text; the rows of the CSV grid after the header are the same
    texts; the Word table holds them HTML-escaped, one [<td>] each. *)
Theorem exporters_agree (data : list value) (columns : list DataTableColumn)
    (config : ExportConfig) :
  map (map cellText) (excelRows data (exportableColumns columns))
  = pdfBodyRows data columns
  /\ csvGrid data columns config
     = (if notFalse (includeHeaders config)
        then [map label (exportableColumns columns)] else [])
       ++ pdfBodyRows data columns
  /\ tableRows data (exportableColumns columns)
     = join nl (map wordRowOf (pdfBodyRows data columns)).
Proof.
  unfold excelRows, pdfBodyRows, csvGrid, tableRows.
  set (cols := exportableColumns columns).
  split; [|split].
  - rewrite <- mapi_map. apply mapi_ext. intros k x.
    rewrite map_map. apply map_ext. intros col. apply cellText_excelCell.
  - reflexivity.
  - rewrite <- mapi_map. f_equal. apply mapi_ext. intros k x.
    unfold wordRow, wordRowOf, wordCell. now rewrite map_map.
Qed.

(** X20.  What [handleExport] hands over and the exporter keeps.  A column
    is exported iff it is a column of the table that is not marked
    [exportable: false], does not start hidden and, unless
    [visibleColumnsOnly] is [false], is listed as visible: a column that
    starts hidden is never exported, even after it was made visible.  The
    rows exported are all the rows that pass the filter stage, on every
    page, or all the input rows when [filteredDataOnly] is [false]. *)
Theorem exported_columns_and_rows (choice : ExportChoice)
    (visibleColumns : list string) (props : DataTableProps) (st : HookState) :
  (forall col,
      In col (exportableColumns (columnsToExport choice visibleColumns props))
      <-> In col (columns props)
          /\ notFalse (exportable col) = true
          /\ notSet (hidden col) = true
          /\ (notFalse (visibleColumnsOnly choice) = true ->
              existsb (String.eqb (id col)) visibleColumns = true))
  /\ (forall col,
        hidden col = Some true ->
        ~ In col
            (exportableColumns (columnsToExport choice visibleColumns props)))
  /\ (onFetchData props = None ->
      forall row,
        In row (dataToExport choice props st)
        <-> In row (propData props)
            /\ (notFalse (filteredDataOnly choice) = true ->
                rowPasses props st row = true)).
Proof.
  assert (Hcols : forall col,
      In col (exportableColumns (columnsToExport choice visibleColumns props))
      <-> In col (columns props)
          /\ notFalse (exportable col) = true
          /\ notSet (hidden col) = true
          /\ (notFalse (visibleColumnsOnly choice) = true ->
              existsb (String.eqb (id col)) visibleColumns = true)).
  { intros col. unfold exportableColumns, columnsToExport.
    rewrite filter_In, andb_true_iff.
    destruct (notFalse (visibleColumnsOnly choice)).
    - unfold visibleColumnsConfig. rewrite filter_In. tauto.
    - split; [intros (H1 & H2 & H3) | tauto].
      repeat split; try assumption. discriminate. }
  split; [exact Hcols|]. split.
  - intros col Hhidden Hin. apply Hcols in Hin.
    destruct Hin as (_ & _ & Hshown & _).
    unfold notSet in Hshown. rewrite Hhidden in Hshown. discriminate.
  - intros Hlocal row. unfold dataToExport.
    destruct (notFalse (filteredDataOnly choice)).
    + rewrite (proj1 (processedData_rows props st Hlocal) row). tauto.
    + split; [intros H; split; [exact H | discriminate] | tauto].
Qed.

End ExportedContent.

Lemma exported_columns_and_rows_witness :
  let cols := [plainColumn "id" "Id"; hiddenColumn "secret" "Secret"] in
  let props := localProps (numberedRows 1 25) cols None in
  let st := withPage 1 10 (initialState props) in
  exportableColumns (columnsToExport everythingChoice ["id"; "secret"] props)
  = [plainColumn "id" "Id"]
  /\ ~ In (hiddenColumn "secret" "Secret")
         (exportableColumns
            (columnsToExport defaultChoice ["id"; "secret"] props))
  /\ (In (rowOf 25 (VNum 25)) (@dataToExport plainHost defaultChoice props st)
      <-> In (rowOf 25 (VNum 25)) (propData props)
          /\ (notFalse (filteredDataOnly defaultChoice) = true ->
              @rowPasses plainHost props st (rowOf 25 (VNum 25)) = true)).
Proof.
  intros cols props st.
  destruct (@exported_columns_and_rows plainHost defaultChoice
              ["id"; "secret"] props st) as (_ & Hhidden & Hrows).
  split; [reflexivity|]. split.
  - apply Hhidden. reflexivity.
  - apply Hrows. reflexivity.
Defined.
